(** * PeTTraC: event bus, observable state, display driver, button sampler,
      battery monitor and render-loop pacing.

    A shallow embedding of the Python sources
    ([event_system.py], [state_manager.py], [config.py],
    [hardware_interface.py], [app.py]) and the properties the system
    specification states about them.

    Conventions of the embedding:
    - Python [int] is [Z]; bit operations are [Z.land], [Z.lor],
      [Z.shiftl], [Z.shiftr]; a numpy [uint8] is a [Z] reduced modulo 256
      after every arithmetic operation;
    - a [dict] with string keys is a [gmap string _];
    - a callable stored in a list or table is an identifier (a [nat]); what
      the callable does when it is invoked is given by a behaviour function
      that is a parameter of the enclosing section;
    - an exception caught by [except Exception] is the outcome [Raised];
    - effects on the outside world (GPIO, SPI, logging, a spawned process)
      are recorded, in program order, in a list. *)

From Stdlib Require Import ZArith List Bool Lia QArith Qcanon.
From stdpp Require Import gmap strings list numbers.

Local Open Scope Z_scope.

(** ** Values, outcomes and the log *)

(** How a call to a Python callable ends. *)
Inductive outcome := Returned | Raised.

(** A callable is known by its identity only. *)
Definition callback := nat.

(** JSON-like values held by the configuration and by event payloads. *)
Inductive value :=
| VNone
| VBool (b : bool)
| VInt (n : Z)
| VFloat (q : Qc)
| VStr (s : string).

Inductive level := DEBUG | INFO | WARNING | ERROR | CRITICAL.

(** The messages handed to [logging]; the formatted text is kept as a
    constructor with the interpolated values as arguments. *)
Inductive log_msg :=
| MsgConfigSaved
| MsgConfigSaveError
| MsgDisplayInitialized (rotation : Z)
| MsgBatteryShutdownLevel (percentage : Z)
| MsgBatteryCritical (percentage : Z)
| MsgBatteryLow (percentage : Z)
| MsgInitiatingShutdown
| MsgShutdownFailed
| MsgVoltageReadError
| MsgPercentageReadError
| MsgChargingReadError.

(** ** config.py *)

Module Config.

Definition section := gmap string value.

(** [DEFAULT_CONFIG] *)
Definition DEFAULT_CONFIG : gmap string section :=
  list_to_map
    [ ("display"%string,
       list_to_map
         [ ("rotation"%string, VInt 0);
           ("brightness"%string, VInt 50);
           ("theme"%string, VStr "default");
           ("update_interval"%string, VFloat 1%Qc) ]);
      ("battery"%string,
       list_to_map
         [ ("low_warning"%string, VInt 20);
           ("critical_warning"%string, VInt 10);
           ("auto_shutdown"%string, VInt 5);
           ("show_percentage"%string, VBool true);
           ("show_voltage"%string, VBool true) ]);
      ("system"%string,
       list_to_map
         [ ("debug_mode"%string, VBool false);
           ("log_level"%string, VStr "INFO");
           ("auto_start"%string, VBool true) ]);
      ("buttons"%string,
       list_to_map
         [ ("key1"%string, VStr "toggle_menu");
           ("key2"%string, VStr "toggle_brightness");
           ("key3"%string, VStr "toggle_theme") ]) ].

(** The [Configuration] object together with the file it persists to:
    [stored] is the content of [config_file] ([None]: no file yet) and
    [writable] tells whether writing the file succeeds; a write that fails
    is taken to leave the file as it was. *)
Record Configuration := mkConfiguration {
  config : gmap string section;
  stored : option (gmap string section);
  writable : bool
}.

(** [Configuration.get(section, key)] with a key. *)
Definition get (c : Configuration) (sec key : string) : option value :=
  match config c !! sec with
  | None => None
  | Some s => s !! key
  end.

(** [Configuration._save_config()]: the result and the log line. *)
Definition _save_config (c : Configuration)
  : bool * Configuration * list (level * log_msg) :=
  if writable c
  then (true, mkConfiguration (config c) (Some (config c)) (writable c),
        [(INFO, MsgConfigSaved)])
  else (false, c, [(ERROR, MsgConfigSaveError)]).

(** [Configuration.set(section, key, value)] *)
Definition set (c : Configuration) (sec key : string) (v : value)
  : bool * Configuration * list (level * log_msg) :=
  let s := default ∅ (config c !! sec) in
  _save_config
    (mkConfiguration (<[sec := <[key := v]> s]> (config c)) (stored c) (writable c)).

End Config.

(** ** event_system.py *)

Module EventSystem.

Record Event := mkEvent {
  event_type : string;
  data : gmap string value;
  handled : bool
}.

(** [Event.__init__]: [data or {}]. *)
Definition Event_init (event_type : string) (data : option (gmap string value)) : Event :=
  mkEvent event_type (default ∅ data) false.

Definition mark_handled (e : Event) : Event :=
  mkEvent (event_type e) (data e) true.

Record EventBus := mkEventBus {
  listeners : gmap string (list callback);
  processed_events : Z;
  debug_mode : bool
}.

Definition EventBus_init : EventBus := mkEventBus ∅ 0 false.

Definition set_listeners (bus : EventBus) (l : gmap string (list callback)) : EventBus :=
  mkEventBus l (processed_events bus) (debug_mode bus).

(** [list.remove(x)]: drops the first occurrence. *)
Fixpoint list_remove (x : callback) (l : list callback) : list callback :=
  match l with
  | [] => []
  | y :: l' => if decide (x = y) then l' else y :: list_remove x l'
  end.

Definition subscribe (bus : EventBus) (event_type : string) (cb : callback) : EventBus :=
  let bus1 :=
    match listeners bus !! event_type with
    | Some _ => bus
    | None => set_listeners bus (<[event_type := []]> (listeners bus))
    end in
  let ls := default [] (listeners bus1 !! event_type) in
  if decide (cb ∈ ls) then bus1
  else set_listeners bus1 (<[event_type := ls ++ [cb]]> (listeners bus1)).

Definition unsubscribe (bus : EventBus) (event_type : string) (cb : callback) : EventBus :=
  match listeners bus !! event_type with
  | Some ls =>
      if decide (cb ∈ ls)
      then set_listeners bus (<[event_type := list_remove cb ls]> (listeners bus))
      else bus
  | None => bus
  end.

(** One invocation of a subscriber by [publish]: which one, how it
    ended ([Raised] is the logged error), and whether the event was marked
    handled when it ended. *)
Record call := mkCall {
  called : callback;
  ended : outcome;
  handled_after : bool
}.

Section Publish.

(** What a subscriber does when it is called with the event: it may
    return or raise, and it may change the bus (subscribe, unsubscribe,
    publish again) and the event object (mark it handled, edit the
    payload). *)
Variable run : callback -> EventBus -> Event -> outcome * EventBus * Event.

Definition count_processed (bus : EventBus) : EventBus :=
  mkEventBus (listeners bus) (processed_events bus + 1) (debug_mode bus).

(** The [for callback in listeners] loop of [publish], over the copied
    list. The third component lists the invocations, in order. *)
Fixpoint dispatch (snapshot : list callback) (bus : EventBus) (event : Event)
  : EventBus * Event * list call :=
  match snapshot with
  | [] => (bus, event, [])
  | cb :: rest =>
      if handled event then dispatch rest bus event
      else
        let '(res, bus1, event1) := run cb bus event in
        let bus2 := match res with
                    | Returned => count_processed bus1
                    | Raised => bus1
                    end in
        let '(bus3, event3, tr) := dispatch rest bus2 event1 in
        (bus3, event3, mkCall cb res (handled event1) :: tr)
  end.

Definition publish (bus : EventBus) (event : Event)
  : EventBus * Event * list call :=
  match listeners bus !! event_type event with
  | Some ls => dispatch ls bus event
  | None => (bus, event, [])
  end.

Definition publish_by_type (bus : EventBus) (event_type : string)
    (data : option (gmap string value)) :=
  publish bus (Event_init event_type data).

(** The copied subscriber list [publish] iterates over. *)
Definition snapshot_of (bus : EventBus) (event : Event) : list callback :=
  default [] (listeners bus !! event_type event).

Definition invoked (r : EventBus * Event * list call) : list callback :=
  map called (snd r).


Lemma dispatch_handled snapshot bus event :
  handled event = true -> dispatch snapshot bus event = (bus, event, []).
Proof.
  intros Hh. induction snapshot as [|cb rest IH]; simpl; [done|].
  by rewrite Hh.
Qed.

Lemma dispatch_prefix snapshot : forall bus event,
  exists k, invoked (dispatch snapshot bus event) = take k snapshot.
Proof.
  induction snapshot as [|cb rest IH]; intros bus event; simpl.
  - by exists 0%nat.
  - destruct (handled event) eqn:Hh.
    + rewrite dispatch_handled; [|done]. by exists 0%nat.
    + destruct (run cb bus event) as [[res bus1] event1].
      set (bus2 := match res with Returned => _ | Raised => _ end).
      destruct (IH bus2 event1) as [k Hk].
      destruct (dispatch rest bus2 event1) as [[bus3 event3] tr].
      exists (S k). unfold invoked in *. simpl in *. by rewrite Hk.
Qed.




End Publish.

(** A bus with three subscribers of ["button_press"]: 1 returns and
    subscribes 9 while the publish is running, 2 raises, 3 returns; 7
    marks the event handled. *)
Definition demo_run (cb : callback) (bus : EventBus) (event : Event)
  : outcome * EventBus * Event :=
  match cb with
  | 1%nat => (Returned, subscribe bus "button_press" 9%nat, event)
  | 2%nat => (Raised, bus, event)
  | 7%nat => (Returned, bus, mark_handled event)
  | _ => (Returned, bus, event)
  end.

Definition demo_bus : EventBus :=
  subscribe (subscribe (subscribe EventBus_init "button_press" 1%nat)
                       "button_press" 2%nat) "button_press" 3%nat.

Definition demo_event : Event := Event_init "button_press" None.

Example publish_demo :
  let r := publish demo_run demo_bus demo_event in
  snd r = [mkCall 1%nat Returned false; mkCall 2%nat Raised false;
           mkCall 3%nat Returned false]
  /\ processed_events (fst (fst r)) = 2
  /\ listeners (fst (fst r)) !! "button_press"%string = Some [1; 2; 3; 9]%nat.
Proof. vm_compute. done. Qed.

Example publish_demo_handled_midway :
  let bus := subscribe (subscribe (subscribe EventBus_init "k" 1%nat) "k" 7%nat) "k" 3%nat in
  snd (publish demo_run bus (Event_init "k" None))
  = [mkCall 1%nat Returned false; mkCall 7%nat Returned true].
Proof. vm_compute. done. Qed.

Example publish_demo_already_handled :
  snd (publish demo_run demo_bus (mark_handled demo_event)) = [].
Proof. vm_compute. done. Qed.

Example subscribe_twice_is_noop :
  subscribe demo_bus "button_press" 2%nat = demo_bus.
Proof. vm_compute. done. Qed.



End EventSystem.

(** ** state_manager.py: [Observable] *)

Module StateManager.

Section Observable.

(** The value type, with Python's [!=] read as the negation of a
    decidable structural equality. *)
Context {T : Type} `{EqDecision T}.

Record Observable := mkObservable {
  _value : T;
  _observers : list callback
}.

Definition Observable_init (initial_value : T) : Observable :=
  mkObservable initial_value [].

(** The [value] property (the getter). *)
Definition value (o : Observable) : T := _value o.

Definition observe (o : Observable) (cb : callback) : Observable :=
  if decide (cb ∈ _observers o) then o
  else mkObservable (_value o) (_observers o ++ [cb]).

Definition unobserve (o : Observable) (cb : callback) : Observable :=
  if decide (cb ∈ _observers o)
  then mkObservable (_value o) (EventSystem.list_remove cb (_observers o))
  else o.

(** What an observer does when it is called with a value: it returns or
    raises, and may act on the observable it is registered with. *)
Variable run : callback -> T -> Observable -> outcome * Observable.

(** One call of an observer: who was called, with which argument, what
    [value] returned at the moment of the call, and how the call ended. *)
Record notification := mkNotification {
  observer : callback;
  argument : T;
  seen : T;
  result : outcome
}.

(** [_notify_observers]: the [for observer in self._observers] loop. The
    loop reads the live list by position [i]; an observer may grow the
    list, so the model is bounded by [fuel] ([None]: fuel exhausted). *)
Fixpoint _notify_observers (fuel : nat) (i : nat) (new_value : T) (o : Observable)
  : option (Observable * list notification) :=
  match fuel with
  | O => None
  | S fuel' =>
      match _observers o !! i with
      | None => Some (o, [])
      | Some cb =>
          let '(res, o1) := run cb new_value o in
          match _notify_observers fuel' (S i) new_value o1 with
          | Some (o2, tr) =>
              Some (o2, mkNotification cb new_value (value o) res :: tr)
          | None => None
          end
      end
  end.

(** The [value] setter. *)
Definition set_value (fuel : nat) (new_value : T) (o : Observable)
  : option (Observable * list notification) :=
  if decide (new_value = _value o) then Some (o, [])
  else _notify_observers fuel 0 new_value (mkObservable new_value (_observers o)).

(** Observers that only read: a call leaves the observable as it was. *)
Definition read_only : Prop :=
  forall cb a o, snd (run cb a o) = o.

Lemma notify_read_only (Hro : read_only) v o : forall fuel i,
  (length (_observers o) - i < fuel)%nat ->
  _notify_observers fuel i v o
  = Some (o, map (fun cb => mkNotification cb v (value o) (fst (run cb v o)))
                 (drop i (_observers o))).
Proof.
  induction fuel as [|fuel IH]; intros i Hlen; simpl.
  - lia.
  - destruct (_observers o !! i) as [cb|] eqn:Hi.
    + pose proof (Hro cb v o) as Hsame.
      destruct (run cb v o) as [res o1] eqn:Hrun. simpl in Hsame. subst o1.
      apply lookup_lt_Some in Hi as Hlt.
      rewrite IH by lia.
      rewrite (drop_S _ cb i) by done. simpl. by rewrite Hrun.
    + apply lookup_ge_None in Hi. by rewrite drop_ge by lia.
Qed.

(** Whatever the observers do, every one that is called receives the
    new value. *)
Lemma notify_arguments v : forall fuel i o o' tr,
  _notify_observers fuel i v o = Some (o', tr) ->
  Forall (fun n => argument n = v) tr.
Proof.
  induction fuel as [|fuel IH]; intros i o o' tr; simpl; [intros [=]|].
  destruct (_observers o !! i) as [cb|]; [|intros [= <- <-]; constructor].
  destruct (run cb v o) as [res o1].
  destruct (_notify_observers fuel (S i) v o1) as [[o2 tr']|] eqn:Hrest; intros [=]; subst.
  constructor; [done|]. by eapply IH.
Qed.

(** Whatever the observers do, the first one finds the new value stored. *)
Lemma set_value_first_sees_new fuel v o o' n tr :
  set_value fuel v o = Some (o', n :: tr) -> seen n = v.
Proof.
  unfold set_value. destruct (decide (v = _value o)); [intros [=]|].
  destruct fuel as [|fuel]; simpl; [intros [=]|].
  destruct (_observers o !! 0%nat) as [cb|]; [|intros [=]].
  destruct (run cb v _) as [res o1].
  destruct (_notify_observers fuel 1 v o1) as [[o2 tr']|]; intros [=]; subst.
  done.
Qed.

Lemma set_value_arguments fuel v o o' tr :
  set_value fuel v o = Some (o', tr) -> Forall (fun n => argument n = v) tr.
Proof.
  unfold set_value. destruct (decide (v = _value o)).
  - intros [= <- <-]. constructor.
  - apply notify_arguments.
Qed.

End Observable.

Arguments Observable : clear implicits.
Arguments notification : clear implicits.

(** Three observers that return without touching the observable. *)
Definition quiet_run (cb : callback) (a : Z) (o : Observable Z) : outcome * Observable Z :=
  (match cb with 2%nat => Raised | _ => Returned end, o).

Definition demo_observable : Observable Z :=
  observe (observe (observe (Observable_init 50) 1%nat) 2%nat) 3%nat.

Example set_demo :
  set_value quiet_run 4 75 demo_observable
  = Some (mkObservable 75 [1; 2; 3]%nat,
          [ mkNotification 1%nat 75 75 Returned;
            mkNotification 2%nat 75 75 Raised;
            mkNotification 3%nat 75 75 Returned ]).
Proof. reflexivity. Qed.

(** C7. Setting an [Observable] to the value it holds does nothing and
    calls nobody. Setting it to a different value stores the value before
    anybody is called: whatever the observers do, each one called receives
    the new value and the first one finds it stored; and with observers
    that only read the observable, all of them are called, in registration
    order, each with the new value and each finding the new value stored
    (an error raised by one does not stop the others), and setting the
    same value again is then a no-op, so the two sets together notified
    every observer once. *)
Theorem observable_set_notifies_once_with_new_value
    {T : Type} `{EqDecision T}
    (run : callback -> T -> Observable T -> outcome * Observable T)
    (o : Observable T) (v : T) (fuel : nat) :
  let o_new := mkObservable v (_observers o) in
  set_value run fuel (value o) o = Some (o, [])
  /\ (forall o' tr,
        set_value run fuel v o = Some (o', tr) ->
        Forall (fun n => argument n = v) tr
        /\ (forall n, head tr = Some n -> seen n = v))
  /\ (read_only run ->
      (length (_observers o) < fuel)%nat ->
      v <> value o ->
      set_value run fuel v o
      = Some (o_new,
              map (fun cb => mkNotification cb v v (fst (run cb v o_new)))
                  (_observers o))
      /\ set_value run fuel v o_new = Some (o_new, [])).
Proof.
  intros o_new. split; [|split].
  - unfold set_value, value. by rewrite decide_True.
  - intros o' tr Hset. split; [by eapply set_value_arguments|].
    intros n Hhead. destruct tr as [|n' tr']; [discriminate|].
    injection Hhead as ->. by eapply set_value_first_sees_new.
  - intros Hro Hfuel Hne. split.
    + unfold set_value, value in *. rewrite decide_False by done.
      rewrite notify_read_only by (done || simpl; lia). done.
    + unfold set_value. by rewrite decide_True.
Qed.

(** The theorem at [demo_observable]: 50 is the value it holds, 75 is new. *)
Lemma observable_set_notifies_once_with_new_value_witness :
  set_value quiet_run 4 50 demo_observable = Some (demo_observable, [])
  /\ set_value quiet_run 4 75 demo_observable
     = Some (mkObservable 75 [1; 2; 3]%nat,
             [ mkNotification 1%nat 75 75 Returned;
               mkNotification 2%nat 75 75 Raised;
               mkNotification 3%nat 75 75 Returned ])
  /\ set_value quiet_run 4 75 (mkObservable 75 [1; 2; 3]%nat)
     = Some (mkObservable 75 [1; 2; 3]%nat, []).
Proof.
  assert (Hro : read_only quiet_run) by (intros cb a o; reflexivity).
  assert (Hfuel : (length (_observers demo_observable) < 4)%nat) by (vm_compute; lia).
  destruct (observable_set_notifies_once_with_new_value
              quiet_run demo_observable 75 4) as (Hsame & _ & Hdiff).
  split; [exact Hsame|].
  apply Hdiff; [exact Hro | exact Hfuel | vm_compute; discriminate].
Defined.

(** An observer that sets the observable again while it is being
    notified: the later observers are still called with the value of the
    outer set, but read the value of the inner one. *)
Definition meddling_run (cb : callback) (a : Z) (o : Observable Z) : outcome * Observable Z :=
  match cb with
  | 1%nat => (Returned, mkObservable 99 (_observers o))
  | _ => (Returned, o)
  end.

Example set_with_meddling_observer :
  set_value meddling_run 4 75 demo_observable
  = Some (mkObservable 99 [1; 2; 3]%nat,
          [ mkNotification 1%nat 75 75 Returned;
            mkNotification 2%nat 75 99 Returned;
            mkNotification 3%nat 75 99 Returned ]).
Proof. reflexivity. Qed.

End StateManager.

(** ** app.py: pacing of the main loop *)

Module App.

Local Open Scope Qc_scope.

(** [UPDATE_INTERVAL = 0.05] seconds. Clock readings and durations are
    rationals, in seconds. *)
Definition UPDATE_INTERVAL : Qc := Q2Qc (5 # 100).

(** Python's [max(a, b)]: the first argument unless the second is larger. *)
Definition py_max (a b : Qc) : Qc := if decide (a < b) then b else a.

(** What the outside world contributes to one iteration of the loop:
    [work] is by how much the clock advances while [self.update()] and
    [self.render()] run, [oversleep] by how much [time.sleep] overshoots. *)
Record tick_input := mkTickInput {
  work : Qc;
  oversleep : Qc
}.

Record tick_report := mkTickReport {
  loop_start : Qc;
  elapsed : Qc;
  sleep_time : Qc;
  slept : bool        (* whether [time.sleep] was called *)
}.

(** The body of [while self.running] in [run], from the clock reading
    [now] at the top of the iteration to the clock reading at its end. *)
Definition tick (now : Qc) (t : tick_input) : Qc * tick_report :=
  let loop_start := now in
  let now1 := now + work t in
  let elapsed := now1 - loop_start in
  let sleep_time := py_max 0 (UPDATE_INTERVAL - elapsed) in
  if decide (0 < sleep_time)
  then (now1 + sleep_time + oversleep t,
        mkTickReport loop_start elapsed sleep_time true)
  else (now1, mkTickReport loop_start elapsed sleep_time false).

(** The iterations of the loop, one per element of [ticks]. *)
Fixpoint run (now : Qc) (ticks : list tick_input) : list tick_report :=
  match ticks with
  | [] => []
  | t :: rest => let '(now', r) := tick now t in r :: run now' rest
  end.

Definition ms (n : Z) : Qc := Q2Qc (n # 1000).

Example run_slow_then_fast :
  map sleep_time (run (ms 123456) [mkTickInput (ms 70) 0; mkTickInput (ms 10) (ms 3);
                                   mkTickInput (ms 50) 0; mkTickInput (ms 49) 0])
  = [ms 0; ms 40; ms 0; ms 1].
Proof. apply (bool_decide_unpack _). vm_compute. exact I. Qed.





End App.

(** ** hardware_interface.py *)

Module Hardware.

Local Open Scope Z_scope.

(** *** The machine: driver object, configuration, and what was done *)

Inductive gpio_pin := GPIO_RST_PIN | GPIO_DC_PIN.

(** Effects, in program order. [SpiWriteBytes data] is the call
    [self.spi_writebyte(data)] (it reaches the wire when an SPI device is
    attached), [Sleep d] is [time.sleep] for [d] milliseconds,
    [ButtonCallback key cb] is the call of the callback registered for
    [key]. *)
Inductive hw_op :=
| DigitalWrite (pin : gpio_pin) (value : bool)
| SpiWriteBytes (data : list Z)
| SpiSetup
| Sleep (d : Z)
| ButtonCallback (key : string) (cb : callback)
| Log (lvl : level) (msg : log_msg)
| SubprocessRun (argv : list string).

(** An [ST7789] object; the first four fields are those it inherits from
    [RaspberryPi], [width] and [height] are the class attributes. *)
Record ST7789 := mkST7789 {
  button_states : gmap string bool;
  button_callbacks : gmap string (option callback);
  last_button_press_time : gmap string Z;
  button_debounce_ms : Z;
  width : Z;
  height : Z;
  rotation : Z
}.

Record machine := mkMachine {
  display : ST7789;
  config : Config.Configuration;
  trace : list hw_op
}.

Inductive exn :=
| ValueError
| KeyError (key : string)
| TypeError
| CallbackRaised (cb : callback).

Inductive result (A : Type) :=
| Ok (a : A)
| Exc (e : exn).
Arguments Ok {A} a.
Arguments Exc {A} e.

(** Methods of the driver: state passing with exceptions. *)
Definition M (A : Type) : Type := machine -> result A * machine.

Definition ret {A} (a : A) : M A := fun m => (Ok a, m).

Definition raise {A} (e : exn) : M A := fun m => (Exc e, m).

Definition bind {A B} (c : M A) (k : A -> M B) : M B :=
  fun m => match c m with
           | (Ok a, m1) => k a m1
           | (Exc e, m1) => (Exc e, m1)
           end.

(** [x ← c; k] and [c ;; k] are stdpp's notations for [bind]. *)
#[local] Instance M_ret : MRet M := @ret.
#[local] Instance M_bind : MBind M := fun A B k c => bind c k.

Definition emit (ops : list hw_op) : M unit :=
  fun m => (Ok tt, mkMachine (display m) (config m) (trace m ++ ops)).

Definition self : M ST7789 := fun m => (Ok (display m), m).

Definition set_self (d : ST7789) : M unit :=
  fun m => (Ok tt, mkMachine d (config m) (trace m)).

Definition with_rotation (d : ST7789) (r : Z) : ST7789 :=
  mkST7789 (button_states d) (button_callbacks d) (last_button_press_time d)
           (button_debounce_ms d) (width d) (height d) r.

Definition with_button_states (d : ST7789) (s : gmap string bool) : ST7789 :=
  mkST7789 s (button_callbacks d) (last_button_press_time d)
           (button_debounce_ms d) (width d) (height d) (rotation d).

Definition with_last_button_press_time (d : ST7789) (t : gmap string Z) : ST7789 :=
  mkST7789 (button_states d) (button_callbacks d) t
           (button_debounce_ms d) (width d) (height d) (rotation d).

Definition with_button_callbacks (d : ST7789) (c : gmap string (option callback)) : ST7789 :=
  mkST7789 (button_states d) c (last_button_press_time d)
           (button_debounce_ms d) (width d) (height d) (rotation d).

(** [config.set(section, key, value)] on the module's [config]. *)
Definition config_set (sec key : string) (v : value) : M bool :=
  fun m =>
    let '(ok, c, lg) := Config.set (config m) sec key v in
    (Ok ok, mkMachine (display m) c (trace m ++ map (fun e => Log (fst e) (snd e)) lg)).

(** *** [RaspberryPi]: pins and bus *)

Definition BUTTONS : list string :=
  ["up"; "down"; "left"; "right"; "press"; "key1"; "key2"; "key3"]%string.

(** [RaspberryPi.__init__] and [ST7789.__init__], the fields of the model;
    [rotation] is the constructor's argument, [None] when it is left out
    and the configuration holds no integer. *)
Definition ST7789_init (rotation : option Z) : ST7789 :=
  mkST7789
    (list_to_map (map (fun b => (b, false)) BUTTONS))
    (list_to_map (map (fun b => (b, None)) BUTTONS))
    (list_to_map (map (fun b => (b, 0)) BUTTONS))
    100
    240 240
    (default 0 rotation).

Definition digital_write (pin : gpio_pin) (value : bool) : M unit :=
  emit [DigitalWrite pin value].

Definition spi_writebyte (data : list Z) : M unit :=
  emit [SpiWriteBytes data].

Definition module_init : M Z :=
  emit [SpiSetup] ;; ret 0.

Definition register_button_callback (button : string) (callback_func : option callback)
  : M bool :=
  d ← self;
  match button_callbacks d !! button with
  | Some _ =>
      set_self (with_button_callbacks d (<[button := callback_func]> (button_callbacks d))) ;;
      ret true
  | None => ret false
  end.

(** *** [ST7789]: commands, initialisation, window *)

Definition command (cmd : Z) : M unit :=
  digital_write GPIO_DC_PIN false ;;
  spi_writebyte [cmd].

Definition data (val : Z) : M unit :=
  digital_write GPIO_DC_PIN true ;;
  spi_writebyte [val].

Definition reset : M unit :=
  digital_write GPIO_RST_PIN true ;;
  emit [Sleep 10] ;;
  digital_write GPIO_RST_PIN false ;;
  emit [Sleep 10] ;;
  digital_write GPIO_RST_PIN true ;;
  emit [Sleep 10].

(** The [rotation_values] table of [Init]. *)
Definition rotation_values : gmap Z Z :=
  list_to_map [(0, 0x70); (90, 0x10); (180, 0xC0); (270, 0xA0)].

Definition Init : M unit :=
  module_init ;;
  reset ;;
  command 0x36 ;;
  d ← self;
  let madctl := default 0x70 (rotation_values !! rotation d) in
  data madctl ;;
  command 0x3A ;;
  data 0x05 ;;
  command 0xB2 ;;
  data 0x0C ;;
  data 0x0C ;;
  data 0x00 ;;
  data 0x33 ;;
  data 0x33 ;;
  command 0xB7 ;;
  data 0x35 ;;
  command 0xBB ;;
  data 0x19 ;;
  command 0xC0 ;;
  data 0x2C ;;
  command 0xC2 ;;
  data 0x01 ;;
  command 0xC3 ;;
  data 0x12 ;;
  command 0xC4 ;;
  data 0x20 ;;
  command 0xC6 ;;
  data 0x0F ;;
  command 0xD0 ;;
  data 0xA4 ;;
  data 0xA1 ;;
  command 0xE0 ;;
  data 0xD0 ;;
  data 0x04 ;;
  data 0x0D ;;
  data 0x11 ;;
  data 0x13 ;;
  data 0x2B ;;
  data 0x3F ;;
  data 0x54 ;;
  data 0x4C ;;
  data 0x18 ;;
  data 0x0D ;;
  data 0x0B ;;
  data 0x1F ;;
  data 0x23 ;;
  command 0xE1 ;;
  data 0xD0 ;;
  data 0x04 ;;
  data 0x0C ;;
  data 0x11 ;;
  data 0x13 ;;
  data 0x2C ;;
  data 0x3F ;;
  data 0x44 ;;
  data 0x51 ;;
  data 0x2F ;;
  data 0x1F ;;
  data 0x1F ;;
  data 0x20 ;;
  data 0x23 ;;
  command 0x21 ;;
  command 0x11 ;;
  command 0x29 ;;
  emit [Log INFO (MsgDisplayInitialized (rotation d))].

Definition SetWindows (Xstart Ystart Xend Yend : Z) : M unit :=
  command 0x2A ;;
  data 0x00 ;;
  data (Z.land Xstart 0xff) ;;
  data 0x00 ;;
  data (Z.land (Xend - 1) 0xff) ;;
  command 0x2B ;;
  data 0x00 ;;
  data (Z.land Ystart 0xff) ;;
  data 0x00 ;;
  data (Z.land (Yend - 1) 0xff) ;;
  command 0x2C.

(** *** Pixels *)

(** One pixel of an RGB image: the three [uint8] channels. *)
Definition pixel : Type := Z * Z * Z.

(** numpy arithmetic on [uint8]: results wrap modulo 256. *)
Definition uint8 (x : Z) : Z := x mod 256.
Definition np_add (a b : Z) : Z := uint8 (a + b).
Definition np_bitwise_and (a b : Z) : Z := Z.land a b.
Definition np_right_shift (a n : Z) : Z := Z.shiftr a n.
Definition np_left_shift (a n : Z) : Z := uint8 (Z.shiftl a n).

(** The two bytes [ShowImage] computes for a pixel, [pix[...,0]] and
    [pix[...,1]]. *)
Definition pack565 (p : pixel) : Z * Z :=
  let '(r, g, b) := p in
  (np_add (np_bitwise_and r 0xF8) (np_right_shift g 5),
   np_add (np_bitwise_and (np_left_shift g 3) 0xE0) (np_right_shift b 3)).

(** The packing as the specification writes it, on unbounded integers. *)
Definition spec_pack565 (p : pixel) : Z * Z :=
  let '(r, g, b) := p in
  (Z.lor (Z.land r 0xF8) (Z.shiftr g 5),
   Z.lor (Z.land (Z.shiftl g 3) 0xE0) (Z.shiftr b 3)).

(** Reading an RGB565 byte pair back: 5 bits of red, 6 of green, 5 of
    blue, each put back at the top of its channel. The sources contain no
    decoder; this one follows the bit layout the specification names. *)
Definition spec_unpack565 (hl : Z * Z) : pixel :=
  let '(hi, lo) := hl in
  (Z.land hi 0xF8,
   Z.lor (Z.shiftl (Z.land hi 0x07) 5) (Z.shiftr (Z.land lo 0xE0) 3),
   Z.shiftl (Z.land lo 0x1F) 3).

Definition is_uint8 (x : Z) : Prop := 0 <= x < 256.

Example pack565_white_ish : pack565 (248, 252, 248) = (0xFF, 0xFF).
Proof. reflexivity. Qed.

Example pack565_mixed : pack565 (0x12, 0xAB, 0xFE) = (0x15, 0x5F).
Proof. reflexivity. Qed.

Example unpack565_white_ish : spec_unpack565 (0xFF, 0xFF) = (248, 252, 248).
Proof. reflexivity. Qed.

(** Checking a property of bytes by running through all of them. *)
Definition all_below (n : nat) (P : Z -> bool) : bool :=
  forallb P (map Z.of_nat (seq 0 n)).

Lemma all_below_spec n P x :
  all_below n P = true -> 0 <= x < Z.of_nat n -> P x = true.
Proof.
  unfold all_below. rewrite forallb_forall. intros Hall Hx.
  apply Hall. apply in_map_iff. exists (Z.to_nat x). split; [lia|].
  apply in_seq. lia.
Qed.

Definition pair_eqb (a b : Z * Z) : bool :=
  (fst a =? fst b) && (snd a =? snd b).

Definition pixel_eqb (a b : pixel) : bool :=
  (fst (fst a) =? fst (fst b)) && (snd (fst a) =? snd (fst b)) && (snd a =? snd b).

Lemma pack565_hi_or r g b :
  is_uint8 r -> is_uint8 g ->
  fst (pack565 (r, g, b)) = Z.lor (Z.land r 0xF8) (Z.shiftr g 5).
Proof.
  intros Hr Hg. unfold pack565. cbn [fst].
  assert (Hall : all_below 256 (fun r => all_below 256 (fun g =>
            np_add (np_bitwise_and r 0xF8) (np_right_shift g 5)
            =? Z.lor (Z.land r 0xF8) (Z.shiftr g 5))) = true)
    by (vm_compute; reflexivity).
  pose proof (all_below_spec 256 _ r Hall Hr) as H1. cbv beta in H1.
  pose proof (all_below_spec 256 _ g H1 Hg) as H2. cbv beta in H2.
  by apply Z.eqb_eq.
Qed.

Lemma pack565_lo_or r g b :
  is_uint8 g -> is_uint8 b ->
  snd (pack565 (r, g, b)) = Z.lor (Z.land (Z.shiftl g 3) 0xE0) (Z.shiftr b 3).
Proof.
  intros Hg Hb. unfold pack565. cbn [snd].
  assert (Hall : all_below 256 (fun g => all_below 256 (fun b =>
            np_add (np_bitwise_and (np_left_shift g 3) 0xE0) (np_right_shift b 3)
            =? Z.lor (Z.land (Z.shiftl g 3) 0xE0) (Z.shiftr b 3))) = true)
    by (vm_compute; reflexivity).
  pose proof (all_below_spec 256 _ g Hall Hg) as H1. cbv beta in H1.
  pose proof (all_below_spec 256 _ b H1 Hb) as H2. cbv beta in H2.
  by apply Z.eqb_eq.
Qed.

Lemma pack565_aligned_roundtrip i j k :
  0 <= i < 32 -> 0 <= j < 64 -> 0 <= k < 32 ->
  spec_unpack565 (pack565 (8 * i, 4 * j, 8 * k)) = (8 * i, 4 * j, 8 * k).
Proof.
  intros Hi Hj Hk.
  assert (Hall : all_below 32 (fun i => all_below 64 (fun j => all_below 32 (fun k =>
            pixel_eqb (spec_unpack565 (pack565 (8 * i, 4 * j, 8 * k)))
                      (8 * i, 4 * j, 8 * k)))) = true)
    by (vm_compute; reflexivity).
  pose proof (all_below_spec 32 _ i Hall Hi) as H1. cbv beta in H1.
  pose proof (all_below_spec 64 _ j H1 Hj) as H2. cbv beta in H2.
  pose proof (all_below_spec 32 _ k H2 Hk) as H3. cbv beta in H3.
  unfold pixel_eqb in H3.
  apply andb_prop in H3 as [H3 Hb]. apply andb_prop in H3 as [Hr Hg].
  apply Z.eqb_eq in Hr, Hg, Hb.
  destruct (spec_unpack565 _) as [[r' g'] b']. cbn [fst snd] in *. congruence.
Qed.

(** C3. On [uint8] channels the two bytes [ShowImage] computes for a
    pixel are [hi = (R & 0xF8) | (G >> 5)] and
    [lo = ((G << 3) & 0xE0) | (B >> 3)]; and when R and B are multiples of
    8 and G is a multiple of 4, reading the two bytes back as 5/6/5 bits
    gives the original triple. *)
Theorem pack565_formula_and_roundtrip (r g b : Z) :
  is_uint8 r -> is_uint8 g -> is_uint8 b ->
  pack565 (r, g, b)
  = (Z.lor (Z.land r 0xF8) (Z.shiftr g 5),
     Z.lor (Z.land (Z.shiftl g 3) 0xE0) (Z.shiftr b 3))
  /\ pack565 (r, g, b) = spec_pack565 (r, g, b)
  /\ (r mod 8 = 0 -> g mod 4 = 0 -> b mod 8 = 0 ->
      spec_unpack565 (pack565 (r, g, b)) = (r, g, b)).
Proof.
  intros Hr Hg Hb.
  assert (Hpack : pack565 (r, g, b)
                  = (Z.lor (Z.land r 0xF8) (Z.shiftr g 5),
                     Z.lor (Z.land (Z.shiftl g 3) 0xE0) (Z.shiftr b 3))).
  { rewrite (surjective_pairing (pack565 (r, g, b))).
    by rewrite pack565_hi_or, pack565_lo_or. }
  split; [exact Hpack|]. split; [exact Hpack|].
  intros Har Hag Hab. unfold is_uint8 in *.
  rewrite (Z.div_mod r 8), (Z.div_mod g 4), (Z.div_mod b 8) by lia.
  rewrite Har, Hag, Hab, !Z.add_0_r.
  apply pack565_aligned_roundtrip.
  - split; [apply Z.div_pos; lia | apply Z.div_lt_upper_bound; lia].
  - split; [apply Z.div_pos; lia | apply Z.div_lt_upper_bound; lia].
  - split; [apply Z.div_pos; lia | apply Z.div_lt_upper_bound; lia].
Qed.

(** The theorem at the pixel (248, 252, 248). *)
Lemma pack565_formula_and_roundtrip_witness :
  pack565 (248, 252, 248) = (0xFF, 0xFF)
  /\ spec_unpack565 (pack565 (248, 252, 248)) = (248, 252, 248).
Proof.
  assert (H248 : is_uint8 248) by (unfold is_uint8; lia).
  assert (H252 : is_uint8 252) by (unfold is_uint8; lia).
  destruct (pack565_formula_and_roundtrip 248 252 248 H248 H252 H248)
    as (Hformula & _ & Hround).
  split; [rewrite Hformula; reflexivity|].
  apply Hround; reflexivity.
Defined.

(** Without a decoder: on aligned pixels the packing loses nothing, two
    aligned pixels with the same two bytes are the same pixel. *)
Lemma pack565_injective_on_aligned (p q : pixel) :
  let aligned (x : pixel) :=
    is_uint8 (fst (fst x)) /\ is_uint8 (snd (fst x)) /\ is_uint8 (snd x)
    /\ fst (fst x) mod 8 = 0 /\ snd (fst x) mod 4 = 0 /\ snd x mod 8 = 0 in
  aligned p -> aligned q -> pack565 p = pack565 q -> p = q.
Proof.
  cbv zeta. destruct p as [[r g] b], q as [[r' g'] b']. cbn [fst snd].
  intros (Hr & Hg & Hb & Har & Hag & Hab) (Hr' & Hg' & Hb' & Har' & Hag' & Hab') Heq.
  assert (Hround : forall r g b, is_uint8 r -> is_uint8 g -> is_uint8 b ->
            r mod 8 = 0 -> g mod 4 = 0 -> b mod 8 = 0 ->
            spec_unpack565 (pack565 (r, g, b)) = (r, g, b)).
  { intros r0 g0 b0 H1 H2 H3 H4 H5 H6. unfold is_uint8 in *.
    rewrite (Z.div_mod r0 8), (Z.div_mod g0 4), (Z.div_mod b0 8) by lia.
    rewrite H4, H5, H6, !Z.add_0_r.
    apply pack565_aligned_roundtrip;
      (split; [apply Z.div_pos; lia | apply Z.div_lt_upper_bound; lia]). }
  rewrite <- (Hround r g b), <- (Hround r' g' b') by done.
  by rewrite Heq.
Qed.

(** *** Frames *)

(** A PIL image: its [size] is (width, height); [rows] is what
    [np.asarray(image)] gives, one list of pixels per image row. *)
Record Image := mkImage {
  size : Z * Z;
  rows : list (list pixel)
}.

(** [range(0, stop, step)] *)
Definition py_range_step (stop step : nat) : list nat :=
  map (fun k => (k * step)%nat) (seq 0 ((stop + step - 1) / step)).

(** [for i in range(0, len(buf), 4096): self.spi_writebyte(buf[i:i+4096])] *)
Fixpoint write_slices (buf : list Z) (starts : list nat) : M unit :=
  match starts with
  | [] => ret tt
  | i :: rest => spi_writebyte (take 4096 (drop i buf)) ;; write_slices buf rest
  end.

Definition send_chunks (buf : list Z) : M unit :=
  write_slices buf (py_range_step (length buf) 4096).

(** [pix.flatten().tolist()]: row by row, pixel by pixel, high byte first. *)
Definition flatten_pix (img : list (list pixel)) : list Z :=
  concat (map (fun row => concat (map (fun p => [fst (pack565 p); snd (pack565 p)]) row)) img).

(** The second half of [ShowImage], from [np.asarray] on. [pix] is
    allocated with shape (width, height, 2); an image array of another
    shape makes the assignment into it fail (numpy's stretching of axes of
    length 1 is left out). *)
Definition send_frame (image : Image) : M unit :=
  d ← self;
  let img := rows image in
  if bool_decide (Z.of_nat (length img) = width d)
     && forallb (fun row => bool_decide (Z.of_nat (length row) = height d)) img
  then
    let pix := flatten_pix img in
    SetWindows 0 0 (width d) (height d) ;;
    digital_write GPIO_DC_PIN true ;;
    send_chunks pix
  else raise ValueError.

(** The [rot_degrees] table of [ShowImage]. *)
Definition rot_degrees : gmap Z Z :=
  list_to_map [(90, 270); (180, 180); (270, 90)].

Section Frames.

(** PIL's [image.rotate(angle, expand=True)]. *)
Variable rotate : Z -> Image -> Image.

Definition ShowImage (image : Image) : M unit :=
  d ← self;
  let '(imwidth, imheight) := size image in
  if bool_decide (imwidth <> width d) || bool_decide (imheight <> height d)
  then raise ValueError
  else
    let image :=
      if bool_decide (rotation d <> 0) && bool_decide (rotation d mod 360 <> 0)
      then match rot_degrees !! rotation d with
           | Some rot => if bool_decide (rot <> 0) then rotate rot image else image
           | None => image
           end
      else image in
    send_frame image.

End Frames.

Definition clear : M unit :=
  d ← self;
  let _buffer := replicate (Z.to_nat (width d * height d * 2)) 0xff in
  SetWindows 0 0 (width d) (height d) ;;
  digital_write GPIO_DC_PIN true ;;
  send_chunks _buffer.

Definition set_rotation (rotation : Z) : M bool :=
  if bool_decide (rotation ∈ [0; 90; 180; 270]) then
    d ← self;
    set_self (with_rotation d rotation) ;;
    config_set "display" "rotation" (VInt rotation) ;;
    Init ;;
    ret true
  else ret false.

(** *** What the driver methods put on the bus *)

Definition command_ops (cmd : Z) : list hw_op :=
  [DigitalWrite GPIO_DC_PIN false; SpiWriteBytes [cmd]].

Definition data_ops (val : Z) : list hw_op :=
  [DigitalWrite GPIO_DC_PIN true; SpiWriteBytes [val]].

Definition reset_ops : list hw_op :=
  [DigitalWrite GPIO_RST_PIN true; Sleep 10;
   DigitalWrite GPIO_RST_PIN false; Sleep 10;
   DigitalWrite GPIO_RST_PIN true; Sleep 10].

Definition after (m : machine) (ops : list hw_op) : machine :=
  mkMachine (display m) (config m) (trace m ++ ops).

(** On [m], [c] returns [a] and does nothing but append [ops]. *)
Definition yields_at {A} (m : machine) (c : M A) (a : A) (ops : list hw_op) : Prop :=
  c m = (Ok a, after m ops).

(** [c] succeeds on every machine and does nothing but append [ops]. *)
Definition emits (c : M unit) (ops : list hw_op) : Prop :=
  forall m, yields_at m c tt ops.

Lemma after_after m ops1 ops2 : after (after m ops1) ops2 = after m (ops1 ++ ops2).
Proof. unfold after. simpl. by rewrite app_assoc. Qed.

Lemma yields_at_bind {A B} m (c : M A) (k : A -> M B) a b ops1 ops2 :
  yields_at m c a ops1 ->
  yields_at (after m ops1) (k a) b ops2 ->
  yields_at m (c ≫= k) b (ops1 ++ ops2).
Proof.
  unfold yields_at, mbind, M_bind, bind. intros -> ->. by rewrite after_after.
Qed.

Lemma yields_at_ret {A} m (a : A) : yields_at m (ret a) a [].
Proof. unfold yields_at, ret, after. by rewrite app_nil_r; destruct m. Qed.

Lemma yields_at_self m : yields_at m self (display m) [].
Proof. unfold yields_at, self, after. by rewrite app_nil_r; destruct m. Qed.

Lemma yields_at_emits m c ops : emits c ops -> yields_at m c tt ops.
Proof. intros H. apply H. Qed.

Lemma yields_at_eq {A} m (c : M A) a ops ops' :
  yields_at m c a ops -> ops = ops' -> c m = (Ok a, after m ops').
Proof. by intros H <-. Qed.

Lemma emits_emit ops : emits (emit ops) ops.
Proof. done. Qed.

Lemma emits_seq c1 c2 ops1 ops2 :
  emits c1 ops1 -> emits c2 ops2 -> emits (c1 ;; c2) (ops1 ++ ops2).
Proof. intros H1 H2 m. eapply yields_at_bind; [apply H1 | apply H2]. Qed.

Lemma emits_digital_write pin v : emits (digital_write pin v) [DigitalWrite pin v].
Proof. apply emits_emit. Qed.

Lemma emits_spi_writebyte bytes : emits (spi_writebyte bytes) [SpiWriteBytes bytes].
Proof. apply emits_emit. Qed.

Lemma emits_command cmd : emits (command cmd) (command_ops cmd).
Proof. apply (emits_seq _ _ [_] [_]); apply emits_emit. Qed.

Lemma emits_data val : emits (data val) (data_ops val).
Proof. apply (emits_seq _ _ [_] [_]); apply emits_emit. Qed.

Lemma emits_reset : emits reset reset_ops.
Proof. repeat apply (emits_seq _ _ [_]); apply emits_emit. Qed.

Lemma yields_at_module_init m : yields_at m module_init 0 [SpiSetup].
Proof.
  unfold module_init.
  apply (yields_at_bind m _ _ tt 0 [SpiSetup] []); [apply emits_emit | apply yields_at_ret].
Qed.

Create HintDb bus_ops.
#[local] Hint Resolve emits_emit emits_digital_write emits_spi_writebyte
  emits_command emits_data emits_reset emits_seq : bus_ops.

(** One statement of a method body. *)
Ltac bus_step :=
  lazymatch goal with
  | |- yields_at _ (_ ≫= _) _ _ =>
      eapply yields_at_bind;
      [ first [ apply yields_at_self
              | apply yields_at_module_init
              | apply yields_at_emits; solve [auto with bus_ops] ]
      | cbv beta ]
  | |- yields_at _ (ret _) _ _ => apply yields_at_ret
  | |- yields_at _ _ _ _ => apply yields_at_emits; solve [auto with bus_ops]
  end.

(** Everything [Init] does after the orientation register is written. *)
Definition Init_tail (rotation : Z) : list hw_op :=
  command_ops 0x3A ++ data_ops 0x05
  ++ command_ops 0xB2 ++ data_ops 0x0C ++ data_ops 0x0C ++ data_ops 0x00
     ++ data_ops 0x33 ++ data_ops 0x33
  ++ command_ops 0xB7 ++ data_ops 0x35
  ++ command_ops 0xBB ++ data_ops 0x19
  ++ command_ops 0xC0 ++ data_ops 0x2C
  ++ command_ops 0xC2 ++ data_ops 0x01
  ++ command_ops 0xC3 ++ data_ops 0x12
  ++ command_ops 0xC4 ++ data_ops 0x20
  ++ command_ops 0xC6 ++ data_ops 0x0F
  ++ command_ops 0xD0 ++ data_ops 0xA4 ++ data_ops 0xA1
  ++ command_ops 0xE0
     ++ data_ops 0xD0 ++ data_ops 0x04 ++ data_ops 0x0D ++ data_ops 0x11
     ++ data_ops 0x13 ++ data_ops 0x2B ++ data_ops 0x3F ++ data_ops 0x54
     ++ data_ops 0x4C ++ data_ops 0x18 ++ data_ops 0x0D ++ data_ops 0x0B
     ++ data_ops 0x1F ++ data_ops 0x23
  ++ command_ops 0xE1
     ++ data_ops 0xD0 ++ data_ops 0x04 ++ data_ops 0x0C ++ data_ops 0x11
     ++ data_ops 0x13 ++ data_ops 0x2C ++ data_ops 0x3F ++ data_ops 0x44
     ++ data_ops 0x51 ++ data_ops 0x2F ++ data_ops 0x1F ++ data_ops 0x1F
     ++ data_ops 0x20 ++ data_ops 0x23
  ++ command_ops 0x21 ++ command_ops 0x11 ++ command_ops 0x29
  ++ [Log INFO (MsgDisplayInitialized rotation)].

Lemma Init_trace m :
  Init m
  = (Ok tt,
     after m ([SpiSetup] ++ reset_ops ++ command_ops 0x36
              ++ data_ops (default 0x70 (rotation_values !! rotation (display m)))
              ++ Init_tail (rotation (display m)))).
Proof.
  eapply yields_at_eq; [unfold Init; repeat bus_step | reflexivity].
Qed.

Lemma SetWindows_emits Xstart Ystart Xend Yend :
  emits (SetWindows Xstart Ystart Xend Yend)
        (command_ops 0x2A
         ++ data_ops 0x00 ++ data_ops (Z.land Xstart 0xff)
         ++ data_ops 0x00 ++ data_ops (Z.land (Xend - 1) 0xff)
         ++ command_ops 0x2B
         ++ data_ops 0x00 ++ data_ops (Z.land Ystart 0xff)
         ++ data_ops 0x00 ++ data_ops (Z.land (Yend - 1) 0xff)
         ++ command_ops 0x2C).
Proof. unfold SetWindows. auto 20 with bus_ops. Qed.

(** C5. [SetWindows(Xstart, Ystart, Xend, Yend)] sends the column
    address command 0x2A with the data bytes 0x00, [Xstart & 0xff], 0x00,
    [(Xend - 1) & 0xff], then the row address command 0x2B with the same
    four bytes for Y, then the memory write command 0x2C, and nothing
    else; for the window (0, 0, 240, 240) both end bytes are 239. *)
Theorem SetWindows_byte_sequence (Xstart Ystart Xend Yend : Z) (m : machine) :
  SetWindows Xstart Ystart Xend Yend m
  = (Ok tt,
     after m
       [ DigitalWrite GPIO_DC_PIN false; SpiWriteBytes [0x2A];
         DigitalWrite GPIO_DC_PIN true;  SpiWriteBytes [0x00];
         DigitalWrite GPIO_DC_PIN true;  SpiWriteBytes [Z.land Xstart 0xff];
         DigitalWrite GPIO_DC_PIN true;  SpiWriteBytes [0x00];
         DigitalWrite GPIO_DC_PIN true;  SpiWriteBytes [Z.land (Xend - 1) 0xff];
         DigitalWrite GPIO_DC_PIN false; SpiWriteBytes [0x2B];
         DigitalWrite GPIO_DC_PIN true;  SpiWriteBytes [0x00];
         DigitalWrite GPIO_DC_PIN true;  SpiWriteBytes [Z.land Ystart 0xff];
         DigitalWrite GPIO_DC_PIN true;  SpiWriteBytes [0x00];
         DigitalWrite GPIO_DC_PIN true;  SpiWriteBytes [Z.land (Yend - 1) 0xff];
         DigitalWrite GPIO_DC_PIN false; SpiWriteBytes [0x2C] ])
  /\ SetWindows 0 0 240 240 m
     = (Ok tt,
        after m
          [ DigitalWrite GPIO_DC_PIN false; SpiWriteBytes [0x2A];
            DigitalWrite GPIO_DC_PIN true;  SpiWriteBytes [0];
            DigitalWrite GPIO_DC_PIN true;  SpiWriteBytes [0];
            DigitalWrite GPIO_DC_PIN true;  SpiWriteBytes [0];
            DigitalWrite GPIO_DC_PIN true;  SpiWriteBytes [239];
            DigitalWrite GPIO_DC_PIN false; SpiWriteBytes [0x2B];
            DigitalWrite GPIO_DC_PIN true;  SpiWriteBytes [0];
            DigitalWrite GPIO_DC_PIN true;  SpiWriteBytes [0];
            DigitalWrite GPIO_DC_PIN true;  SpiWriteBytes [0];
            DigitalWrite GPIO_DC_PIN true;  SpiWriteBytes [239];
            DigitalWrite GPIO_DC_PIN false; SpiWriteBytes [0x2C] ]).
Proof.
  split.
  - apply (SetWindows_emits Xstart Ystart Xend Yend m).
  - apply (SetWindows_emits 0 0 240 240 m).
Qed.

(** *** Rotation *)

(** PIL's right-angle rotations (counter-clockwise, [expand=True]) on the
    rows of an image; other angles are left alone, [ShowImage] passes none. *)
Definition columns (n : nat) (rs : list (list pixel)) : list (list pixel) :=
  map (fun j => omap (fun row => row !! j) rs) (seq 0 n).

Definition pil_rotate (angle : Z) (image : Image) : Image :=
  let '(w, h) := size image in
  let cols := columns (Z.to_nat w) (rows image) in
  if bool_decide (angle = 90) then mkImage (h, w) (reverse cols)
  else if bool_decide (angle = 180) then mkImage (w, h) (reverse (map reverse (rows image)))
  else if bool_decide (angle = 270) then mkImage (h, w) (map reverse cols)
  else image.

(** A 2 x 2 panel, to run the driver on. *)
Definition tiny_display (rotation : Z) : ST7789 :=
  mkST7789 ∅ ∅ ∅ 100 2 2 rotation.

Definition tiny_machine (rotation : Z) : machine :=
  mkMachine (tiny_display rotation) (Config.mkConfiguration Config.DEFAULT_CONFIG None true) [].

Definition tiny_image : Image :=
  mkImage (2, 2) [[(8, 0, 0); (16, 0, 0)]; [(24, 0, 0); (32, 0, 0)]].

Definition spi_payload (m : machine) : list (list Z) :=
  omap (fun op => match op with SpiWriteBytes bytes => Some bytes | _ => None end) (trace m).

Example ShowImage_tiny_unrotated :
  list.last (spi_payload (snd (ShowImage pil_rotate tiny_image (tiny_machine 0))))
  = Some [8; 0; 16; 0; 24; 0; 32; 0].
Proof. vm_compute. reflexivity. Qed.

Example ShowImage_tiny_rotation_90 :
  list.last (spi_payload (snd (ShowImage pil_rotate tiny_image (tiny_machine 90))))
  = Some [24; 0; 8; 0; 32; 0; 16; 0].
Proof. vm_compute. reflexivity. Qed.

Example ShowImage_tiny_rotation_270 :
  list.last (spi_payload (snd (ShowImage pil_rotate tiny_image (tiny_machine 270))))
  = Some [16; 0; 32; 0; 8; 0; 24; 0].
Proof. vm_compute. reflexivity. Qed.

Example ShowImage_wrong_size :
  fst (ShowImage pil_rotate (mkImage (3, 2) []) (tiny_machine 0)) = Exc ValueError.
Proof. vm_compute. reflexivity. Qed.

Lemma Init_tail_no_madctl rotation : SpiWriteBytes [0x36] ∉ Init_tail rotation.
Proof.
  unfold Init_tail, command_ops, data_ops. cbn [app]. intros Hin.
  repeat (apply elem_of_cons in Hin as [Hin|Hin]; [discriminate Hin|]).
  by apply elem_of_nil in Hin.
Qed.

Lemma ShowImage_prerotation rotate image m :
  size image = (width (display m), height (display m)) ->
  ShowImage rotate image m
  = send_frame
      (if bool_decide (rotation (display m) = 90) then rotate 270 image
       else if bool_decide (rotation (display m) = 180) then rotate 180 image
       else if bool_decide (rotation (display m) = 270) then rotate 90 image
       else image) m.
Proof.
  intros Hsize. unfold ShowImage, mbind, M_bind, bind, self. rewrite Hsize.
  rewrite !bool_decide_false by (intros Hne; by apply Hne).
  cbn [orb].
  destruct (decide (rotation (display m) = 90)) as [->|H90];
    [rewrite (bool_decide_true (90 = 90)) by done; reflexivity|].
  destruct (decide (rotation (display m) = 180)) as [->|H180];
    [rewrite (bool_decide_true (180 = 180)) by done; reflexivity|].
  destruct (decide (rotation (display m) = 270)) as [->|H270];
    [rewrite (bool_decide_true (270 = 270)) by done; reflexivity|].
  rewrite !(bool_decide_false (rotation (display m) = _)) by done.
  assert (Hnone : rot_degrees !! rotation (display m) = None).
  { unfold rot_degrees. cbn [list_to_map foldr fst snd uncurry].
    by rewrite !lookup_insert_ne, lookup_empty by done. }
  rewrite Hnone. by destruct (_ && _).
Qed.

(** C4. For each of the four rotations, [Init] sends the memory access
    control command 0x36 once, right after the reset, followed by the data
    byte of the table (0: 0x70, 90: 0x10, 180: 0xC0, 270: 0xA0), and
    [ShowImage] of a frame of the panel's size transmits the frame rotated
    by the complement angle (90: by 270, 180: by 180, 270: by 90), and the
    frame as it is for rotation 0. *)
Theorem rotation_register_and_prerotation
    (rotate : Z -> Image -> Image) (m : machine) (image : Image)
    (r reg : Z) (pre : option Z) :
  (r, reg, pre) ∈ [ (0, 0x70, None); (90, 0x10, Some 270);
                    (180, 0xC0, Some 180); (270, 0xA0, Some 90) ] ->
  rotation (display m) = r ->
  size image = (width (display m), height (display m)) ->
  (Init m
   = (Ok tt,
      after m ([SpiSetup] ++ reset_ops
               ++ [ DigitalWrite GPIO_DC_PIN false; SpiWriteBytes [0x36];
                    DigitalWrite GPIO_DC_PIN true; SpiWriteBytes [reg] ]
               ++ Init_tail r)))
  /\ (SpiWriteBytes [0x36] ∉ [SpiSetup] ++ reset_ops ++ Init_tail r)
  /\ (ShowImage rotate image m
      = send_frame (match pre with
                    | Some angle => rotate angle image
                    | None => image
                    end) m).
Proof.
  intros Hin Hr Hsize.
  assert (Hreset : SpiWriteBytes [0x36] ∉ ([SpiSetup] ++ reset_ops ++ Init_tail r)).
  { rewrite !not_elem_of_app. split; [|split].
    - intros H1. apply list_elem_of_singleton in H1. discriminate H1.
    - unfold reset_ops. intros H1.
      repeat (apply elem_of_cons in H1 as [H1|H1]; [discriminate H1|]).
      by apply elem_of_nil in H1.
    - apply Init_tail_no_madctl. }
  rewrite Init_trace, ShowImage_prerotation, Hr by done.
  rewrite !elem_of_cons, elem_of_nil in Hin.
  destruct Hin as [Hin|[Hin|[Hin|[Hin|[]]]]]; injection Hin as -> -> ->;
    (split; [reflexivity|]); (split; [exact Hreset|]); reflexivity.
Qed.

(** The theorem at rotation 90 on the 2 x 2 panel. *)
Lemma rotation_register_and_prerotation_witness :
  (exists tail,
     trace (snd (Init (tiny_machine 90)))
     = [SpiSetup] ++ reset_ops
       ++ [ DigitalWrite GPIO_DC_PIN false; SpiWriteBytes [0x36];
            DigitalWrite GPIO_DC_PIN true; SpiWriteBytes [0x10] ]
       ++ tail)
  /\ ShowImage pil_rotate tiny_image (tiny_machine 90)
     = send_frame (pil_rotate 270 tiny_image) (tiny_machine 90).
Proof.
  assert (Hin : (90, 0x10, Some 270) ∈ [ (0, 0x70, @None Z); (90, 0x10, Some 270);
                                         (180, 0xC0, Some 180); (270, 0xA0, Some 90) ])
    by (apply list_elem_of_further, list_elem_of_here).
  destruct (rotation_register_and_prerotation pil_rotate (tiny_machine 90) tiny_image
              90 0x10 (Some 270) Hin eq_refl eq_refl) as (Hinit & _ & Hshow).
  split; [|exact Hshow].
  exists (Init_tail 90). rewrite Hinit. reflexivity.
Defined.

(** C10. An argument that is none of 0, 90, 180, 270 makes
    [set_rotation] return [False] and leaves everything as it was: the
    driver object with its rotation, the configuration in memory and on
    disk, and the bus (nothing is written, [Init] does not run). *)
Theorem set_rotation_rejects_without_effect (rotation : Z) (m : machine) :
  rotation <> 0 -> rotation <> 90 -> rotation <> 180 -> rotation <> 270 ->
  set_rotation rotation m = (Ok false, m).
Proof.
  intros H0 H90 H180 H270. unfold set_rotation.
  rewrite bool_decide_false; [reflexivity|].
  intros Hin.
  repeat (apply elem_of_cons in Hin as [Hin|Hin]; [congruence|]).
  by apply elem_of_nil in Hin.
Qed.

Lemma set_rotation_rejects_without_effect_witness :
  set_rotation 45 (tiny_machine 90) = (Ok false, tiny_machine 90)
  /\ set_rotation 360 (tiny_machine 0) = (Ok false, tiny_machine 0).
Proof.
  split; apply set_rotation_rejects_without_effect; lia.
Defined.

(** For contrast, an accepted argument stores the rotation, saves the
    configuration and runs [Init]. *)
Example set_rotation_accepts_180 :
  let r := set_rotation 180 (tiny_machine 0) in
  fst r = Ok true
  /\ rotation (display (snd r)) = 180
  /\ Config.get (config (snd r)) "display" "rotation" = Some (VInt 180)
  /\ (Config.stored (config (snd r)) ≫= fun f => f !! "display"%string ≫= fun s => s !! "rotation"%string)
     = Some (VInt 180)
  /\ nth_error (spi_payload (snd r)) 1 = Some [0xC0].
Proof. vm_compute. repeat split; reflexivity. Qed.

(** *** Buttons *)

(** What [digital_read] returns for each of the eight input pins
    ([pin.value] as a truth value). *)
Record Pins := mkPins {
  GPIO_KEY_UP_PIN : bool;
  GPIO_KEY_DOWN_PIN : bool;
  GPIO_KEY_LEFT_PIN : bool;
  GPIO_KEY_RIGHT_PIN : bool;
  GPIO_KEY_PRESS_PIN : bool;
  GPIO_KEY1_PIN : bool;
  GPIO_KEY2_PIN : bool;
  GPIO_KEY3_PIN : bool
}.

(** The [new_states] dictionary of [update_button_states], in insertion
    order (the order [items()] yields). *)
Definition new_states (pins : Pins) : list (string * bool) :=
  [ ("up", negb (GPIO_KEY_UP_PIN pins));
    ("down", negb (GPIO_KEY_DOWN_PIN pins));
    ("left", negb (GPIO_KEY_LEFT_PIN pins));
    ("right", negb (GPIO_KEY_RIGHT_PIN pins));
    ("press", negb (GPIO_KEY_PRESS_PIN pins));
    ("key1", negb (GPIO_KEY1_PIN pins));
    ("key2", negb (GPIO_KEY2_PIN pins));
    ("key3", negb (GPIO_KEY3_PIN pins)) ]%string.

(** [d[key]] on a dictionary. *)
Definition getitem {A} (d : gmap string A) (key : string) : M A :=
  match d !! key with
  | Some a => ret a
  | None => raise (KeyError key)
  end.

Section Sampler.

(** Whether a registered callback raises when it is called. A callback
    is taken not to touch the driver object. *)
Variable cb_raises : callback -> bool.

Definition call_button_callback (key : string) (cb : callback) : M unit :=
  emit [ButtonCallback key cb] ;;
  if cb_raises cb then raise (CallbackRaised cb) else ret tt.

(** The body of [for key, state in new_states.items()]. *)
Definition check_press (current_time : Z) (key : string) (state : bool) : M unit :=
  if state then
    d ← self;
    old ← getitem (button_states d) key;
    if negb old then
      last_time ← getitem (last_button_press_time d) key;
      if bool_decide (current_time - last_time > button_debounce_ms d) then
        set_self (with_last_button_press_time d
                    (<[key := current_time]> (last_button_press_time d))) ;;
        cb ← getitem (button_callbacks d) key;
        match cb with
        | Some f => call_button_callback key f
        | None => ret tt
        end
      else ret tt
    else ret tt
  else ret tt.

Fixpoint for_items (items : list (string * bool)) (body : string -> bool -> M unit)
  : M unit :=
  match items with
  | [] => ret tt
  | (key, state) :: rest => body key state ;; for_items rest body
  end.

(** [current_time] is [int(time.time() * 1000)]. *)
Definition update_button_states (pins : Pins) (current_time : Z)
  : M (gmap string bool) :=
  let new_states := new_states pins in
  for_items new_states (check_press current_time) ;;
  d ← self;
  set_self (with_button_states d (list_to_map new_states)) ;;
  ret (list_to_map new_states).

End Sampler.

(** The driver as constructed, with ["up"] last accepted at time 1000 and
    callback 7 registered for it. *)
Definition sampler_machine : machine :=
  let d := ST7789_init None in
  mkMachine
    (with_button_callbacks
       (with_last_button_press_time d (<["up"%string := 1000]> (last_button_press_time d)))
       (<["up"%string := Some 7%nat]> (button_callbacks d)))
    (Config.mkConfiguration Config.DEFAULT_CONFIG None true) [].

Definition all_released : Pins := mkPins true true true true true true true true.
Definition up_pressed : Pins := mkPins false true true true true true true true.

Definition never_raises (cb : callback) : bool := false.

Example poll_press_after_debounce :
  let r := update_button_states never_raises up_pressed 1101 sampler_machine in
  match fst r with
  | Ok states => states !! "up"%string = Some true /\ states !! "down"%string = Some false
  | Exc _ => False
  end
  /\ trace (snd r) = [ButtonCallback "up" 7%nat]
  /\ last_button_press_time (display (snd r)) !! "up"%string = Some 1101
  /\ button_states (display (snd r)) !! "up"%string = Some true.
Proof. vm_compute. repeat split; reflexivity. Qed.

Example poll_press_at_exactly_100_ms :
  let r := update_button_states never_raises up_pressed 1100 sampler_machine in
  trace (snd r) = []
  /\ last_button_press_time (display (snd r)) !! "up"%string = Some 1000
  /\ button_states (display (snd r)) !! "up"%string = Some true.
Proof. vm_compute. repeat split; reflexivity. Qed.

Example poll_callback_raises :
  let r := update_button_states (fun _ => true) up_pressed 1101 sampler_machine in
  fst r = Exc (CallbackRaised 7%nat)
  /\ last_button_press_time (display (snd r)) !! "up"%string = Some 1101
  /\ button_states (display (snd r)) !! "up"%string = Some false.
Proof. vm_compute. repeat split; reflexivity. Qed.

(** The guard of the loop body: the sampled state is pressed, the stored
    state is released, and more than the debounce time has passed since
    the last accepted press. *)
Definition qualifies (d : ST7789) (now : Z) (key : string) (state : bool) : bool :=
  state
  && negb (default false (button_states d !! key))
  && bool_decide (now - default 0 (last_button_press_time d !! key) > button_debounce_ms d).

(** Whether the poll at [now] that sampled [items] accepts a press of [key]. *)
Definition accepted (d : ST7789) (now : Z) (items : list (string * bool)) (key : string)
  : bool :=
  from_option (qualifies d now key) false ((list_to_map items : gmap string bool) !! key).

Definition fired_one (d : ST7789) (now : Z) (item : string * bool) : list hw_op :=
  if qualifies d now (fst item) (snd item)
  then match button_callbacks d !! fst item with
       | Some (Some cb) => [ButtonCallback (fst item) cb]
       | _ => []
       end
  else [].

Definition fired (d : ST7789) (now : Z) (items : list (string * bool)) : list hw_op :=
  flat_map (fired_one d now) items.

(** The callbacks called for [key] among [ops]. *)
Definition calls_for (key : string) (ops : list hw_op) : list callback :=
  omap (fun op => match op with
                  | ButtonCallback k cb => if decide (k = key) then Some cb else None
                  | _ => None
                  end) ops.

(** The dictionaries of the driver hold all eight keys, as [__init__]
    builds them. *)
Definition keys_present (d : ST7789) : Prop :=
  forall key, key ∈ BUTTONS ->
    is_Some (button_states d !! key)
    /\ is_Some (last_button_press_time d !! key)
    /\ is_Some (button_callbacks d !! key).

Lemma flat_map_agree {A B} (f g : A -> list B) (l : list A) :
  (forall a, a ∈ l -> f a = g a) -> flat_map f l = flat_map g l.
Proof.
  induction l as [|a l IH]; intros Hfg; cbn [flat_map]; [done|].
  rewrite Hfg by left. rewrite IH; [done|]. intros b Hb. apply Hfg. by right.
Qed.

Section SamplerFacts.

Variable cb_raises : callback -> bool.

(** No registered callback raises. *)
Definition quiet (d : ST7789) : Prop :=
  forall key cb, button_callbacks d !! key = Some (Some cb) -> cb_raises cb = false.

Lemma check_press_spec now key state m :
  key ∈ BUTTONS -> keys_present (display m) -> quiet (display m) ->
  check_press cb_raises now key state m
  = (Ok tt,
     mkMachine
       (if qualifies (display m) now key state
        then with_last_button_press_time (display m)
               (<[key := now]> (last_button_press_time (display m)))
        else display m)
       (config m)
       (trace m ++ fired_one (display m) now (key, state))).
Proof.
  intros Hkey Hwf Hquiet. destruct (Hwf key Hkey) as ([old Hold] & [lt Hlt] & [ocb Hcb]).
  destruct m as [d c t]. cbn [display config trace] in *.
  unfold check_press, fired_one, qualifies. cbn [fst snd].
  rewrite Hold, Hlt, Hcb. cbn [from_option id].
  destruct state; cbn [andb]; [|by rewrite app_nil_r].
  unfold mbind, M_bind, bind, self, getitem, ret. cbn [display].
  rewrite Hold. destruct old; cbn [negb andb]; [by rewrite app_nil_r|].
  rewrite Hlt.
  destruct (bool_decide (now - lt > button_debounce_ms d)); [|by rewrite app_nil_r].
  unfold set_self. cbn [display config trace button_callbacks with_last_button_press_time].
  rewrite Hcb. destruct ocb as [cb|]; [|by rewrite app_nil_r].
  unfold call_button_callback, mbind, M_bind, bind, emit.
  cbn [display config trace]. by rewrite (Hquiet key cb Hcb).
Qed.

Lemma qualifies_frame d now key0 key state :
  key <> key0 ->
  qualifies (with_last_button_press_time d (<[key0 := now]> (last_button_press_time d)))
            now key state
  = qualifies d now key state.
Proof.
  intros Hne. unfold qualifies.
  cbn [button_states last_button_press_time button_debounce_ms with_last_button_press_time].
  by rewrite lookup_insert_ne.
Qed.

(** The loop over a list of distinct keys. *)
Lemma for_items_spec now items : forall m,
  NoDup items.*1 -> (forall key, key ∈ items.*1 -> key ∈ BUTTONS) ->
  keys_present (display m) -> quiet (display m) ->
  exists stamps,
    for_items items (check_press cb_raises now) m
    = (Ok tt,
       mkMachine (with_last_button_press_time (display m) stamps) (config m)
                 (trace m ++ fired (display m) now items))
    /\ forall key,
         stamps !! key
         = if accepted (display m) now items key then Some now
           else last_button_press_time (display m) !! key.
Proof.
  induction items as [|[key0 state0] rest IH]; intros m Hnd Hkeys Hwf Hquiet.
  - exists (last_button_press_time (display m)). split.
    + destruct m as [[] c t]. cbn. by rewrite app_nil_r.
    + intros key. unfold accepted. cbn. by rewrite lookup_empty.
  - cbn [fmap list_fmap fst] in Hnd, Hkeys.
    apply list.NoDup_cons in Hnd as [Hfresh Hnd].
    assert (Hkey0 : key0 ∈ BUTTONS) by (apply Hkeys; left).
    cbn [for_items]. unfold mbind at 1, M_bind at 1, bind at 1.
    rewrite check_press_spec by done.
    set (d := display m) in *.
    set (d1 := if qualifies d now key0 state0
               then with_last_button_press_time d (<[key0 := now]> (last_button_press_time d))
               else d).
    set (m1 := mkMachine d1 (config m) (trace m ++ fired_one d now (key0, state0))).
    assert (Hsame : forall key state, key <> key0 ->
              qualifies d1 now key state = qualifies d now key state).
    { intros key state Hne. unfold d1. destruct (qualifies d now key0 state0); [|done].
      by apply qualifies_frame. }
    assert (Hcbs : button_callbacks d1 = button_callbacks d).
    { unfold d1. by destruct (qualifies d now key0 state0). }
    assert (Hwf1 : keys_present d1).
    { intros key Hkey. destruct (Hwf key Hkey) as (Hs & Hl & Hc). unfold d1.
      destruct (qualifies d now key0 state0); [|done].
      cbn [button_states last_button_press_time button_callbacks with_last_button_press_time].
      split; [done|]. split; [|done].
      destruct (decide (key0 = key)) as [->|Hne];
        [rewrite lookup_insert_eq | rewrite lookup_insert_ne by done]; done. }
    assert (Hquiet1 : quiet d1) by (unfold quiet; by rewrite Hcbs).
    destruct (IH m1 Hnd (fun key Hin => Hkeys key (list_elem_of_further _ _ _ Hin))
                Hwf1 Hquiet1) as (stamps & Hrun & Hstamps).
    exists stamps. split.
    + rewrite Hrun. cbn [display config trace m1]. f_equal. f_equal.
      * unfold d1. destruct (qualifies d now key0 state0); [|done].
        by destruct d.
      * rewrite <- app_assoc. f_equal. unfold fired. cbn [flat_map]. f_equal.
        apply flat_map_agree. intros [key state] Hin.
        assert (Hne : key <> key0).
        { intros ->. apply Hfresh. apply list_elem_of_fmap. by exists (key0, state). }
        unfold fired_one. cbn [fst snd]. by rewrite Hsame, Hcbs.
    + intros key. rewrite Hstamps. cbn [display m1]. unfold accepted.
      cbn [list_to_map foldr fst snd uncurry].
      destruct (decide (key = key0)) as [->|Hne].
      * rewrite lookup_insert_eq. cbn [from_option].
        rewrite (proj1 (not_elem_of_list_to_map rest key0)) by done.
        cbn [from_option]. unfold d1.
        destruct (qualifies d now key0 state0); [|done].
        cbn [last_button_press_time with_last_button_press_time].
        by rewrite lookup_insert_eq.
      * rewrite lookup_insert_ne by done.
        assert (Hlast : last_button_press_time d1 !! key = last_button_press_time d !! key).
        { unfold d1. destruct (qualifies d now key0 state0); [|done].
          cbn [last_button_press_time with_last_button_press_time].
          by rewrite lookup_insert_ne. }
        rewrite Hlast.
        destruct (list_to_map rest !! key) as [state|] eqn:Hlk; cbn [from_option];
          [by rewrite Hsame | done].
Qed.

Lemma new_states_keys pins : (new_states pins).*1 = BUTTONS.
Proof. reflexivity. Qed.

Lemma BUTTONS_NoDup : NoDup BUTTONS.
Proof. apply (bool_decide_unpack _). vm_compute. exact I. Qed.

Lemma sampled_is_Some pins key :
  key ∈ BUTTONS -> is_Some ((list_to_map (new_states pins) : gmap string bool) !! key).
Proof.
  intros Hkey. rewrite <- (new_states_keys pins) in Hkey.
  apply list_elem_of_fmap in Hkey as ([k state] & -> & Hin).
  exists state. apply elem_of_list_to_map; [|done].
  rewrite new_states_keys. apply BUTTONS_NoDup.
Qed.

Lemma sampled_in_BUTTONS pins key state :
  (list_to_map (new_states pins) : gmap string bool) !! key = Some state -> key ∈ BUTTONS.
Proof.
  intros Hlk. apply elem_of_list_to_map_2 in Hlk.
  rewrite <- (new_states_keys pins). apply list_elem_of_fmap. by exists (key, state).
Qed.

(** One poll, when the dictionaries are complete and no callback raises. *)
Lemma update_button_states_spec pins now m :
  keys_present (display m) -> quiet (display m) ->
  exists stamps,
    update_button_states cb_raises pins now m
    = (Ok (list_to_map (new_states pins)),
       mkMachine
         (with_button_states (with_last_button_press_time (display m) stamps)
                             (list_to_map (new_states pins)))
         (config m)
         (trace m ++ fired (display m) now (new_states pins)))
    /\ forall key,
         stamps !! key
         = if accepted (display m) now (new_states pins) key then Some now
           else last_button_press_time (display m) !! key.
Proof.
  intros Hwf Hquiet.
  destruct (for_items_spec now (new_states pins) m) as (stamps & Hrun & Hstamps);
    [rewrite new_states_keys; apply BUTTONS_NoDup
    |by intros key; rewrite new_states_keys | done | done |].
  exists stamps. split; [|exact Hstamps].
  unfold update_button_states. cbv zeta.
  unfold mbind at 1, M_bind at 1, bind at 1. by rewrite Hrun.
Qed.

Lemma calls_for_app key ops1 ops2 :
  calls_for key (ops1 ++ ops2) = calls_for key ops1 ++ calls_for key ops2.
Proof. apply omap_app. Qed.

Definition registered (d : ST7789) (key : string) : list callback :=
  match button_callbacks d !! key with
  | Some (Some cb) => [cb]
  | _ => []
  end.

Lemma calls_for_fired_one d now key item :
  calls_for key (fired_one d now item)
  = if decide (fst item = key)
    then (if qualifies d now key (snd item) then registered d key else [])
    else [].
Proof.
  unfold fired_one, registered. destruct item as [k state]. cbn [fst snd].
  destruct (decide (k = key)) as [->|Hne].
  - destruct (qualifies d now key state); [|done].
    destruct (button_callbacks d !! key) as [[cb|]|]; [|done|done].
    cbn. by rewrite decide_True.
  - destruct (qualifies d now k state); [|done].
    destruct (button_callbacks d !! k) as [[cb|]|]; [|done|done].
    cbn. by rewrite decide_False.
Qed.

Lemma calls_for_fired d now items key :
  NoDup items.*1 ->
  calls_for key (fired d now items)
  = if accepted d now items key then registered d key else [].
Proof.
  induction items as [|[key0 state0] rest IH]; intros Hnd.
  - unfold accepted. cbn. by rewrite lookup_empty.
  - cbn [fmap list_fmap fst] in Hnd. apply list.NoDup_cons in Hnd as [Hfresh Hnd].
    unfold fired. cbn [flat_map]. rewrite calls_for_app, calls_for_fired_one.
    fold (fired d now rest). rewrite IH by done. cbn [fst snd].
    unfold accepted. cbn [list_to_map foldr fst snd uncurry].
    destruct (decide (key0 = key)) as [->|Hne].
    + rewrite lookup_insert_eq.
      rewrite (proj1 (not_elem_of_list_to_map rest key)) by done.
      cbn [from_option]. by rewrite app_nil_r.
    + by rewrite lookup_insert_ne.
Qed.

Lemma accepted_sampled d now pins key state :
  (list_to_map (new_states pins) : gmap string bool) !! key = Some state ->
  accepted d now (new_states pins) key = qualifies d now key state.
Proof. intros Hlk. unfold accepted. by rewrite Hlk. Qed.

(** What one poll does about [key]. *)
Lemma poll_key pins now m key state old last_time :
  keys_present (display m) -> quiet (display m) ->
  (list_to_map (new_states pins) : gmap string bool) !! key = Some state ->
  button_states (display m) !! key = Some old ->
  last_button_press_time (display m) !! key = Some last_time ->
  let edge := state && negb old
              && bool_decide (now - last_time > button_debounce_ms (display m)) in
  exists m',
    update_button_states cb_raises pins now m
    = (Ok (list_to_map (new_states pins)), m')
    /\ keys_present (display m') /\ quiet (display m')
    /\ button_debounce_ms (display m') = button_debounce_ms (display m)
    /\ button_callbacks (display m') = button_callbacks (display m)
    /\ button_states (display m') !! key = Some state
    /\ last_button_press_time (display m') !! key
       = Some (if edge then now else last_time)
    /\ exists ops,
         trace m' = trace m ++ ops
         /\ calls_for key ops = if edge then registered (display m) key else [].
Proof.
  intros Hwf Hquiet Hstate Hold Hlast edge.
  destruct (update_button_states_spec pins now m Hwf Hquiet) as (stamps & Hrun & Hstamps).
  assert (Hedge : accepted (display m) now (new_states pins) key = edge).
  { rewrite (accepted_sampled _ _ _ _ state) by done.
    unfold qualifies, edge. by rewrite Hold, Hlast. }
  eexists. split; [exact Hrun|].
  cbn [display config trace button_states button_callbacks button_debounce_ms
       last_button_press_time with_button_states with_last_button_press_time].
  split; [|split; [done|split; [done|split; [done|split; [done|split]]]]].
  - intros k Hk. destruct (Hwf k Hk) as (_ & [lt Hlt] & Hc).
    cbn [display config trace button_states button_callbacks button_debounce_ms
         last_button_press_time with_button_states with_last_button_press_time].
    split; [by apply sampled_is_Some|]. split; [|done].
    rewrite Hstamps. by destruct (accepted _ _ _ k).
  - rewrite Hstamps, Hedge, Hlast. by destruct edge.
  - eexists. split; [reflexivity|].
    rewrite calls_for_fired, Hedge by (rewrite new_states_keys; apply BUTTONS_NoDup).
    done.
Qed.

End SamplerFacts.

Lemma sampler_machine_keys_present : keys_present (display sampler_machine).
Proof.
  intros key Hkey. unfold BUTTONS in Hkey.
  repeat (apply elem_of_cons in Hkey as [->|Hkey];
          [vm_compute; repeat split; eexists; reflexivity|]).
  by apply elem_of_nil in Hkey.
Qed.

Lemma sampler_machine_quiet : quiet never_raises (display sampler_machine).
Proof. intros key cb _. reflexivity. Qed.

(** Counterexample to C1 where it says that a press arriving less than
    100 ms after the last accepted one leaves the stored state alone: with
    ["up"] released in the stored state, last accepted at 1000, and
    sampled as pressed at 1050, no callback is called and the time stamp
    stays, but the stored (and returned) state of ["up"] becomes pressed. *)
Lemma debounce_suppressed_press_still_updates_state :
  let m := sampler_machine in
  let r := update_button_states never_raises up_pressed 1050 m in
  button_states (display m) !! "up"%string = Some false
  /\ (list_to_map (new_states up_pressed) : gmap string bool) !! "up"%string = Some true
  /\ last_button_press_time (display m) !! "up"%string = Some 1000
  /\ 1050 - 1000 < button_debounce_ms (display m)
  /\ trace (snd r) = []
  /\ last_button_press_time (display (snd r)) !! "up"%string = Some 1000
  /\ button_states (display (snd r)) !! "up"%string = Some true
  /\ button_states (display (snd r)) !! "up"%string
     <> button_states (display m) !! "up"%string.
Proof.
  cbv zeta. split; [|split; [|split; [|split; [|split; [|split; [|split]]]]]];
    try (vm_compute; reflexivity).
  vm_compute. discriminate.
Qed.

(** C1, as the code has it. When a poll samples a channel as pressed
    while its stored state is released: if less than 100 ms have passed
    since the channel's last accepted press, the press is not accepted (the
    time stamp stays and the channel's callback is not called); if more
    than 100 ms have passed, it is accepted (the time stamp becomes the
    current time and the registered callback, if any, is called once); in
    both cases the stored state of the channel is overwritten with the
    sampled one and returned. Consequently a press, a release and a second
    press of one channel, the first press accepted, give one accepted press
    when the two presses are less than 100 ms apart and two when they are
    more than 100 ms apart. *)
Theorem debounce_gates_callback_and_stamp (cb_raises : callback -> bool) :
  (forall pins now m key last_time,
      keys_present (display m) -> quiet cb_raises (display m) ->
      button_debounce_ms (display m) = 100 ->
      (list_to_map (new_states pins) : gmap string bool) !! key = Some true ->
      button_states (display m) !! key = Some false ->
      last_button_press_time (display m) !! key = Some last_time ->
      exists m' ops,
        update_button_states cb_raises pins now m
        = (Ok (list_to_map (new_states pins)), m')
        /\ trace m' = trace m ++ ops
        /\ button_states (display m') !! key = Some true
        /\ (now - last_time < 100 ->
            qualifies (display m) now key true = false
            /\ last_button_press_time (display m') !! key = Some last_time
            /\ calls_for key ops = [])
        /\ (now - last_time > 100 ->
            qualifies (display m) now key true = true
            /\ last_button_press_time (display m') !! key = Some now
            /\ calls_for key ops = registered (display m) key))
  /\
  (forall pins1 pins2 pins3 t1 t2 t3 m key last0,
      keys_present (display m) -> quiet cb_raises (display m) ->
      button_debounce_ms (display m) = 100 ->
      (list_to_map (new_states pins1) : gmap string bool) !! key = Some true ->
      (list_to_map (new_states pins2) : gmap string bool) !! key = Some false ->
      (list_to_map (new_states pins3) : gmap string bool) !! key = Some true ->
      button_states (display m) !! key = Some false ->
      last_button_press_time (display m) !! key = Some last0 ->
      t1 - last0 > 100 ->
      exists m1 m2 m3 ops,
        update_button_states cb_raises pins1 t1 m
        = (Ok (list_to_map (new_states pins1)), m1)
        /\ update_button_states cb_raises pins2 t2 m1
           = (Ok (list_to_map (new_states pins2)), m2)
        /\ update_button_states cb_raises pins3 t3 m2
           = (Ok (list_to_map (new_states pins3)), m3)
        /\ trace m3 = trace m ++ ops
        /\ (t3 - t1 < 100 ->
            [ qualifies (display m) t1 key true;
              qualifies (display m1) t2 key false;
              qualifies (display m2) t3 key true ] = [true; false; false]
            /\ last_button_press_time (display m3) !! key = Some t1
            /\ calls_for key ops = registered (display m) key)
        /\ (t3 - t1 > 100 ->
            [ qualifies (display m) t1 key true;
              qualifies (display m1) t2 key false;
              qualifies (display m2) t3 key true ] = [true; false; true]
            /\ last_button_press_time (display m3) !! key = Some t3
            /\ calls_for key ops
               = registered (display m) key ++ registered (display m) key)).
Proof.
  split.
  - intros pins now m key last_time Hwf Hquiet Hdeb Hs Hold Hlast.
    destruct (poll_key cb_raises pins now m key true false last_time
                Hwf Hquiet Hs Hold Hlast)
      as (m' & Hrun & _ & _ & _ & _ & Hst & Hstamp & ops & Htr & Hcalls).
    rewrite Hdeb in Hstamp, Hcalls. cbn [andb negb] in Hstamp, Hcalls.
    exists m', ops. split; [done|]. split; [done|]. split; [done|].
    unfold qualifies. rewrite Hold, Hlast, Hdeb. cbn [from_option id andb negb].
    split; intros Hcmp.
    + rewrite bool_decide_false in * by lia. done.
    + rewrite bool_decide_true in * by lia. done.
  - intros pins1 pins2 pins3 t1 t2 t3 m key last0
           Hwf Hquiet Hdeb Hs1 Hs2 Hs3 Hold Hlast Hfirst.
    destruct (poll_key cb_raises pins1 t1 m key true false last0
                Hwf Hquiet Hs1 Hold Hlast)
      as (m1 & Hrun1 & Hwf1 & Hquiet1 & Hdeb1 & Hcb1 & Hst1 & Hstamp1 & ops1 & Htr1 & Hcalls1).
    rewrite Hdeb in Hstamp1, Hcalls1. cbn [andb negb] in Hstamp1, Hcalls1.
    rewrite bool_decide_true in Hstamp1, Hcalls1 by lia.
    destruct (poll_key cb_raises pins2 t2 m1 key false true t1
                Hwf1 Hquiet1 Hs2 Hst1 Hstamp1)
      as (m2 & Hrun2 & Hwf2 & Hquiet2 & Hdeb2 & Hcb2 & Hst2 & Hstamp2 & ops2 & Htr2 & Hcalls2).
    cbn [andb negb] in Hstamp2, Hcalls2.
    destruct (poll_key cb_raises pins3 t3 m2 key true false t1
                Hwf2 Hquiet2 Hs3 Hst2 Hstamp2)
      as (m3 & Hrun3 & _ & _ & Hdeb3 & Hcb3 & Hst3 & Hstamp3 & ops3 & Htr3 & Hcalls3).
    rewrite Hdeb2, Hdeb1, Hdeb in Hstamp3, Hcalls3. cbn [andb negb] in Hstamp3, Hcalls3.
    assert (Hreg : registered (display m2) key = registered (display m) key).
    { unfold registered. by rewrite Hcb2, Hcb1. }
    rewrite Hreg in Hcalls3.
    exists m1, m2, m3, (ops1 ++ ops2 ++ ops3).
    split; [done|]. split; [done|]. split; [done|].
    split; [by rewrite Htr3, Htr2, Htr1, <- !app_assoc|].
    rewrite !calls_for_app, Hcalls1, Hcalls2. cbn [app].
    unfold qualifies. rewrite Hold, Hlast, Hst1, Hstamp1, Hst2, Hstamp2.
    rewrite Hdeb2, Hdeb1, Hdeb. cbn [from_option id andb negb].
    rewrite (bool_decide_true (t1 - last0 > 100)) by lia.
    split; intros Hcmp.
    + rewrite bool_decide_false in * by lia. by rewrite Hcalls3, app_nil_r.
    + rewrite bool_decide_true in * by lia. by rewrite Hcalls3.
Qed.

(** The theorem on the driver as constructed: a press of ["up"] 50 ms
    after the last accepted one; and a press at 2000, a release at 2030
    and a press at 2060. *)
Lemma debounce_gates_callback_and_stamp_witness :
  (exists m' ops,
     update_button_states never_raises up_pressed 1050 sampler_machine
     = (Ok (list_to_map (new_states up_pressed)), m')
     /\ trace m' = trace sampler_machine ++ ops
     /\ button_states (display m') !! "up"%string = Some true
     /\ last_button_press_time (display m') !! "up"%string = Some 1000
     /\ calls_for "up" ops = [])
  /\ (exists m3 ops,
        trace m3 = trace sampler_machine ++ ops
        /\ last_button_press_time (display m3) !! "up"%string = Some 2000
        /\ calls_for "up" ops = registered (display sampler_machine) "up").
Proof.
  destruct (debounce_gates_callback_and_stamp never_raises) as [Hpoll Hseq].
  split.
  - destruct (Hpoll up_pressed 1050 sampler_machine "up"%string 1000
                sampler_machine_keys_present sampler_machine_quiet
                eq_refl eq_refl eq_refl eq_refl)
      as (m' & ops & Hrun & Htr & Hst & Hlt & _).
    exists m', ops. destruct Hlt as (_ & Hstamp & Hcalls); [lia|].
    repeat split; assumption.
  - destruct (Hseq up_pressed all_released up_pressed 2000 2030 2060
                sampler_machine "up"%string 1000
                sampler_machine_keys_present sampler_machine_quiet
                eq_refl eq_refl eq_refl eq_refl eq_refl eq_refl)
      as (m1 & m2 & m3 & ops & _ & _ & _ & Htr & Hlt & _); [lia|].
    exists m3, ops. destruct Hlt as (_ & Hstamp & Hcalls); [lia|].
    repeat split; assumption.
Defined.

End Hardware.

(** ** hardware_interface.py: [BatteryManager] *)

Module Battery.

Import Hardware.

Local Open Scope Z_scope.

Definition PISUGAR_I2C_ADDR : Z := 0x57.

Record BatteryManager := mkBatteryManager {
  i2c_address : Z;
  initialized : bool;
  low_warning : value;
  critical_warning : value;
  auto_shutdown : value
}.

(** [x if x is not None else d] on what [config.get] returned. *)
Definition or_default (v : option value) (d : value) : value :=
  match v with
  | None | Some VNone => d
  | Some x => x
  end.

(** [BatteryManager.__init__]; [smbus_ok] tells whether importing
    [smbus2] and opening bus 1 succeeded. *)
Definition BatteryManager_init (smbus_ok : bool) (cfg : Config.Configuration)
    (i2c_address : Z) : BatteryManager :=
  if smbus_ok then
    mkBatteryManager i2c_address true
      (or_default (Config.get cfg "battery" "low_warning") (VInt 20))
      (or_default (Config.get cfg "battery" "critical_warning") (VInt 10))
      (or_default (Config.get cfg "battery" "auto_shutdown") (VInt 5))
  else
    mkBatteryManager i2c_address false (VInt 20) (VInt 10) (VInt 5).

(** [percentage <= threshold] for an [int] percentage; [None] is the
    [TypeError] of comparing with a string or [None]. *)
Definition py_le (p : Z) (threshold : value) : option bool :=
  match threshold with
  | VInt n => Some (p <=? n)
  | VBool b => Some (p <=? (if b then 1 else 0))
  | VFloat q => Some (bool_decide (Qc_of_Z p ≤ q)%Qc)
  | VNone | VStr _ => None
  end.

(** [v > 0] for what [config.get] returned. *)
Definition py_gt_0 (v : option value) : option bool :=
  match v with
  | Some (VInt n) => Some (0 <? n)
  | Some (VBool b) => Some b
  | Some (VFloat q) => Some (bool_decide (0 < q)%Qc)
  | Some VNone | Some (VStr _) | None => None
  end.

Definition shutdown_command : list string := ["sudo"; "shutdown"; "-h"; "now"]%string.

Section Reads.

(** [self.bus.read_byte_data(address, register)]: the byte read, or
    [None] when the read raises. *)
Variable read_byte_data : Z -> Z -> option Z.

(** The module's [config], and whether [subprocess.run] returns
    (rather than raising). *)
Variable cfg : Config.Configuration.
Variable spawn_ok : bool.

Definition get_battery_voltage (bm : BatteryManager) : option Z * list hw_op :=
  if negb (initialized bm) then (None, [])
  else
    match read_byte_data (i2c_address bm) 0x22 with
    | None => (None, [Log ERROR MsgVoltageReadError])
    | Some high_byte =>
        match read_byte_data (i2c_address bm) 0x23 with
        | None => (None, [Log ERROR MsgVoltageReadError])
        | Some low_byte =>
            let voltage_mv := Z.lor (Z.shiftl high_byte 8) low_byte in
            (Some voltage_mv, [])
        end
    end.

(** [_trigger_auto_shutdown]; [None] is the [TypeError] of the
    comparison, otherwise what was done. *)
Definition _trigger_auto_shutdown : option (list hw_op) :=
  match py_gt_0 (Config.get cfg "battery" "auto_shutdown") with
  | None => None
  | Some true =>
      Some ([Log CRITICAL MsgInitiatingShutdown; SubprocessRun shutdown_command]
            ++ (if spawn_ok then [] else [Log ERROR MsgShutdownFailed]))
  | Some false => Some []
  end.

Definition percentage_error (done : list hw_op) : option Z * list hw_op :=
  (None, done ++ [Log ERROR MsgPercentageReadError]).

Definition get_battery_percentage (bm : BatteryManager) : option Z * list hw_op :=
  if negb (initialized bm) then (None, [])
  else
    match read_byte_data (i2c_address bm) 0x2A with
    | None => percentage_error []
    | Some percentage =>
        match py_le percentage (auto_shutdown bm) with
        | None => percentage_error []
        | Some true =>
            let logged := [Log CRITICAL (MsgBatteryShutdownLevel percentage)] in
            match _trigger_auto_shutdown with
            | None => percentage_error logged
            | Some ops => (Some percentage, logged ++ ops)
            end
        | Some false =>
            match py_le percentage (critical_warning bm) with
            | None => percentage_error []
            | Some true => (Some percentage, [Log CRITICAL (MsgBatteryCritical percentage)])
            | Some false =>
                match py_le percentage (low_warning bm) with
                | None => percentage_error []
                | Some true => (Some percentage, [Log WARNING (MsgBatteryLow percentage)])
                | Some false => (Some percentage, [])
                end
            end
        end
    end.

Definition is_charging (bm : BatteryManager) : option bool * list hw_op :=
  if negb (initialized bm) then (None, [])
  else
    match read_byte_data (i2c_address bm) 0x02 with
    | None => (None, [Log ERROR MsgChargingReadError])
    | Some status => (Some (bool_decide (Z.land status (Z.shiftl 1 7) <> 0)), [])
    end.

End Reads.

(** The manager and configuration of an installation with the default
    configuration file. *)
Definition default_config : Config.Configuration :=
  Config.mkConfiguration Config.DEFAULT_CONFIG (Some Config.DEFAULT_CONFIG) true.

Definition default_manager : BatteryManager :=
  BatteryManager_init true default_config PISUGAR_I2C_ADDR.


(** A sensor that answers every register with the same byte. *)
Definition steady (byte : Z) : Z -> Z -> option Z := fun _ _ => Some byte.

(** A sensor on which exactly the registers in [bad] fail. *)
Definition failing (bad : list Z) (byte : Z) : Z -> Z -> option Z :=
  fun _ reg => if bool_decide (reg ∈ bad) then None else Some byte.

Example readings_with_percentage_register_failing :
  let bus := failing [0x2A] 0x90 in
  fst (get_battery_voltage bus default_manager) = Some 0x9090
  /\ fst (get_battery_percentage bus default_config true default_manager) = None
  /\ fst (is_charging bus default_manager) = Some true.
Proof. vm_compute. repeat split; reflexivity. Qed.

Example readings_with_low_voltage_register_failing :
  let bus := failing [0x23] 0x32 in
  fst (get_battery_voltage bus default_manager) = None
  /\ fst (get_battery_percentage bus default_config true default_manager) = Some 50
  /\ fst (is_charging bus default_manager) = Some false.
Proof. vm_compute. repeat split; reflexivity. Qed.

Lemma bit7_test status :
  bool_decide (Z.land status (Z.shiftl 1 7) <> 0) = Z.testbit status 7.
Proof.
  change (Z.shiftl 1 7) with (2 ^ 7).
  destruct (Z.testbit status 7) eqn:Hbit.
  - apply bool_decide_eq_true. intros Hz.
    assert (Hb : Z.testbit (Z.land status (2 ^ 7)) 7 = true)
      by (rewrite Z.land_spec, Hbit, Z.pow2_bits_true by lia; reflexivity).
    rewrite Hz in Hb. by rewrite Z.bits_0 in Hb.
  - apply bool_decide_eq_false. intros Hnz. apply Hnz.
    apply Z.bits_inj'. intros n Hn.
    rewrite Z.land_spec, Z.bits_0.
    destruct (decide (n = 7)) as [->|Hne].
    + by rewrite Hbit.
    + rewrite (Z.pow2_bits_false 7 n) by lia. apply andb_false_r.
Qed.






(** C9. On an initialised manager each of the three readings is a
    function of its own registers only: the voltage is
    [(high << 8) | low] of registers 0x22 and 0x23 and unknown when either
    read fails; the percentage is unknown when the read of 0x2A fails; the
    charging flag is bit 7 of register 0x02 and unknown when that read
    fails; and a reading (result and log) is the same on any two sensors
    that answer its own registers alike, whatever the other registers do. *)
Theorem battery_fields_fail_independently
    (bus bus' : Z -> Z -> option Z) (cfg : Config.Configuration) (spawn_ok : bool)
    (bm : BatteryManager) :
  initialized bm = true ->
  let a := i2c_address bm in
  fst (get_battery_voltage bus bm)
  = match bus a 0x22, bus a 0x23 with
    | Some high_byte, Some low_byte => Some (Z.lor (Z.shiftl high_byte 8) low_byte)
    | _, _ => None
    end
  /\ (bus a 0x2A = None -> fst (get_battery_percentage bus cfg spawn_ok bm) = None)
  /\ fst (is_charging bus bm) = (fun status => Z.testbit status 7) <$> bus a 0x02
  /\ (bus' a 0x22 = bus a 0x22 -> bus' a 0x23 = bus a 0x23 ->
      get_battery_voltage bus' bm = get_battery_voltage bus bm)
  /\ (bus' a 0x2A = bus a 0x2A ->
      get_battery_percentage bus' cfg spawn_ok bm
      = get_battery_percentage bus cfg spawn_ok bm)
  /\ (bus' a 0x02 = bus a 0x02 -> is_charging bus' bm = is_charging bus bm).
Proof.
  intros Hinit a. unfold get_battery_voltage, get_battery_percentage, is_charging.
  rewrite Hinit. cbn [negb]. fold a.
  split; [|split; [|split; [|split; [|split]]]].
  - destruct (bus a 0x22), (bus a 0x23); reflexivity.
  - by intros ->.
  - destruct (bus a 0x02) as [status|]; [|reflexivity].
    cbn [fst fmap option_fmap option_map]. by rewrite bit7_test.
  - by intros -> ->.
  - by intros ->.
  - by intros ->.
Qed.

(** The theorem on a sensor whose percentage register fails, against one
    that answers everywhere. *)
Lemma battery_fields_fail_independently_witness :
  fst (get_battery_voltage (failing [0x2A] 0x90) default_manager) = Some 0x9090
  /\ fst (get_battery_percentage (failing [0x2A] 0x90) default_config true default_manager)
     = None
  /\ fst (is_charging (failing [0x2A] 0x90) default_manager) = Some true
  /\ get_battery_voltage (steady 0x90) default_manager
     = get_battery_voltage (failing [0x2A] 0x90) default_manager
  /\ is_charging (steady 0x90) default_manager
     = is_charging (failing [0x2A] 0x90) default_manager.
Proof.
  destruct (battery_fields_fail_independently
              (failing [0x2A] 0x90) (steady 0x90) default_config true default_manager
              eq_refl)
    as (Hv & Hp & Hc & Hv' & _ & Hc').
  split; [rewrite Hv; reflexivity|].
  split; [apply Hp; reflexivity|].
  split; [rewrite Hc; reflexivity|].
  split; [apply Hv'; reflexivity | apply Hc'; reflexivity].
Defined.

End Battery.

(** * Further properties of the code *)

(** ** event_system.py: subscriber lists *)

Module EventBusFacts.

Import EventSystem.

Local Open Scope Z_scope.

(** The subscribers of [event_type], [[]] when the type was never used. *)
Definition subscribers (bus : EventBus) (event_type : string) : list callback :=
  default [] (listeners bus !! event_type).

(** No callback is listed twice for a type: what [subscribe]'s membership
    test is there to keep. *)
Definition duplicate_free (bus : EventBus) : Prop :=
  forall event_type, NoDup (subscribers bus event_type).

Lemma subscribers_subscribe_same bus event_type cb :
  subscribers (subscribe bus event_type cb) event_type
  = if decide (cb ∈ subscribers bus event_type)
    then subscribers bus event_type
    else subscribers bus event_type ++ [cb].
Proof.
  unfold subscribers, subscribe.
  destruct (listeners bus !! event_type) as [ls|] eqn:Hl; cbn [default from_option id].
  - rewrite Hl. cbn [default from_option id].
    destruct (decide (cb ∈ ls)); [by rewrite Hl|].
    cbn [listeners set_listeners]. by rewrite lookup_insert_eq.
  - cbn [listeners set_listeners]. rewrite lookup_insert_eq. cbn [default from_option id].
    rewrite decide_False by apply not_elem_of_nil.
    rewrite decide_False by apply not_elem_of_nil.
    cbn [listeners set_listeners]. by rewrite lookup_insert_eq.
Qed.

Lemma subscribers_subscribe_other bus event_type cb other :
  other <> event_type ->
  subscribers (subscribe bus event_type cb) other = subscribers bus other.
Proof.
  intros Hne. unfold subscribers, subscribe.
  destruct (listeners bus !! event_type) as [ls|] eqn:Hl; cbn [default from_option id].
  - rewrite Hl. cbn [default from_option id].
    destruct (decide (cb ∈ ls)); [done|].
    cbn [listeners set_listeners]. by rewrite lookup_insert_ne.
  - cbn [listeners set_listeners]. rewrite lookup_insert_eq. cbn [default from_option id].
    rewrite decide_False by apply not_elem_of_nil.
    cbn [listeners set_listeners]. by rewrite !lookup_insert_ne.
Qed.

Lemma list_remove_not_in x l : x ∉ l -> list_remove x l = l.
Proof.
  induction l as [|y l IH]; intros Hx; cbn [list_remove]; [done|].
  apply not_elem_of_cons in Hx as [Hne Hx].
  rewrite decide_False by done. by rewrite IH.
Qed.

Lemma list_remove_filter x l :
  NoDup l -> list_remove x l = filter (fun y => y <> x) l.
Proof.
  induction l as [|y l IH]; intros Hnd; cbn [list_remove]; [done|].
  apply list.NoDup_cons in Hnd as [Hy Hnd].
  destruct (decide (x = y)) as [->|Hne].
  - rewrite filter_cons_False by (intros H; by apply H).
    clear IH Hnd. induction l as [|z l IH]; [done|].
    apply not_elem_of_cons in Hy as [Hne Hy].
    rewrite filter_cons_True by done. by rewrite <- IH.
  - rewrite filter_cons_True by done. by rewrite IH.
Qed.

Lemma list_remove_snoc x l : x ∉ l -> list_remove x (l ++ [x]) = l.
Proof.
  induction l as [|y l IH]; intros Hx; cbn [list_remove app].
  - by rewrite decide_True.
  - apply not_elem_of_cons in Hx as [Hne Hx].
    rewrite decide_False by done. by rewrite IH.
Qed.

Lemma subscribers_unsubscribe_same bus event_type cb :
  subscribers (unsubscribe bus event_type cb) event_type
  = list_remove cb (subscribers bus event_type).
Proof.
  unfold subscribers, unsubscribe.
  destruct (listeners bus !! event_type) as [ls|] eqn:Hl; cbn [default from_option id].
  - destruct (decide (cb ∈ ls)).
    + cbn [listeners set_listeners]. by rewrite lookup_insert_eq.
    + rewrite Hl. cbn [default from_option id]. by rewrite list_remove_not_in.
  - by rewrite Hl.
Qed.

Lemma subscribers_unsubscribe_other bus event_type cb other :
  other <> event_type ->
  subscribers (unsubscribe bus event_type cb) other = subscribers bus other.
Proof.
  intros Hne. unfold subscribers, unsubscribe.
  destruct (listeners bus !! event_type) as [ls|] eqn:Hl; [|done].
  destruct (decide (cb ∈ ls)); [|done].
  cbn [listeners set_listeners]. by rewrite lookup_insert_ne.
Qed.

Lemma listeners_subscribe bus event_type cb :
  listeners (subscribe bus event_type cb) !! event_type
  = Some (subscribers (subscribe bus event_type cb) event_type).
Proof.
  unfold subscribers, subscribe.
  destruct (listeners bus !! event_type) as [ls|] eqn:Hl; cbn [default from_option id].
  - rewrite Hl. cbn [default from_option id].
    destruct (decide (cb ∈ ls)); [by rewrite Hl|].
    cbn [listeners set_listeners]. by rewrite lookup_insert_eq.
  - cbn [listeners set_listeners]. rewrite lookup_insert_eq. cbn [default from_option id].
    rewrite decide_False by apply not_elem_of_nil.
    cbn [listeners set_listeners]. by rewrite lookup_insert_eq.
Qed.

Lemma EventBus_init_duplicate_free : duplicate_free EventBus_init.
Proof. intros t. unfold subscribers. cbn. rewrite lookup_empty. constructor. Qed.

Lemma subscribe_same_list bus event_type cb :
  subscribers (subscribe bus event_type cb) event_type
  = subscribers bus event_type
    ++ (if decide (cb ∈ subscribers bus event_type) then [] else [cb]).
Proof.
  rewrite subscribers_subscribe_same.
  destruct (decide (cb ∈ subscribers bus event_type)); [by rewrite app_nil_r|done].
Qed.

Lemma subscribe_duplicate_free bus event_type cb :
  duplicate_free bus -> duplicate_free (subscribe bus event_type cb).
Proof.
  intros Hnd t. destruct (decide (t = event_type)) as [->|Hne].
  - rewrite subscribe_same_list. destruct (decide (cb ∈ subscribers bus event_type)).
    + rewrite app_nil_r. apply Hnd.
    + apply list.NoDup_app. split; [apply Hnd|]. split; [|apply list.NoDup_singleton].
      intros x Hx Hx'. apply list_elem_of_singleton in Hx'. by subst.
  - rewrite subscribers_subscribe_other by done. apply Hnd.
Qed.

Lemma demo_bus_duplicate_free : duplicate_free demo_bus.
Proof.
  unfold demo_bus.
  repeat apply subscribe_duplicate_free. apply EventBus_init_duplicate_free.
Qed.

(** X1. [subscribe] puts the callback on the list of its event type, after
    the callbacks already there and only if it is not there yet: a second
    subscription of the same callback changes nothing, the lists of the
    other event types are not touched, and no list ever holds a callback
    twice. *)
Theorem subscribe_appends_once (bus : EventBus) (event_type : string) (cb : callback) :
  duplicate_free bus ->
  let bus' := subscribe bus event_type cb in
  cb ∈ subscribers bus' event_type
  /\ subscribers bus' event_type
     = subscribers bus event_type
       ++ (if decide (cb ∈ subscribers bus event_type) then [] else [cb])
  /\ subscribe bus' event_type cb = bus'
  /\ (forall other, other <> event_type -> subscribers bus' other = subscribers bus other)
  /\ processed_events bus' = processed_events bus
  /\ duplicate_free bus'.
Proof.
  intros Hnd bus'.
  pose proof (subscribe_same_list bus event_type cb) as Hsame. fold bus' in Hsame.
  assert (Hin : cb ∈ subscribers bus' event_type).
  { rewrite Hsame. destruct (decide (cb ∈ subscribers bus event_type)).
    - by rewrite app_nil_r.
    - apply elem_of_app. right. left. }
  split; [done|]. split; [done|]. split; [|split; [|split]].
  - pose proof (listeners_subscribe bus event_type cb) as Hl. fold bus' in Hl.
    unfold subscribe at 1. rewrite Hl. cbn [default from_option id].
    by rewrite decide_True.
  - intros other Hne. by apply subscribers_subscribe_other.
  - unfold bus', subscribe.
    destruct (listeners bus !! event_type); cbn [default from_option id];
      repeat (destruct (decide _)); reflexivity.
  - by apply subscribe_duplicate_free.
Qed.

Lemma subscribe_appends_once_witness :
  subscribers (subscribe demo_bus "button_press" 5%nat) "button_press" = [1; 2; 3; 5]%nat
  /\ subscribers (subscribe demo_bus "button_press" 2%nat) "button_press" = [1; 2; 3]%nat
  /\ subscribers (subscribe demo_bus "screen_change" 2%nat) "button_press" = [1; 2; 3]%nat.
Proof.
  pose proof demo_bus_duplicate_free as Hnd.
  destruct (subscribe_appends_once demo_bus "button_press" 5%nat Hnd) as (_ & H5 & _).
  destruct (subscribe_appends_once demo_bus "button_press" 2%nat Hnd) as (_ & H2 & _).
  destruct (subscribe_appends_once demo_bus "screen_change" 2%nat Hnd) as (_ & _ & _ & Hother & _).
  split; [rewrite H5; vm_compute; reflexivity|].
  split; [rewrite H2; vm_compute; reflexivity|].
  rewrite Hother by discriminate. vm_compute. reflexivity.
Defined.

(** X2. On a bus whose lists hold no callback twice, [unsubscribe] takes
    the callback off the list of its event type and keeps the others in
    their order; it does nothing when the callback is not subscribed, it
    does not touch the other event types, and unsubscribing a callback that
    was just subscribed gives back the list as it was. *)
Theorem unsubscribe_removes (bus : EventBus) (event_type : string) (cb : callback) :
  duplicate_free bus ->
  let bus' := unsubscribe bus event_type cb in
  (cb ∉ subscribers bus' event_type)
  /\ subscribers bus' event_type = filter (fun c => c <> cb) (subscribers bus event_type)
  /\ (cb ∉ subscribers bus event_type -> bus' = bus)
  /\ (forall other, other <> event_type -> subscribers bus' other = subscribers bus other)
  /\ duplicate_free bus'
  /\ (cb ∉ subscribers bus event_type ->
      subscribers (unsubscribe (subscribe bus event_type cb) event_type cb) event_type
      = subscribers bus event_type).
Proof.
  intros Hnd bus'.
  assert (Hsame : subscribers bus' event_type
                  = filter (fun c => c <> cb) (subscribers bus event_type)).
  { unfold bus'. rewrite subscribers_unsubscribe_same. by apply list_remove_filter. }
  split; [|split; [done|split; [|split; [|split]]]].
  - rewrite Hsame. intros Hin%list_elem_of_filter. by destruct Hin as [Hne _].
  - intros Hnot. unfold bus', unsubscribe. unfold subscribers in Hnot.
    destruct (listeners bus !! event_type) as [ls|]; [|done].
    cbn [default from_option id] in Hnot. by rewrite decide_False.
  - intros other Hne. by apply subscribers_unsubscribe_other.
  - intros t. destruct (decide (t = event_type)) as [->|Hne].
    + rewrite Hsame. apply list.NoDup_filter, Hnd.
    + unfold bus'. rewrite subscribers_unsubscribe_other by done. apply Hnd.
  - intros Hnot. rewrite subscribers_unsubscribe_same, subscribers_subscribe_same.
    rewrite decide_False by done. by apply list_remove_snoc.
Qed.

Lemma unsubscribe_removes_witness :
  subscribers (unsubscribe demo_bus "button_press" 2%nat) "button_press" = [1; 3]%nat
  /\ unsubscribe demo_bus "button_press" 8%nat = demo_bus.
Proof.
  pose proof demo_bus_duplicate_free as Hnd.
  destruct (unsubscribe_removes demo_bus "button_press" 2%nat Hnd) as (_ & H2 & _).
  destruct (unsubscribe_removes demo_bus "button_press" 8%nat Hnd) as (_ & _ & H8 & _).
  split; [rewrite H2; vm_compute; reflexivity|].
  apply H8. vm_compute. intros Hin.
  repeat (apply elem_of_cons in Hin as [Hin|Hin]; [discriminate Hin|]).
  by apply elem_of_nil in Hin.
Defined.

#[local] Instance outcome_eq_dec : EqDecision outcome.
Proof. solve_decision. Defined.

Section Counting.

Variable run : callback -> EventBus -> Event -> outcome * EventBus * Event.

(** Subscribers that leave the counter of the bus alone (they do not
    publish in turn). *)
Definition counter_untouched : Prop :=
  forall cb bus event,
    processed_events (snd (fst (run cb bus event))) = processed_events bus.

Definition returned (tr : list call) : list call :=
  filter (fun c => ended c = Returned) tr.

Lemma dispatch_counts (Hrun : counter_untouched) snapshot : forall bus event,
  processed_events (fst (fst (dispatch run snapshot bus event)))
  = processed_events bus
    + Z.of_nat (length (returned (snd (dispatch run snapshot bus event)))).
Proof.
  induction snapshot as [|cb rest IH]; intros bus event; cbn [dispatch].
  - cbn. lia.
  - destruct (handled event).
    + apply IH.
    + pose proof (Hrun cb bus event) as Hcb.
      destruct (run cb bus event) as [[res bus1] event1]. cbn [fst snd] in Hcb.
      set (bus2 := match res with Returned => _ | Raised => _ end).
      specialize (IH bus2 event1).
      destruct (dispatch run rest bus2 event1) as [[bus3 event3] tr].
      cbn [fst snd] in *. rewrite IH. unfold returned, bus2.
      destruct res.
      * rewrite filter_cons_True by done. cbn [length processed_events count_processed].
        rewrite Hcb. lia.
      * rewrite filter_cons_False by done. rewrite Hcb. lia.
Qed.

End Counting.

(** X3. When the subscribers do not publish in turn, [publish] raises
    [processed_events] by exactly the number of callbacks that returned
    normally: a callback that raised and a callback skipped because the
    event was handled are not counted. *)
Theorem publish_counts_returned_callbacks
    (run : callback -> EventBus -> Event -> outcome * EventBus * Event)
    (bus : EventBus) (event : Event) :
  counter_untouched run ->
  let r := publish run bus event in
  processed_events (fst (fst r))
  = processed_events bus + Z.of_nat (length (returned (snd r)))
  /\ (length (returned (snd r)) <= length (snapshot_of bus event))%nat.
Proof.
  intros Hrun r. unfold r, publish, snapshot_of.
  destruct (listeners bus !! event_type event) as [ls|]; cbn [default from_option id].
  - split; [by apply dispatch_counts|].
    destruct (dispatch_prefix run ls bus event) as [k Hk].
    unfold returned. etransitivity; [apply length_filter|].
    unfold invoked in Hk. rewrite <- (length_map called), Hk, length_take. lia.
  - cbn. split; lia.
Qed.

Lemma publish_counts_returned_callbacks_witness :
  processed_events (fst (fst (publish demo_run demo_bus demo_event))) = 2.
Proof.
  assert (Hrun : counter_untouched demo_run).
  { intros cb bus event. unfold demo_run.
    destruct cb as [|[|[|[|[|[|[|[|]]]]]]]]; try reflexivity.
    unfold subscribe. cbn [fst snd].
    destruct (listeners bus !! "button_press"%string); cbn [default from_option id];
      repeat (destruct (decide _)); reflexivity. }
  destruct (publish_counts_returned_callbacks demo_run demo_bus demo_event Hrun) as [Hcount _].
  rewrite Hcount. vm_compute. reflexivity.
Defined.

End EventBusFacts.

(** ** state_manager.py: observer lists *)

Module ObservableFacts.

Import StateManager.

Local Open Scope Z_scope.

(** X4. [observe] registers a callback once, after the observers already
    there; registering it again changes nothing; [unobserve] of a callback
    that was just registered gives back the observable as it was, and after
    [unobserve] the callback is not registered. The value is never touched
    and no observer is ever listed twice. *)
Theorem observe_unobserve_roundtrip {T : Type} (o : Observable T) (cb : callback) :
  NoDup (_observers o) ->
  cb ∈ _observers (observe o cb)
  /\ observe (observe o cb) cb = observe o cb
  /\ _value (observe o cb) = _value o
  /\ NoDup (_observers (observe o cb))
  /\ (cb ∉ _observers o ->
      _observers (observe o cb) = _observers o ++ [cb]
      /\ unobserve (observe o cb) cb = o)
  /\ (cb ∉ _observers (unobserve o cb))
  /\ _observers (unobserve o cb) = filter (fun c => c <> cb) (_observers o)
  /\ _value (unobserve o cb) = _value o.
Proof.
  intros Hnd. destruct o as [v obs]. cbn [_observers _value] in *.
  unfold observe, unobserve. cbn [_observers _value].
  assert (Hin : cb ∈ _observers (if decide (cb ∈ obs) then mkObservable v obs
                                 else mkObservable v (obs ++ [cb]))).
  { destruct (decide (cb ∈ obs)); cbn [_observers]; [done|].
    apply elem_of_app. right. left. }
  split; [exact Hin|]. split; [|split; [|split; [|split; [|split; [|split]]]]].
  - by rewrite (decide_True _ _ Hin).
  - by destruct (decide (cb ∈ obs)).
  - destruct (decide (cb ∈ obs)); cbn [_observers]; [done|].
    apply list.NoDup_app. split; [done|]. split; [|apply list.NoDup_singleton].
    intros x Hx Hx'. apply list_elem_of_singleton in Hx'. by subst.
  - intros Hnot. rewrite (decide_False _ _ Hnot). cbn [_observers _value].
    split; [done|]. rewrite decide_True by (apply elem_of_app; right; left).
    by rewrite EventBusFacts.list_remove_snoc.
  - destruct (decide (cb ∈ obs)); cbn [_observers]; [|done].
    rewrite EventBusFacts.list_remove_filter by done.
    intros Hx%list_elem_of_filter. by destruct Hx.
  - destruct (decide (cb ∈ obs)); cbn [_observers].
    + by apply EventBusFacts.list_remove_filter.
    + symmetry. rewrite <- (EventBusFacts.list_remove_filter cb obs Hnd).
      by rewrite EventBusFacts.list_remove_not_in.
  - by destruct (decide (cb ∈ obs)).
Qed.

Lemma observe_unobserve_roundtrip_witness :
  _observers (observe demo_observable 9%nat) = [1; 2; 3; 9]%nat
  /\ unobserve (observe demo_observable 9%nat) 9%nat = demo_observable
  /\ _observers (unobserve demo_observable 2%nat) = [1; 3]%nat.
Proof.
  assert (Hnd : NoDup (_observers demo_observable)).
  { apply (bool_decide_unpack _). vm_compute. exact I. }
  assert (Hfresh : 9%nat ∉ _observers demo_observable).
  { apply (bool_decide_unpack _). vm_compute. exact I. }
  destruct (observe_unobserve_roundtrip demo_observable 9%nat Hnd)
    as (_ & _ & _ & _ & Hnew & _).
  destruct (observe_unobserve_roundtrip demo_observable 2%nat Hnd)
    as (_ & _ & _ & _ & _ & _ & Hrem & _).
  destruct (Hnew Hfresh) as [Happ Hback].
  split; [rewrite Happ; reflexivity|]. split; [exact Hback|].
  rewrite Hrem. vm_compute. reflexivity.
Defined.

Section LiveList.

Context {T : Type} `{EqDecision T}.
Variable run : callback -> T -> Observable T -> outcome * Observable T.

(** The rest of a notification when the observers still to be called do
    not touch the observable. *)
Lemma notify_quiet_suffix v o : forall fuel i,
  (forall c, c ∈ drop i (_observers o) -> snd (run c v o) = o) ->
  (length (_observers o) - i < fuel)%nat ->
  _notify_observers run fuel i v o
  = Some (o, map (fun cb => mkNotification cb v (value o) (fst (run cb v o)))
                 (drop i (_observers o))).
Proof.
  induction fuel as [|fuel IH]; intros i Hquiet Hlen; cbn [_notify_observers]; [lia|].
  destruct (_observers o !! i) as [cb|] eqn:Hi.
  - rewrite (drop_S _ cb i) in Hquiet |- * by done.
    pose proof (Hquiet cb ltac:(left)) as Hsame.
    destruct (run cb v o) as [res o1] eqn:Hrun. cbn [snd] in Hsame. subst o1.
    apply lookup_lt_Some in Hi as Hlt.
    rewrite IH; [|intros c Hc; apply Hquiet; by right|lia].
    cbn [map]. by rewrite Hrun.
  - apply lookup_ge_None in Hi. by rewrite drop_ge by lia.
Qed.

End LiveList.

(** X5. The notification loop walks the live observer list by position:
    when the first observer unregisters itself while it is being notified,
    the observer registered right after it is not called for that change;
    the ones after that are. *)
Theorem self_unobserve_skips_next_observer
    {T : Type} `{EqDecision T}
    (run : callback -> T -> Observable T -> outcome * Observable T)
    (o : Observable T) (v : T) (fuel : nat)
    (cb next : callback) (rest : list callback) (res : outcome) :
  _observers o = cb :: next :: rest ->
  NoDup (_observers o) ->
  v <> value o ->
  (length (_observers o) < fuel)%nat ->
  let o_set := mkObservable v (_observers o) in
  let o_end := mkObservable v (next :: rest) in
  run cb v o_set = (res, unobserve o_set cb) ->
  (forall c, c ∈ rest -> snd (run c v o_end) = o_end) ->
  set_value run fuel v o
  = Some (o_end,
          mkNotification cb v v res
          :: map (fun c => mkNotification c v v (fst (run c v o_end))) rest).
Proof.
  intros Hobs Hnd Hne Hfuel o_set o_end Hcb Hrest.
  unfold set_value, value in *. rewrite decide_False by done. fold o_set.
  destruct fuel as [|fuel]; [lia|]. cbn [_notify_observers].
  assert (Hset : _observers o_set = cb :: next :: rest) by (by unfold o_set).
  rewrite Hset. cbn [lookup list_lookup]. rewrite Hcb.
  assert (Hun : unobserve o_set cb = o_end).
  { unfold unobserve. rewrite Hset. rewrite decide_True by left.
    cbn [EventSystem.list_remove]. by rewrite decide_True. }
  rewrite Hun.
  rewrite (notify_quiet_suffix run v o_end fuel 1).
  - reflexivity.
  - cbn [o_end _observers drop]. exact Hrest.
  - cbn [o_end _observers length]. rewrite Hobs in Hfuel. cbn [length] in Hfuel. lia.
Qed.

(** Observer 1 unregisters itself; observers 2 and 3 only look. *)
Definition leaving_run (cb : callback) (a : Z) (o : Observable Z) : outcome * Observable Z :=
  match cb with
  | 1%nat => (Returned, unobserve o 1%nat)
  | _ => (Returned, o)
  end.

Lemma self_unobserve_skips_next_observer_witness :
  set_value leaving_run 4 75 demo_observable
  = Some (mkObservable 75 [2; 3]%nat,
          [mkNotification 1%nat 75 75 Returned; mkNotification 3%nat 75 75 Returned]).
Proof.
  apply (self_unobserve_skips_next_observer leaving_run demo_observable 75 4
           1%nat 2%nat [3%nat] Returned).
  - reflexivity.
  - apply (bool_decide_unpack _). vm_compute. exact I.
  - vm_compute. discriminate.
  - vm_compute. lia.
  - reflexivity.
  - intros c Hc. apply list_elem_of_singleton in Hc. subst c. reflexivity.
Defined.

(** X6. An observer registered while a notification is running is called
    for that same change, after the observers that were already there
    (unlike [EventBus.publish], the loop does not work on a copy). *)
Theorem observer_added_during_notification_is_called
    {T : Type} `{EqDecision T}
    (run : callback -> T -> Observable T -> outcome * Observable T)
    (o : Observable T) (v : T) (fuel : nat)
    (cb added : callback) (rest : list callback) (res : outcome) :
  _observers o = cb :: rest ->
  added ∉ _observers o ->
  v <> value o ->
  (S (length (_observers o)) < fuel)%nat ->
  let o_set := mkObservable v (_observers o) in
  let o_end := mkObservable v (cb :: rest ++ [added]) in
  run cb v o_set = (res, observe o_set added) ->
  (forall c, c ∈ rest ++ [added] -> snd (run c v o_end) = o_end) ->
  set_value run fuel v o
  = Some (o_end,
          mkNotification cb v v res
          :: map (fun c => mkNotification c v v (fst (run c v o_end))) (rest ++ [added])).
Proof.
  intros Hobs Hfresh Hne Hfuel o_set o_end Hcb Hrest.
  unfold set_value, value in *. rewrite decide_False by done. fold o_set.
  destruct fuel as [|fuel]; [lia|]. cbn [_notify_observers].
  assert (Hset : _observers o_set = cb :: rest) by (by unfold o_set).
  rewrite Hset. cbn [lookup list_lookup]. rewrite Hcb.
  assert (Hadd : observe o_set added = o_end).
  { unfold observe. rewrite Hset. rewrite <- Hobs. by rewrite decide_False, Hobs. }
  rewrite Hadd.
  rewrite (notify_quiet_suffix run v o_end fuel 1).
  - reflexivity.
  - cbn [o_end _observers drop]. exact Hrest.
  - cbn [o_end _observers length]. rewrite length_app. cbn [length].
    rewrite Hobs in Hfuel. cbn [length] in Hfuel. lia.
Qed.

(** Observer 1 registers observer 9; the others only look. *)
Definition inviting_run (cb : callback) (a : Z) (o : Observable Z) : outcome * Observable Z :=
  match cb with
  | 1%nat => (Returned, observe o 9%nat)
  | _ => (Returned, o)
  end.

Lemma observer_added_during_notification_is_called_witness :
  set_value inviting_run 5 75 demo_observable
  = Some (mkObservable 75 [1; 2; 3; 9]%nat,
          [ mkNotification 1%nat 75 75 Returned; mkNotification 2%nat 75 75 Returned;
            mkNotification 3%nat 75 75 Returned; mkNotification 9%nat 75 75 Returned ]).
Proof.
  apply (observer_added_during_notification_is_called inviting_run demo_observable 75 5
           1%nat 9%nat [2; 3]%nat Returned).
  - reflexivity.
  - apply (bool_decide_unpack _). vm_compute. exact I.
  - vm_compute. discriminate.
  - vm_compute. lia.
  - reflexivity.
  - intros c Hc. cbn [app] in Hc.
    repeat (apply elem_of_cons in Hc as [->|Hc]; [reflexivity|]).
    by apply elem_of_nil in Hc.
Defined.

End ObservableFacts.

(** ** config.py: [get] and [set] *)

Module ConfigFacts.

Import Config.

Local Open Scope Z_scope.

Lemma get_after_set (c : Configuration) (sec key : string) (v : value) :
  get (snd (fst (set c sec key v))) sec key = Some v.
Proof.
  unfold set, _save_config. cbn [config stored writable].
  destruct (writable c); cbn [fst snd]; unfold get; cbn [config];
    rewrite lookup_insert_eq; apply lookup_insert_eq.
Qed.




End ConfigFacts.

(** ** hardware_interface.py: what reaches the display bus *)

Module DisplayFacts.

Import Hardware.

Local Open Scope Z_scope.

#[local] Existing Instance Hardware.M_ret.
#[local] Existing Instance Hardware.M_bind.
#[local] Hint Resolve emits_emit emits_digital_write emits_spi_writebyte
  emits_command emits_data emits_reset emits_seq : bus_ops.

(** The slices [buf[i:i+4096]] for [i] in [range(0, len(buf), 4096)]. *)
Definition chunks (buf : list Z) : list (list Z) :=
  map (fun i => take 4096 (drop i buf)) (py_range_step (length buf) 4096).

Lemma write_slices_emits buf starts :
  emits (write_slices buf starts)
        (map (fun i => SpiWriteBytes (take 4096 (drop i buf))) starts).
Proof.
  induction starts as [|i rest IH]; cbn [write_slices map].
  - intros m. apply yields_at_ret.
  - apply (emits_seq _ _ [_]); [apply emits_spi_writebyte | exact IH].
Qed.

Lemma send_chunks_emits buf :
  emits (send_chunks buf) (map SpiWriteBytes (chunks buf)).
Proof.
  unfold send_chunks, chunks. rewrite map_map. apply write_slices_emits.
Qed.

Lemma concat_slices (s : nat) (buf : list Z) : forall n j,
  concat (map (fun i => take s (drop i buf)) (map (fun k => (k * s)%nat) (seq j n)))
  = take (n * s) (drop (j * s) buf).
Proof.
  induction n as [|n IH]; intros j; cbn [seq map concat]; [done|].
  rewrite IH. replace (S j * s)%nat with (j * s + s)%nat by lia.
  rewrite <- drop_drop, take_take_drop. f_equal; lia.
Qed.

Lemma range_covers (stop s : nat) :
  (0 < s)%nat -> (stop <= (stop + s - 1) / s * s)%nat.
Proof.
  intros Hs. pose proof (Nat.div_mod_eq (stop + s - 1) s) as Hdm.
  pose proof (Nat.mod_upper_bound (stop + s - 1) s ltac:(lia)) as Hub. nia.
Qed.

Lemma range_starts_inside (stop s k : nat) :
  (0 < s)%nat -> (k < (stop + s - 1) / s)%nat -> (k * s < stop)%nat.
Proof.
  intros Hs Hk. pose proof (Nat.div_mod_eq (stop + s - 1) s) as Hdm.
  pose proof (Nat.mod_upper_bound (stop + s - 1) s ltac:(lia)) as Hub. nia.
Qed.

Lemma concat_chunks buf : concat (chunks buf) = buf.
Proof.
  unfold chunks, py_range_step. rewrite concat_slices. cbn [Nat.mul drop].
  apply take_ge. apply range_covers. lia.
Qed.

Lemma chunk_lengths buf k c :
  chunks buf !! k = Some c ->
  length c = Nat.min 4096 (length buf - k * 4096) /\ (0 < length c <= 4096)%nat.
Proof.
  unfold chunks, py_range_step. rewrite !list_lookup_fmap.
  destruct (seq 0 ((length buf + 4096 - 1) / 4096) !! k) as [k'|] eqn:Hk; [|done].
  apply lookup_seq in Hk as [-> Hlt]. cbn [fmap option_fmap option_map].
  intros [= <-]. rewrite length_take, length_drop.
  pose proof (range_starts_inside (length buf) 4096 k ltac:(lia) Hlt). cbn [Nat.add].
  split; lia.
Qed.

Lemma chunk_slice (buf : list Z) (k : nat) (c : list Z) :
  chunks buf !! k = Some c -> c = take 4096 (drop (k * 4096) buf).
Proof.
  unfold chunks, py_range_step. rewrite !list_lookup_fmap.
  destruct (seq 0 ((length buf + 4096 - 1) / 4096) !! k) as [k'|] eqn:Hk; [|done].
  apply lookup_seq in Hk as [-> Hlt]. cbn [fmap option_fmap option_map Nat.add].
  by intros [= <-].
Qed.

(** X8. The transfer loop of [ShowImage] and [clear] cuts the byte buffer
    into consecutive slices of 4096 bytes, the last one holding what is
    left: joined in order the slices are the buffer itself, no slice is
    empty and none is longer than 4096 bytes, and each slice is handed to
    [spi_writebyte] once, in order, with nothing else on the bus. *)
Theorem send_chunks_splits_buffer (buf : list Z) (m : machine) :
  send_chunks buf m = (Ok tt, after m (map SpiWriteBytes (chunks buf)))
  /\ concat (chunks buf) = buf
  /\ length (chunks buf) = ((length buf + 4095) / 4096)%nat
  /\ (forall k c, chunks buf !! k = Some c ->
        c = take 4096 (drop (k * 4096) buf)
        /\ length c = Nat.min 4096 (length buf - k * 4096)
        /\ (0 < length c <= 4096)%nat).
Proof.
  split; [apply send_chunks_emits|]. split; [apply concat_chunks|]. split.
  - unfold chunks, py_range_step. rewrite !length_map, length_seq. f_equal; lia.
  - intros k c Hc. split; [by apply chunk_slice|by apply chunk_lengths].
Qed.

Example chunks_of_10000_bytes :
  map (@length Z) (chunks (replicate (Z.to_nat 10000) 0xff)) = [4096; 4096; 1808]%nat.
Proof. vm_compute. reflexivity. Qed.

Example chunks_of_nothing : chunks [] = [].
Proof. reflexivity. Qed.

(** What [SetWindows] puts on the bus. *)
Definition window_ops (Xstart Ystart Xend Yend : Z) : list hw_op :=
  command_ops 0x2A
  ++ data_ops 0x00 ++ data_ops (Z.land Xstart 0xff)
  ++ data_ops 0x00 ++ data_ops (Z.land (Xend - 1) 0xff)
  ++ command_ops 0x2B
  ++ data_ops 0x00 ++ data_ops (Z.land Ystart 0xff)
  ++ data_ops 0x00 ++ data_ops (Z.land (Yend - 1) 0xff)
  ++ command_ops 0x2C.

(** The image array has the shape of [pix]. *)
Definition shape_ok (d : ST7789) (image : Image) : Prop :=
  Z.of_nat (length (rows image)) = width d
  /\ Forall (fun row => Z.of_nat (length row) = height d) (rows image).

(** The frame [ShowImage] converts: the image, rotated when the rotation
    is 90, 180 or 270. *)
Definition prerotated (rotate : Z -> Image -> Image) (r : Z) (image : Image) : Image :=
  if bool_decide (r = 90) then rotate 270 image
  else if bool_decide (r = 180) then rotate 180 image
  else if bool_decide (r = 270) then rotate 90 image
  else image.

Lemma shape_test d image :
  shape_ok d image ->
  bool_decide (Z.of_nat (length (rows image)) = width d)
  && forallb (fun row => bool_decide (Z.of_nat (length row) = height d)) (rows image)
  = true.
Proof.
  intros [Hw Hh]. rewrite bool_decide_true by done. cbn [andb].
  apply forallb_forall. intros row Hrow%list_elem_of_In.
  apply bool_decide_eq_true. by apply (proj1 (List.Forall_forall _ _) Hh), list_elem_of_In.
Qed.

Lemma shape_test_fails d image :
  ~ shape_ok d image ->
  bool_decide (Z.of_nat (length (rows image)) = width d)
  && forallb (fun row => bool_decide (Z.of_nat (length row) = height d)) (rows image)
  = false.
Proof.
  intros Hno. apply not_true_is_false. intros Htest.
  apply andb_prop in Htest as [Hw Hh]. apply Hno. split.
  - by apply bool_decide_eq_true in Hw.
  - apply List.Forall_forall. intros row Hrow.
    rewrite forallb_forall in Hh. specialize (Hh row Hrow).
    by apply bool_decide_eq_true in Hh.
Qed.

Lemma send_frame_trace image m :
  shape_ok (display m) image ->
  send_frame image m
  = (Ok tt,
     after m (window_ops 0 0 (width (display m)) (height (display m))
              ++ [DigitalWrite GPIO_DC_PIN true]
              ++ map SpiWriteBytes (chunks (flatten_pix (rows image))))).
Proof.
  intros Hshape. unfold send_frame.
  unfold mbind at 1, M_bind at 1, bind at 1, self. cbv beta iota zeta.
  rewrite shape_test by done.
  apply emits_seq; [apply SetWindows_emits|].
  apply (emits_seq _ _ [_]); [apply emits_digital_write | apply send_chunks_emits].
Qed.

Lemma flatten_pix_length (h : nat) (img : list (list pixel)) :
  Forall (fun row => length row = h) img ->
  length (flatten_pix img) = (2 * length img * h)%nat.
Proof.
  unfold flatten_pix. induction 1 as [|row img Hrow _ IH]; [done|].
  cbn [map concat]. rewrite length_app, IH. cbn [length].
  assert (Hlen : forall r : list pixel,
            length (concat (map (fun p => [fst (pack565 p); snd (pack565 p)]) r))
            = (2 * length r)%nat).
  { induction r as [|p r IHr]; [done|]. cbn [map concat length app]. rewrite IHr. lia. }
  rewrite Hlen, Hrow. lia.
Qed.

(** X9. For a frame of the panel's size, [ShowImage] addresses the whole
    panel with [SetWindows(0, 0, width, height)], raises the data line and
    sends the two bytes of every pixel, row by row and pixel by pixel, in
    slices of at most 4096 bytes: [2 * width * height] bytes in all. It
    changes neither the driver object nor the configuration. *)
Theorem ShowImage_sends_every_pixel
    (rotate : Z -> Image -> Image) (image : Image) (m : machine) :
  let d := display m in
  let frame := prerotated rotate (rotation d) image in
  size image = (width d, height d) ->
  shape_ok d frame ->
  ShowImage rotate image m
  = (Ok tt,
     mkMachine d (config m)
       (trace m
        ++ window_ops 0 0 (width d) (height d)
        ++ [DigitalWrite GPIO_DC_PIN true]
        ++ map SpiWriteBytes (chunks (flatten_pix (rows frame)))))
  /\ concat (chunks (flatten_pix (rows frame)))
     = concat (map (fun row => concat (map (fun p => [fst (pack565 p); snd (pack565 p)]) row))
                   (rows frame))
  /\ Z.of_nat (length (flatten_pix (rows frame))) = 2 * width d * height d
  /\ Forall (fun c => (length c <= 4096)%nat) (chunks (flatten_pix (rows frame))).
Proof.
  intros d frame Hsize Hshape.
  split; [|split; [|split]].
  - rewrite ShowImage_prerotation by done. by rewrite send_frame_trace.
  - apply concat_chunks.
  - destruct Hshape as [Hw Hh].
    rewrite (flatten_pix_length (Z.to_nat (height d))).
    + rewrite <- Hw.
      destruct (rows frame) as [|row rest]; [cbn; lia|].
      inversion Hh as [|? ? Hrow Hrest]; subst.
      rewrite !Nat2Z.inj_mul, Z2Nat.id by lia. lia.
    + eapply List.Forall_impl; [|exact Hh]. cbv beta. intros row Hrow. lia.
  - apply List.Forall_forall. intros c Hc%list_elem_of_In.
    apply list_elem_of_lookup in Hc as [k Hk].
    apply chunk_lengths in Hk. lia.
Qed.

(** A 48 x 48 panel: 4608 bytes, two slices. *)
Definition small_machine : machine :=
  mkMachine (mkST7789 ∅ ∅ ∅ 100 48 48 0)
            (Config.mkConfiguration Config.DEFAULT_CONFIG None true) [].

Definition small_image : Image :=
  mkImage (48, 48) (replicate 48 (replicate 48 (8, 4, 16))).

Lemma small_image_shape : shape_ok (display small_machine) small_image.
Proof.
  split; [reflexivity|].
  apply List.Forall_forall. intros row Hrow%list_elem_of_In.
  apply elem_of_replicate in Hrow as [-> _]. reflexivity.
Qed.

Lemma ShowImage_sends_every_pixel_witness :
  map (@length Z) (spi_payload (snd (ShowImage pil_rotate small_image small_machine)))
  = ([1; 1; 1; 1; 1; 1; 1; 1; 1; 1; 1; 4096; 512]%nat)
  /\ Z.of_nat (length (flatten_pix (rows small_image))) = 4608.
Proof.
  destruct (ShowImage_sends_every_pixel pil_rotate small_image small_machine
              eq_refl small_image_shape) as (Hrun & _ & Hlen & _).
  split; [rewrite Hrun; vm_compute; reflexivity | exact Hlen].
Defined.

Lemma ShowImage_rejects_size rotate image m :
  size image <> (width (display m), height (display m)) ->
  ShowImage rotate image m = (Exc ValueError, m).
Proof.
  intros Hsize. unfold ShowImage, mbind, M_bind, bind, self.
  destruct (size image) as [imwidth imheight].
  destruct (decide (imwidth = width (display m))) as [Hw|Hw].
  - rewrite (bool_decide_false (imwidth <> _)) by (intros Hne; by apply Hne).
    rewrite bool_decide_true; [reflexivity|]. congruence.
  - by rewrite bool_decide_true.
Qed.

Lemma send_frame_rejects_shape image m :
  ~ shape_ok (display m) image -> send_frame image m = (Exc ValueError, m).
Proof.
  intros Hshape. unfold send_frame.
  unfold mbind at 1, M_bind at 1, bind at 1, self. cbv beta iota zeta.
  by rewrite shape_test_fails.
Qed.

(** X10. [ShowImage] of an image whose size is not the panel's raises
    [ValueError] before anything is sent: the bus, the driver object and
    the configuration are as they were. The same holds when the image
    array has not the shape of the buffer it is converted into. *)
Theorem ShowImage_wrong_size_sends_nothing
    (rotate : Z -> Image -> Image) (image : Image) (m : machine) :
  (size image <> (width (display m), height (display m)) ->
   ShowImage rotate image m = (Exc ValueError, m))
  /\ (~ shape_ok (display m) image -> send_frame image m = (Exc ValueError, m)).
Proof.
  split; [apply ShowImage_rejects_size | apply send_frame_rejects_shape].
Qed.

Lemma ShowImage_wrong_size_sends_nothing_witness :
  ShowImage pil_rotate (mkImage (240, 240) []) small_machine = (Exc ValueError, small_machine).
Proof.
  destruct (ShowImage_wrong_size_sends_nothing pil_rotate (mkImage (240, 240) [])
              small_machine) as [Hsize _].
  apply Hsize. discriminate.
Defined.

(** X11. [clear] addresses the whole panel and sends
    [2 * width * height] bytes, every one of them 0xff, in slices of at
    most 4096 bytes; it changes neither the driver object nor the
    configuration. *)
Theorem clear_sends_white (m : machine) :
  let d := display m in
  let buffer := replicate (Z.to_nat (width d * height d * 2)) 0xff in
  clear m
  = (Ok tt,
     mkMachine d (config m)
       (trace m
        ++ window_ops 0 0 (width d) (height d)
        ++ [DigitalWrite GPIO_DC_PIN true]
        ++ map SpiWriteBytes (chunks buffer)))
  /\ concat (chunks buffer) = buffer
  /\ Forall (fun c => (length c <= 4096)%nat /\ Forall (fun b => b = 0xff) c) (chunks buffer).
Proof.
  intros d buffer. split; [|split].
  - unfold clear. unfold mbind at 1, M_bind at 1, bind at 1, self. cbv beta iota zeta.
    apply emits_seq; [apply SetWindows_emits|].
    apply (emits_seq _ _ [_]); [apply emits_digital_write | apply send_chunks_emits].
  - apply concat_chunks.
  - apply List.Forall_forall. intros c Hc%list_elem_of_In.
    apply list_elem_of_lookup in Hc as [k Hk].
    pose proof (chunk_lengths _ _ _ Hk) as [_ Hlen].
    split; [lia|].
    rewrite (chunk_slice _ _ _ Hk).
    apply List.Forall_forall. intros b Hb%list_elem_of_In.
    apply elem_of_take in Hb as (j & Hj & _). rewrite lookup_drop in Hj.
    apply list_elem_of_lookup_2 in Hj. by apply elem_of_replicate_inv in Hj.
Qed.

Example clear_small_panel :
  map (@length Z) (spi_payload (snd (clear small_machine)))
  = [1; 1; 1; 1; 1; 1; 1; 1; 1; 1; 1; 4096; 512]%nat.
Proof. vm_compute. reflexivity. Qed.

(** X12. A rotation that is none of 0, 90, 180, 270 (the constructor
    accepts any) is treated as 0: [Init] writes 0x70 to the memory access
    control register and [ShowImage] transmits the frame as it is. *)
Theorem unknown_rotation_is_treated_as_0
    (rotate : Z -> Image -> Image) (image : Image) (m : machine) :
  let r := rotation (display m) in
  r <> 0 -> r <> 90 -> r <> 180 -> r <> 270 ->
  Init m
  = (Ok tt,
     after m ([SpiSetup] ++ reset_ops ++ command_ops 0x36 ++ data_ops 0x70 ++ Init_tail r))
  /\ (size image = (width (display m), height (display m)) ->
      ShowImage rotate image m = send_frame image m).
Proof.
  intros r H0 H90 H180 H270. split.
  - rewrite Init_trace. fold r.
    assert (Hnone : rotation_values !! r = None).
    { unfold rotation_values. cbn [list_to_map foldr fst snd uncurry].
      by rewrite !lookup_insert_ne, lookup_empty by done. }
    by rewrite Hnone.
  - intros Hsize. rewrite ShowImage_prerotation by done. fold r.
    by rewrite !bool_decide_false by done.
Qed.

Lemma unknown_rotation_is_treated_as_0_witness :
  nth_error (spi_payload (snd (Init (tiny_machine 45)))) 1 = Some [0x70]
  /\ ShowImage pil_rotate tiny_image (tiny_machine 45)
     = send_frame tiny_image (tiny_machine 45).
Proof.
  assert (H0 : rotation (display (tiny_machine 45)) <> 0) by discriminate.
  assert (H90 : rotation (display (tiny_machine 45)) <> 90) by discriminate.
  assert (H180 : rotation (display (tiny_machine 45)) <> 180) by discriminate.
  assert (H270 : rotation (display (tiny_machine 45)) <> 270) by discriminate.
  destruct (unknown_rotation_is_treated_as_0 pil_rotate tiny_image (tiny_machine 45)
              H0 H90 H180 H270) as [Hinit Hshow].
  split; [rewrite Hinit; reflexivity | by apply Hshow].
Defined.

(** The byte [Init] writes for a rotation of the table. *)
Definition madctl (r : Z) : Z := default 0x70 (rotation_values !! r).

Lemma set_rotation_run (r : Z) (m : machine) :
  r ∈ [0; 90; 180; 270] ->
  set_rotation r m
  = (Ok true,
     mkMachine (with_rotation (display m) r)
       (snd (fst (Config.set (config m) "display" "rotation" (VInt r))))
       (trace m
        ++ map (fun e => Log (fst e) (snd e))
               (snd (Config.set (config m) "display" "rotation" (VInt r)))
        ++ [SpiSetup] ++ reset_ops ++ command_ops 0x36 ++ data_ops (madctl r)
        ++ Init_tail r)).
Proof.
  intros Hin. unfold set_rotation. rewrite bool_decide_true by done.
  unfold mbind, M_bind, bind, self, set_self, config_set, ret.
  cbn [display config trace].
  destruct (Config.set (config m) "display" "rotation" (VInt r)) as [[ok c'] lg].
  cbn [fst snd].
  rewrite Init_trace. unfold after. cbn [display config trace rotation with_rotation].
  unfold madctl. by rewrite <- !app_assoc.
Qed.

(** X13. An argument among 0, 90, 180, 270 makes [set_rotation] return
    [True], also when the configuration file cannot be written: the
    rotation is stored in the driver object and in the configuration in
    memory, the configuration is saved (or the failure logged), and [Init]
    runs once with the register byte of the new rotation
    (0x70, 0x10, 0xC0, 0xA0). *)
Theorem set_rotation_applies (r : Z) (m : machine) :
  r ∈ [0; 90; 180; 270] ->
  let saved := Config.set (config m) "display" "rotation" (VInt r) in
  set_rotation r m
  = (Ok true,
     mkMachine (with_rotation (display m) r) (snd (fst saved))
       (trace m
        ++ map (fun e => Log (fst e) (snd e)) (snd saved)
        ++ [SpiSetup] ++ reset_ops ++ command_ops 0x36 ++ data_ops (madctl r)
        ++ Init_tail r))
  /\ Config.get (snd (fst saved)) "display" "rotation" = Some (VInt r)
  /\ madctl r ∈ [0x70; 0x10; 0xC0; 0xA0]
  /\ (r = 0 -> madctl r = 0x70) /\ (r = 90 -> madctl r = 0x10)
  /\ (r = 180 -> madctl r = 0xC0) /\ (r = 270 -> madctl r = 0xA0).
Proof.
  intros Hin saved. split; [|split].
  - by apply set_rotation_run.
  - apply ConfigFacts.get_after_set.
  - rewrite !elem_of_cons, elem_of_nil in Hin.
    destruct Hin as [->|[->|[->|[->|[]]]]]; (split; [vm_compute|]);
      repeat split; try (intros [=]); try reflexivity.
    + left.
    + right; left.
    + right; right; left.
    + right; right; right; left.
Qed.

Lemma set_rotation_applies_witness :
  let r := set_rotation 270 (tiny_machine 0) in
  fst r = Ok true
  /\ rotation (display (snd r)) = 270
  /\ nth_error (spi_payload (snd r)) 1 = Some [0xA0].
Proof.
  assert (Hin : 270 ∈ [0; 90; 180; 270]).
  { apply (bool_decide_unpack _). vm_compute. exact I. }
  destruct (set_rotation_applies 270 (tiny_machine 0) Hin) as (Hrun & _).
  cbv zeta. rewrite Hrun. vm_compute. repeat split; reflexivity.
Defined.

Definition mask_pixel (p : pixel) : pixel :=
  let '(r, g, b) := p in (Z.land r 0xF8, Z.land g 0xFC, Z.land b 0xF8).

Lemma all_below_2 n1 n2 (P : Z -> Z -> bool) x y :
  all_below n1 (fun x => all_below n2 (P x)) = true ->
  0 <= x < Z.of_nat n1 -> 0 <= y < Z.of_nat n2 -> P x y = true.
Proof.
  intros Hall Hx Hy.
  pose proof (all_below_spec n1 _ x Hall Hx) as H1. cbv beta in H1.
  exact (all_below_spec n2 _ y H1 Hy).
Qed.

(** X14. For every pixel with [uint8] channels the two bytes computed by
    [ShowImage] are bytes again (the [uint8] sums never wrap), and they
    hold exactly the upper 5 bits of red, 6 of green and 5 of blue: read
    back as 5/6/5 bits they give the pixel with the low 3, 2 and 3 bits
    of its channels cleared. *)
Theorem pack565_keeps_upper_bits (r g b : Z) :
  is_uint8 r -> is_uint8 g -> is_uint8 b ->
  is_uint8 (fst (pack565 (r, g, b)))
  /\ is_uint8 (snd (pack565 (r, g, b)))
  /\ spec_unpack565 (pack565 (r, g, b)) = mask_pixel (r, g, b)
  /\ pack565 (mask_pixel (r, g, b)) = pack565 (r, g, b).
Proof.
  intros Hr Hg Hb. unfold is_uint8 in *.
  assert (Hhi : 0 <= fst (pack565 (r, g, b)) < 256 /\ 0 <= snd (pack565 (r, g, b)) < 256).
  { unfold pack565, np_add, uint8. cbn [fst snd]. split; apply Z.mod_pos_bound; lia. }
  assert (Hred : Z.land (fst (pack565 (r, g, b))) 0xF8 = Z.land r 0xF8).
  { unfold pack565. cbn [fst]. apply Z.eqb_eq.
    apply (all_below_2 256 256 (fun r g =>
             Z.land (np_add (np_bitwise_and r 0xF8) (np_right_shift g 5)) 0xF8
             =? Z.land r 0xF8)); [vm_compute; reflexivity|lia|lia]. }
  assert (Hg_hi : Z.shiftl (Z.land (fst (pack565 (r, g, b))) 0x07) 5
                  = Z.land g 0xE0).
  { unfold pack565. cbn [fst]. apply Z.eqb_eq.
    apply (all_below_2 256 256 (fun r g =>
             Z.shiftl (Z.land (np_add (np_bitwise_and r 0xF8) (np_right_shift g 5)) 0x07) 5
             =? Z.land g 0xE0)); [vm_compute; reflexivity|lia|lia]. }
  assert (Hg_lo : Z.shiftr (Z.land (snd (pack565 (r, g, b))) 0xE0) 3
                  = Z.land g 0x1C).
  { unfold pack565. cbn [snd]. apply Z.eqb_eq.
    apply (all_below_2 256 256 (fun g b =>
             Z.shiftr (Z.land (np_add (np_bitwise_and (np_left_shift g 3) 0xE0)
                                      (np_right_shift b 3)) 0xE0) 3
             =? Z.land g 0x1C)); [vm_compute; reflexivity|lia|lia]. }
  assert (Hblue : Z.shiftl (Z.land (snd (pack565 (r, g, b))) 0x1F) 3 = Z.land b 0xF8).
  { unfold pack565. cbn [snd]. apply Z.eqb_eq.
    apply (all_below_2 256 256 (fun g b =>
             Z.shiftl (Z.land (np_add (np_bitwise_and (np_left_shift g 3) 0xE0)
                                      (np_right_shift b 3)) 0x1F) 3
             =? Z.land b 0xF8)); [vm_compute; reflexivity|lia|lia]. }
  assert (Hgreen : Z.lor (Z.land g 0xE0) (Z.land g 0x1C) = Z.land g 0xFC).
  { apply Z.eqb_eq.
    apply (all_below_spec 256 (fun g => Z.lor (Z.land g 0xE0) (Z.land g 0x1C)
                                        =? Z.land g 0xFC)); [vm_compute; reflexivity|lia]. }
  split; [apply Hhi|]. split; [apply Hhi|]. split.
  - unfold spec_unpack565, mask_pixel.
    rewrite (surjective_pairing (pack565 (r, g, b))).
    by rewrite Hred, Hg_hi, Hg_lo, Hblue, Hgreen.
  - unfold mask_pixel.
    assert (Hsame_hi : fst (pack565 (Z.land r 0xF8, Z.land g 0xFC, Z.land b 0xF8))
                       = fst (pack565 (r, g, b))).
    { unfold pack565. cbn [fst]. apply Z.eqb_eq.
      apply (all_below_2 256 256 (fun r g =>
               np_add (np_bitwise_and (Z.land r 0xF8) 0xF8) (np_right_shift (Z.land g 0xFC) 5)
               =? np_add (np_bitwise_and r 0xF8) (np_right_shift g 5)));
        [vm_compute; reflexivity|lia|lia]. }
    assert (Hsame_lo : snd (pack565 (Z.land r 0xF8, Z.land g 0xFC, Z.land b 0xF8))
                       = snd (pack565 (r, g, b))).
    { unfold pack565. cbn [snd]. apply Z.eqb_eq.
      apply (all_below_2 256 256 (fun g b =>
               np_add (np_bitwise_and (np_left_shift (Z.land g 0xFC) 3) 0xE0)
                      (np_right_shift (Z.land b 0xF8) 3)
               =? np_add (np_bitwise_and (np_left_shift g 3) 0xE0) (np_right_shift b 3)));
        [vm_compute; reflexivity|lia|lia]. }
    rewrite (surjective_pairing (pack565 (r, g, b))),
            (surjective_pairing (pack565 (_, _, _))).
    by rewrite Hsame_hi, Hsame_lo.
Qed.

Lemma pack565_keeps_upper_bits_witness :
  pack565 (255, 255, 255) = (255, 255)
  /\ spec_unpack565 (pack565 (0x12, 0xAB, 0xFE)) = (0x10, 0xA8, 0xF8).
Proof.
  assert (H255 : is_uint8 255) by (unfold is_uint8; lia).
  assert (H12 : is_uint8 0x12) by (unfold is_uint8; lia).
  assert (HAB : is_uint8 0xAB) by (unfold is_uint8; lia).
  assert (HFE : is_uint8 0xFE) by (unfold is_uint8; lia).
  destruct (pack565_keeps_upper_bits 0x12 0xAB 0xFE H12 HAB HFE) as (_ & _ & Hback & _).
  split; [reflexivity | rewrite Hback; reflexivity].
Defined.

End DisplayFacts.

(** ** hardware_interface.py: buttons and backlight *)

Module ButtonFacts.

Import Hardware.

Local Open Scope Z_scope.

#[local] Existing Instance Hardware.M_ret.
#[local] Existing Instance Hardware.M_bind.

(** What a poll sampled for [key]. *)
Definition sampled (pins : Pins) (key : string) : option bool :=
  (list_to_map (new_states pins) : gmap string bool) !! key.

Lemma ST7789_init_keys_present rotation : keys_present (ST7789_init rotation).
Proof.
  intros key Hkey. unfold BUTTONS in Hkey.
  repeat (apply elem_of_cons in Hkey as [->|Hkey];
          [vm_compute; repeat split; eexists; reflexivity|]).
  by apply elem_of_nil in Hkey.
Qed.

Lemma register_button_callback_run button f m :
  register_button_callback button f m
  = match button_callbacks (display m) !! button with
    | Some _ =>
        (Ok true,
         mkMachine (with_button_callbacks (display m)
                      (<[button := f]> (button_callbacks (display m))))
                   (config m) (trace m))
    | None => (Ok false, m)
    end.
Proof.
  unfold register_button_callback, mbind, M_bind, bind, self, set_self, ret.
  by destruct (button_callbacks (display m) !! button).
Qed.

Lemma register_keeps_keys button f m :
  keys_present (display m) ->
  keys_present (display (snd (register_button_callback button f m))).
Proof.
  intros Hwf. rewrite register_button_callback_run.
  destruct (button_callbacks (display m) !! button) eqn:Hb; [|done].
  intros key Hkey. destruct (Hwf key Hkey) as (Hs & Hl & Hc).
  cbn [snd display button_states last_button_press_time button_callbacks
       with_button_callbacks].
  split; [done|]. split; [done|].
  destruct (decide (button = key)) as [->|Hne];
    [rewrite lookup_insert_eq | rewrite lookup_insert_ne by done]; done.
Qed.

Section Outcomes.

Variable cb_raises : callback -> bool.

(** How a loop body or a loop may end, and what it leaves alone. *)
Definition ends_well (m : machine) (r : result unit) (m' : machine) : Prop :=
  (r = Ok tt \/ exists cb, r = Exc (CallbackRaised cb) /\ cb_raises cb = true)
  /\ keys_present (display m')
  /\ button_states (display m') = button_states (display m)
  /\ button_callbacks (display m') = button_callbacks (display m)
  /\ button_debounce_ms (display m') = button_debounce_ms (display m)
  /\ rotation (display m') = rotation (display m)
  /\ config m' = config m.

Lemma ends_well_refl m : keys_present (display m) -> ends_well m (Ok tt) m.
Proof. intros Hwf. split; [by left|]. split; [exact Hwf|]. by repeat split. Qed.

Lemma check_press_ends_well now key state m :
  key ∈ BUTTONS -> keys_present (display m) ->
  ends_well m (fst (check_press cb_raises now key state m))
            (snd (check_press cb_raises now key state m)).
Proof.
  intros Hkey Hwf. destruct (Hwf key Hkey) as ([old Hold] & [lt Hlt] & [ocb Hcb]).
  assert (Hsame : ends_well m (Ok tt) m) by (by apply ends_well_refl).
  destruct m as [d c t]. cbn [display config trace] in *.
  unfold check_press. destruct state; [|exact Hsame].
  unfold mbind, M_bind, bind, self, getitem, ret. cbn [display].
  rewrite Hold. destruct old; cbn [negb]; [exact Hsame|].
  rewrite Hlt.
  destruct (bool_decide (now - lt > button_debounce_ms d)); [|exact Hsame].
  unfold set_self. cbn [display config trace button_callbacks with_last_button_press_time].
  rewrite Hcb.
  assert (Hwf' : keys_present (with_last_button_press_time d
                                 (<[key := now]> (last_button_press_time d)))).
  { intros k Hk. destruct (Hwf k Hk) as (Hs & Hl & Hc).
    cbn [button_states last_button_press_time button_callbacks with_last_button_press_time].
    split; [done|]. split; [|done].
    destruct (decide (key = k)) as [->|Hne];
      [rewrite lookup_insert_eq | rewrite lookup_insert_ne by done]; done. }
  destruct ocb as [cb|].
  - unfold call_button_callback, mbind, M_bind, bind, emit, raise, ret.
    cbn [display config trace].
    destruct (cb_raises cb) eqn:Hraise; cbn [fst snd].
    + split; [right; by exists cb|]. split; [exact Hwf'|]. by repeat split.
    + split; [by left|]. split; [exact Hwf'|]. by repeat split.
  - cbn [fst snd]. split; [by left|]. split; [exact Hwf'|]. by repeat split.
Qed.

Lemma ends_well_trans m1 m2 m3 r :
  ends_well m1 (Ok tt) m2 -> ends_well m2 r m3 -> ends_well m1 r m3.
Proof.
  intros (_ & _ & Hs1 & Hc1 & Hd1 & Hr1 & Hg1) (Hr & Hwf & Hs2 & Hc2 & Hd2 & Hr2 & Hg2).
  split; [exact Hr|]. split; [exact Hwf|]. repeat split; congruence.
Qed.

Lemma for_items_ends_well now items : forall m,
  (forall key, key ∈ items.*1 -> key ∈ BUTTONS) -> keys_present (display m) ->
  ends_well m (fst (for_items items (check_press cb_raises now) m))
            (snd (for_items items (check_press cb_raises now) m)).
Proof.
  induction items as [|[key state] rest IH]; intros m Hkeys Hwf.
  - by apply ends_well_refl.
  - cbn [for_items]. unfold mbind, M_bind, bind.
    pose proof (check_press_ends_well now key state m
                  (Hkeys key ltac:(left)) Hwf) as Hstep.
    destruct (check_press cb_raises now key state m) as [[[]|e] m1]; cbn [fst snd] in *.
    + eapply ends_well_trans; [exact Hstep|].
      apply IH; [|apply Hstep]. intros k Hk. apply Hkeys. by right.
    + exact Hstep.
Qed.

Lemma update_button_states_run pins now m :
  update_button_states cb_raises pins now m
  = match for_items (new_states pins) (check_press cb_raises now) m with
    | (Ok _, m1) =>
        (Ok (list_to_map (new_states pins)),
         mkMachine (with_button_states (display m1) (list_to_map (new_states pins)))
                   (config m1) (trace m1))
    | (Exc e, m1) => (Exc e, m1)
    end.
Proof.
  unfold update_button_states, mbind, M_bind, bind, self, set_self, ret.
  by destruct (for_items (new_states pins) (check_press cb_raises now) m) as [[[]|e] m1].
Qed.

End Outcomes.

(** X15. The dictionaries of the driver hold all eight button names when
    it is constructed, and [register_button_callback] and
    [update_button_states] keep it so; on such a driver a poll never fails
    with a [KeyError]: it returns the sampled states, which are then the
    stored states, or it ends with the exception of a callback that
    raised, and then the stored states are those from before the poll. *)
Theorem polls_never_miss_a_key
    (cb_raises : callback -> bool) (pins : Pins) (now : Z) (m : machine) :
  keys_present (display m) ->
  let r := update_button_states cb_raises pins now m in
  keys_present (display (snd r))
  /\ match fst r with
     | Ok states =>
         states = list_to_map (new_states pins)
         /\ button_states (display (snd r)) = states
     | Exc e =>
         (exists cb, e = CallbackRaised cb /\ cb_raises cb = true)
         /\ button_states (display (snd r)) = button_states (display m)
     end
  /\ (forall rotation, keys_present (ST7789_init rotation))
  /\ (forall button f,
        keys_present (display (snd (register_button_callback button f m)))).
Proof.
  intros Hwf r. unfold r. rewrite update_button_states_run.
  pose proof (for_items_ends_well cb_raises now (new_states pins) m
                (fun key Hin => Hin) Hwf) as Hloop.
  destruct (for_items (new_states pins) (check_press cb_raises now) m) as [[[]|e] m1];
    cbn [fst snd] in Hloop.
  - destruct Hloop as (_ & Hwf1 & _). cbn [fst snd display].
    split; [|split; [by split|split; [apply ST7789_init_keys_present|]]].
    + intros key Hkey. destruct (Hwf1 key Hkey) as (_ & Hl & Hc).
      cbn [button_states last_button_press_time button_callbacks with_button_states].
      split; [by apply sampled_is_Some|done].
    + intros button f. by apply register_keeps_keys.
  - destruct Hloop as ([[=]|Hraised] & Hwf1 & Hs & _). cbn [fst snd].
    destruct Hraised as (cb & [= ->] & Hraise).
    split; [exact Hwf1|]. split; [split; [by exists cb|exact Hs]|].
    split; [apply ST7789_init_keys_present|].
    intros button f. by apply register_keeps_keys.
Qed.

Definition constructed_machine : machine :=
  mkMachine (ST7789_init None) (Config.mkConfiguration Config.DEFAULT_CONFIG None true) [].

Lemma polls_never_miss_a_key_witness :
  let r := update_button_states never_raises up_pressed 5000 constructed_machine in
  keys_present (display (snd r))
  /\ match fst r with
     | Ok states => states !! "up"%string = Some true
     | Exc _ => False
     end.
Proof.
  destruct (polls_never_miss_a_key never_raises up_pressed 5000 constructed_machine
              (ST7789_init_keys_present None)) as (Hwf & Hres & _).
  split; [exact Hwf|].
  destruct (fst (update_button_states never_raises up_pressed 5000 constructed_machine))
    as [states|e].
  - destruct Hres as [-> _]. vm_compute. reflexivity.
  - destruct Hres as [(cb & _ & Hraise) _]. discriminate Hraise.
Defined.

Lemma for_items_no_press cb_raises now items : forall m,
  (forall key, (key, true) ∈ items -> button_states (display m) !! key = Some true) ->
  for_items items (check_press cb_raises now) m = (Ok tt, m).
Proof.
  induction items as [|[key state] rest IH]; intros m Hheld; [done|].
  cbn [for_items]. unfold mbind, M_bind, bind.
  assert (Hstep : check_press cb_raises now key state m = (Ok tt, m)).
  { unfold check_press. destruct state; [|done].
    unfold mbind, M_bind, bind, self, getitem, ret.
    by rewrite (Hheld key ltac:(left)). }
  rewrite Hstep. apply IH. intros k Hk. apply Hheld. by right.
Qed.

(** X16. A poll in which no channel goes from released to pressed (every
    channel sampled as pressed was already stored as pressed: buttons
    held, released, or idle) calls no callback and touches no time stamp,
    whatever the time: a held button does not repeat, and a release is
    never reported to a callback. The stored states become the sampled
    ones. *)
Theorem poll_without_new_press_calls_nothing
    (cb_raises : callback -> bool) (pins : Pins) (now : Z) (m : machine) :
  (forall key, sampled pins key = Some true ->
               button_states (display m) !! key = Some true) ->
  update_button_states cb_raises pins now m
  = (Ok (list_to_map (new_states pins)),
     mkMachine (with_button_states (display m) (list_to_map (new_states pins)))
               (config m) (trace m)).
Proof.
  intros Hheld. rewrite update_button_states_run.
  rewrite for_items_no_press; [done|].
  intros key Hin. apply Hheld. unfold sampled.
  apply elem_of_list_to_map_1; [|done].
  rewrite new_states_keys. apply BUTTONS_NoDup.
Qed.

Lemma poll_without_new_press_calls_nothing_witness :
  let r := update_button_states (fun _ => true) all_released 99999 sampler_machine in
  trace (snd r) = []
  /\ last_button_press_time (display (snd r)) !! "up"%string = Some 1000.
Proof.
  cbv zeta. rewrite poll_without_new_press_calls_nothing.
  - split; vm_compute; reflexivity.
  - intros key Hkey. unfold sampled in Hkey.
    assert (Hin : key ∈ BUTTONS) by (by eapply sampled_in_BUTTONS).
    unfold BUTTONS in Hin.
    repeat (apply elem_of_cons in Hin as [->|Hin]; [vm_compute in Hkey; discriminate Hkey|]).
    by apply elem_of_nil in Hin.
Defined.

(** The callback table holds the eight button names and no other. *)
Definition only_buttons (d : ST7789) : Prop :=
  forall key, is_Some (button_callbacks d !! key) -> key ∈ BUTTONS.

Lemma ST7789_init_only_buttons rotation : only_buttons (ST7789_init rotation).
Proof.
  intros key [f Hf]. unfold ST7789_init in Hf. cbn [button_callbacks] in Hf.
  apply elem_of_list_to_map_2, list_elem_of_fmap in Hf as (b & [= -> _] & Hb). exact Hb.
Qed.

(** X17. [register_button_callback] refuses a name that is not one of the
    eight buttons and changes nothing; for a button it stores the
    callback in place of the one registered before, and the next accepted
    press of that button calls it, once, and no other callback for that
    button. *)
Theorem registered_callback_is_called_on_press
    (cb_raises : callback -> bool) (pins : Pins) (now : Z) (m : machine)
    (key : string) (cb : callback) (last_time : Z) :
  keys_present (display m) -> only_buttons (display m) ->
  key ∈ BUTTONS ->
  quiet cb_raises (display m) -> cb_raises cb = false ->
  sampled pins key = Some true ->
  button_states (display m) !! key = Some false ->
  last_button_press_time (display m) !! key = Some last_time ->
  now - last_time > button_debounce_ms (display m) ->
  (forall button f, button ∉ BUTTONS ->
     register_button_callback button f m = (Ok false, m))
  /\ exists m1 m2 ops,
       register_button_callback key (Some cb) m = (Ok true, m1)
       /\ button_callbacks (display m1) !! key = Some (Some cb)
       /\ only_buttons (display m1)
       /\ trace m1 = trace m
       /\ update_button_states cb_raises pins now m1
          = (Ok (list_to_map (new_states pins)), m2)
       /\ trace m2 = trace m ++ ops
       /\ calls_for key ops = [cb].
Proof.
  intros Hwf Honly Hkey Hquiet Hcb Hs Hold Hlast Hgap. split.
  - intros button f Hno. rewrite register_button_callback_run.
    destruct (button_callbacks (display m) !! button) eqn:Hb; [|done].
    exfalso. apply Hno, Honly. by rewrite Hb.
  - destruct (Hwf key Hkey) as (_ & _ & [old_cb Hcbs]).
    pose proof (register_button_callback_run key (Some cb) m) as Hreg.
    rewrite Hcbs in Hreg.
    set (m1 := mkMachine (with_button_callbacks (display m)
                            (<[key := Some cb]> (button_callbacks (display m))))
                         (config m) (trace m)) in *.
    assert (Hwf1 : keys_present (display m1)).
    { pose proof (register_keeps_keys key (Some cb) m Hwf) as H1. by rewrite Hreg in H1. }
    assert (Hquiet1 : quiet cb_raises (display m1)).
    { intros k c. cbn [m1 display button_callbacks with_button_callbacks].
      destruct (decide (key = k)) as [->|Hne].
      - rewrite lookup_insert_eq. by intros [= <-].
      - rewrite lookup_insert_ne by done. apply Hquiet. }
    destruct (poll_key cb_raises pins now m1 key true false last_time
                Hwf1 Hquiet1 Hs Hold Hlast)
      as (m2 & Hrun & _ & _ & _ & _ & _ & _ & ops & Htr & Hcalls).
    exists m1, m2, ops. split; [exact Hreg|].
    split; [cbn [m1 display button_callbacks with_button_callbacks];
            by rewrite lookup_insert_eq|].
    split; [|split; [done|split; [exact Hrun|split; [exact Htr|]]]].
    + intros k. cbn [m1 display button_callbacks with_button_callbacks].
      destruct (decide (key = k)) as [->|Hne]; [done|].
      rewrite lookup_insert_ne by done. apply Honly.
    + rewrite Hcalls. cbn [m1 display button_debounce_ms with_button_callbacks andb negb].
      rewrite bool_decide_true by done.
      unfold registered. cbn [m1 display button_callbacks with_button_callbacks].
      by rewrite lookup_insert_eq.
Qed.

Lemma registered_callback_is_called_on_press_witness :
  register_button_callback "menu" (Some 4%nat) constructed_machine
  = (Ok false, constructed_machine)
  /\ exists m1 m2 ops,
       register_button_callback "key1" (Some 4%nat) constructed_machine = (Ok true, m1)
       /\ update_button_states never_raises
            (mkPins true true true true true false true true) 5000 m1
          = (Ok (list_to_map (new_states (mkPins true true true true true false true true))),
             m2)
       /\ trace m2 = ops
       /\ calls_for "key1" ops = [4%nat].
Proof.
  destruct (registered_callback_is_called_on_press never_raises
              (mkPins true true true true true false true true) 5000
              constructed_machine "key1" 4%nat 0)
    as (Hrefuse & m1 & m2 & ops & Hreg & _ & _ & _ & Hrun & Htr & Hcalls).
  - apply ST7789_init_keys_present.
  - apply ST7789_init_only_buttons.
  - apply (bool_decide_unpack _). vm_compute. exact I.
  - intros key cb' _. reflexivity.
  - reflexivity.
  - vm_compute. reflexivity.
  - vm_compute. reflexivity.
  - vm_compute. reflexivity.
  - vm_compute. reflexivity.
  - split.
    + apply Hrefuse. apply (bool_decide_unpack _). vm_compute. exact I.
    + exists m1, m2, ops. repeat split; assumption.
Defined.

End ButtonFacts.

(** ** hardware_interface.py: backlight *)

Module BacklightFacts.

Import Hardware.

Local Open Scope Z_scope.

#[local] Existing Instance Hardware.M_ret.
#[local] Existing Instance Hardware.M_bind.

(** [max(0, min(100, x))] *)
Definition clamp_0_100 (x : Z) : Z := Z.max 0 (Z.min 100 x).

(** [bl_DutyCycle(duty)]: the value it assigns to [GPIO_BL_PIN.value]. *)
Definition bl_DutyCycle (duty : Z) : Qc :=
  let duty := clamp_0_100 duty in
  Q2Qc (duty # 100).

(** [ST7789.set_brightness(brightness)]: the result is the value returned
    together with the level written to the backlight pin. *)
Definition set_brightness (brightness : Z) : M (Z * Qc) :=
  let brightness := clamp_0_100 brightness in
  let level := bl_DutyCycle brightness in
  config_set "display" "brightness" (VInt brightness) ;;
  ret (brightness, level).

Lemma clamp_0_100_range x : 0 <= clamp_0_100 x <= 100.
Proof. unfold clamp_0_100. lia. Qed.

Lemma clamp_0_100_idempotent x : clamp_0_100 (clamp_0_100 x) = clamp_0_100 x.
Proof. unfold clamp_0_100. lia. Qed.

Lemma level_range (c : Z) :
  0 <= c <= 100 -> (0 <= Q2Qc (c # 100) /\ Q2Qc (c # 100) <= 1)%Qc.
Proof.
  intros Hc. unfold Qcle, Q2Qc. cbn [this]. rewrite !Qred_correct.
  unfold Qle. cbn [Qnum Qden]. lia.
Qed.

(** X18. [set_brightness] clamps its argument to 0..100: it returns the
    clamped value (the argument itself when that is within 0..100), drives
    the backlight with that value over 100, a level between 0 and 1, and
    stores the clamped value, never the raw argument, in the
    configuration; the driver object and the bus are not touched. *)
Theorem set_brightness_clamps (brightness : Z) (m : machine) :
  let saved := Config.set (config m) "display" "brightness"
                          (VInt (clamp_0_100 brightness)) in
  let level := Q2Qc (clamp_0_100 brightness # 100) in
  set_brightness brightness m
  = (Ok (clamp_0_100 brightness, level),
     mkMachine (display m) (snd (fst saved))
               (trace m ++ map (fun e => Log (fst e) (snd e)) (snd saved)))
  /\ 0 <= clamp_0_100 brightness <= 100
  /\ (0 <= brightness <= 100 -> clamp_0_100 brightness = brightness)
  /\ (brightness < 0 -> clamp_0_100 brightness = 0)
  /\ (100 < brightness -> clamp_0_100 brightness = 100)
  /\ (0 <= level /\ level <= 1)%Qc
  /\ Config.get (snd (fst saved)) "display" "brightness"
     = Some (VInt (clamp_0_100 brightness)).
Proof.
  intros saved level. split; [|split; [|split; [|split; [|split; [|split]]]]].
  - unfold set_brightness, bl_DutyCycle, mbind, M_bind, bind, config_set, ret.
    cbv zeta. fold saved. rewrite clamp_0_100_idempotent.
    by destruct saved as [[ok c'] lg].
  - apply clamp_0_100_range.
  - unfold clamp_0_100. lia.
  - unfold clamp_0_100. lia.
  - unfold clamp_0_100. lia.
  - apply level_range, clamp_0_100_range.
  - apply ConfigFacts.get_after_set.
Qed.

End BacklightFacts.

(** ** hardware_interface.py: battery readings *)

Module BatteryFacts.

Import Hardware Battery.

Local Open Scope Z_scope.

Lemma shifted_byte_disjoint (high_byte low_byte : Z) :
  0 <= low_byte < 256 -> Z.land (Z.shiftl high_byte 8) low_byte = 0.
Proof.
  intros Hlow. apply Z.bits_inj'. intros n Hn.
  rewrite Z.land_spec, Z.bits_0.
  destruct (Z.lt_ge_cases n 8) as [Hlt|Hge].
  - by rewrite Z.shiftl_spec_low.
  - destruct (decide (low_byte = 0)) as [->|Hnz].
    + rewrite Z.bits_0. apply andb_false_r.
    + rewrite (Z.bits_above_log2 low_byte n); [apply andb_false_r|lia|].
      apply Z.log2_lt_pow2; [lia|].
      apply Z.lt_le_trans with (2 ^ 8); [lia|].
      apply Z.pow_le_mono_r; lia.
Qed.

Lemma voltage_is_sum (high_byte low_byte : Z) :
  0 <= low_byte < 256 ->
  Z.lor (Z.shiftl high_byte 8) low_byte = high_byte * 256 + low_byte.
Proof.
  intros Hlow.
  rewrite <- Z.lxor_lor by (by apply shifted_byte_disjoint).
  rewrite <- Z.add_nocarry_lxor by (by apply shifted_byte_disjoint).
  rewrite Z.shiftl_mul_pow2 by lia. reflexivity.
Qed.

(** X19. When the sensor answers registers 0x22 and 0x23 with bytes,
    [get_battery_voltage] returns [256 * high + low]: a value from 0 to
    65535 from which both bytes can be read back, so different register
    contents give different voltages. Nothing is logged. *)
Theorem voltage_combines_both_bytes
    (bus : Z -> Z -> option Z) (bm : BatteryManager) (high_byte low_byte : Z) :
  initialized bm = true ->
  bus (i2c_address bm) 0x22 = Some high_byte ->
  bus (i2c_address bm) 0x23 = Some low_byte ->
  0 <= high_byte < 256 -> 0 <= low_byte < 256 ->
  exists voltage_mv,
    get_battery_voltage bus bm = (Some voltage_mv, [])
    /\ voltage_mv = 256 * high_byte + low_byte
    /\ 0 <= voltage_mv <= 65535
    /\ voltage_mv / 256 = high_byte
    /\ voltage_mv mod 256 = low_byte.
Proof.
  intros Hinit Hhigh Hlow Hh Hl.
  exists (Z.lor (Z.shiftl high_byte 8) low_byte).
  split.
  - unfold get_battery_voltage. by rewrite Hinit, Hhigh, Hlow.
  - rewrite voltage_is_sum by done.
    split; [lia|]. split; [lia|]. split.
    + rewrite Z.div_add_l by lia. rewrite Z.div_small by lia. lia.
    + rewrite Z.add_comm, Z.mod_add by lia. by apply Z.mod_small.
Qed.

Lemma voltage_combines_both_bytes_witness :
  exists voltage_mv,
    get_battery_voltage (fun _ reg => if reg =? 0x22 then Some 0x0f else Some 0xa0)
                        default_manager
    = (Some voltage_mv, [])
    /\ voltage_mv = 256 * 0x0f + 0xa0
    /\ 0 <= voltage_mv <= 65535
    /\ voltage_mv / 256 = 0x0f
    /\ voltage_mv mod 256 = 0xa0.
Proof.
  apply (voltage_combines_both_bytes
           (fun _ reg => if reg =? 0x22 then Some 0x0f else Some 0xa0)
           default_manager 0x0f 0xa0); (reflexivity || lia).
Defined.

(** The operations that are a run of the shutdown command. *)
Definition runs_shutdown (op : hw_op) : bool :=
  match op with
  | SubprocessRun argv => bool_decide (argv = shutdown_command)
  | _ => false
  end.

Lemma trigger_runs_command cfg spawn_ok ops :
  _trigger_auto_shutdown cfg spawn_ok = Some ops ->
  (SubprocessRun shutdown_command ∈ ops
   <-> py_gt_0 (Config.get cfg "battery" "auto_shutdown") = Some true).
Proof.
  unfold _trigger_auto_shutdown.
  destruct (py_gt_0 (Config.get cfg "battery" "auto_shutdown")) as [[|]|]; [| |done].
  - intros [= <-]. split; [done|]. intros _. right. left.
  - intros [= <-]. split; [by intros Hin%elem_of_nil|done].
Qed.

Lemma no_command_in_error done :
  SubprocessRun shutdown_command ∉ done ->
  SubprocessRun shutdown_command ∉ snd (percentage_error done).
Proof.
  intros Hno. unfold percentage_error. cbn [snd].
  intros [Hin|Hin]%elem_of_app; [done|].
  apply list_elem_of_singleton in Hin. discriminate Hin.
Qed.

(** X20. [get_battery_percentage] runs the shutdown command exactly when
    the manager is initialised, register 0x2A was read, the percentage is
    at or below the threshold the manager took from the configuration
    when it was constructed, and the entry [battery.auto_shutdown] read
    from the configuration at that moment is above zero. The command is
    run at most once per reading, and the reading is then returned. *)
Theorem shutdown_command_runs_iff
    (bus : Z -> Z -> option Z) (cfg : Config.Configuration) (spawn_ok : bool)
    (bm : BatteryManager) :
  let r := get_battery_percentage bus cfg spawn_ok bm in
  (SubprocessRun shutdown_command ∈ snd r
   <-> initialized bm = true
       /\ exists percentage,
            bus (i2c_address bm) 0x2A = Some percentage
            /\ py_le percentage (auto_shutdown bm) = Some true
            /\ py_gt_0 (Config.get cfg "battery" "auto_shutdown") = Some true)
  /\ (SubprocessRun shutdown_command ∈ snd r ->
      fst r = bus (i2c_address bm) 0x2A
      /\ length (filter (fun op => runs_shutdown op = true) (snd r)) = 1%nat).
Proof.
  cbv zeta. unfold get_battery_percentage.
  destruct (initialized bm); cbn [negb];
    [|split; [split; [by intros Hin%elem_of_nil|by intros [[=] _]]
             |by intros Hin%elem_of_nil]].
  destruct (bus (i2c_address bm) 0x2A) as [p|];
    [|split; [split; [intros Hin; by apply no_command_in_error in Hin;
                        [|apply not_elem_of_nil]
                     |by intros (_ & p & [=] & _)]
             |intros Hin; by apply no_command_in_error in Hin;
                [|apply not_elem_of_nil]]].
  assert (Hnil : SubprocessRun shutdown_command ∉ snd (percentage_error [])).
  { apply no_command_in_error, not_elem_of_nil. }
  assert (Hlog : forall msg lv, SubprocessRun shutdown_command ∉ [Log lv msg]).
  { intros msg lv Hin. apply list_elem_of_singleton in Hin. discriminate Hin. }
  destruct (py_le p (auto_shutdown bm)) as [[|]|] eqn:Hle.
  - destruct (_trigger_auto_shutdown cfg spawn_ok) as [ops|] eqn:Htrig.
    + pose proof (trigger_runs_command cfg spawn_ok ops Htrig) as Hiff.
      cbn [fst snd]. split.
      * split.
        -- intros [Hin|Hin]%elem_of_app; [by apply Hlog in Hin|].
           split; [done|]. exists p. split; [done|]. split; [done|by apply Hiff].
        -- intros (_ & p' & [= <-] & _ & Hgt). apply elem_of_app. right. by apply Hiff.
      * intros [Hin|Hin]%elem_of_app; [by apply Hlog in Hin|].
        split; [done|]. apply Hiff in Hin.
        unfold _trigger_auto_shutdown in Htrig. rewrite Hin in Htrig.
        injection Htrig as <-. by destruct spawn_ok.
    + assert (Hgt : py_gt_0 (Config.get cfg "battery" "auto_shutdown") = None).
      { unfold _trigger_auto_shutdown in Htrig.
        by destruct (py_gt_0 (Config.get cfg "battery" "auto_shutdown")) as [[|]|]. }
      split; [split|].
      * intros Hin. apply no_command_in_error in Hin; [done|apply Hlog].
      * intros (_ & p' & _ & _ & Hgt'). congruence.
      * intros Hin. apply no_command_in_error in Hin; [done|apply Hlog].
  - assert (Hno : SubprocessRun shutdown_command
                  ∉ snd (match py_le p (critical_warning bm) with
                         | Some true => (Some p, [Log CRITICAL (MsgBatteryCritical p)])
                         | Some false =>
                             match py_le p (low_warning bm) with
                             | Some true => (Some p, [Log WARNING (MsgBatteryLow p)])
                             | Some false => (Some p, [])
                             | None => percentage_error []
                             end
                         | None => percentage_error []
                         end)).
    { destruct (py_le p (critical_warning bm)) as [[|]|]; [apply Hlog| |exact Hnil].
      destruct (py_le p (low_warning bm)) as [[|]|];
        [apply Hlog|apply not_elem_of_nil|exact Hnil]. }
    split; [split|]; [done| |done].
    intros (_ & p' & [= <-] & Hle' & _). congruence.
  - split; [split|]; [done| |done].
    intros (_ & p' & [= <-] & Hle' & _). congruence.
Qed.

(** A configuration file in which [battery.auto_shutdown] is [0]. *)
Definition no_shutdown_config : Config.Configuration :=
  snd (fst (Config.set default_config "battery" "auto_shutdown" (VInt 0))).

Lemma shutdown_command_runs_iff_witness :
  (SubprocessRun shutdown_command
   ∈ snd (get_battery_percentage (steady 3) default_config true default_manager))
  /\ (SubprocessRun shutdown_command
      ∉ snd (get_battery_percentage (steady 3) no_shutdown_config true default_manager))
  /\ (SubprocessRun shutdown_command
      ∉ snd (get_battery_percentage (steady 6) default_config true default_manager)).
Proof.
  split; [|split].
  - apply (shutdown_command_runs_iff (steady 3) default_config true default_manager).
    split; [reflexivity|]. exists 3. repeat split; vm_compute; reflexivity.
  - intros Hin.
    apply (shutdown_command_runs_iff (steady 3) no_shutdown_config true default_manager)
      in Hin as (_ & p & _ & _ & Hgt).
    vm_compute in Hgt. discriminate Hgt.
  - intros Hin.
    apply (shutdown_command_runs_iff (steady 6) default_config true default_manager)
      in Hin as (_ & p & [= <-] & Hle & _).
    vm_compute in Hle. discriminate Hle.
Defined.

(** X21. The manager falls back on 5 when the entry
    [battery.auto_shutdown] is missing or [None], but
    [_trigger_auto_shutdown] compares the entry itself with zero. With
    such a configuration a reading at or below 5 is logged as critical
    and then lost: the comparison raises, the shutdown command is not run
    and [get_battery_percentage] returns [None] although the sensor
    answered. *)
Theorem missing_shutdown_entry_loses_low_readings
    (bus : Z -> Z -> option Z) (cfg : Config.Configuration) (spawn_ok : bool)
    (percentage : Z) :
  let bm := BatteryManager_init true cfg PISUGAR_I2C_ADDR in
  or_default (Config.get cfg "battery" "auto_shutdown") VNone = VNone ->
  bus PISUGAR_I2C_ADDR 0x2A = Some percentage ->
  auto_shutdown bm = VInt 5
  /\ (percentage <= 5 ->
      get_battery_percentage bus cfg spawn_ok bm
      = (None, [Log CRITICAL (MsgBatteryShutdownLevel percentage);
                Log ERROR MsgPercentageReadError])).
Proof.
  intros bm Hmissing Hread.
  assert (Hentry : Config.get cfg "battery" "auto_shutdown" = None
                   \/ Config.get cfg "battery" "auto_shutdown" = Some VNone).
  { destruct (Config.get cfg "battery" "auto_shutdown") as [[]|];
      cbn in Hmissing; try discriminate Hmissing; auto. }
  assert (Hs : auto_shutdown bm = VInt 5).
  { unfold bm, BatteryManager_init. cbn [auto_shutdown].
    by destruct Hentry as [-> | ->]. }
  assert (Htrig : _trigger_auto_shutdown cfg spawn_ok = None).
  { unfold _trigger_auto_shutdown. by destruct Hentry as [-> | ->]. }
  split; [exact Hs|].
  intros Hlow. unfold get_battery_percentage.
  change (initialized bm) with true. change (i2c_address bm) with PISUGAR_I2C_ADDR.
  cbn [negb]. rewrite Hread, Hs. cbn [py_le].
  rewrite (proj2 (Z.leb_le percentage 5)) by done. by rewrite Htrig.
Qed.

(** The default configuration with [battery.auto_shutdown] set to
    [None] (a [null] in the file). *)
Definition null_shutdown_config : Config.Configuration :=
  snd (fst (Config.set default_config "battery" "auto_shutdown" VNone)).

Lemma missing_shutdown_entry_loses_low_readings_witness :
  get_battery_percentage (steady 4) null_shutdown_config true
    (BatteryManager_init true null_shutdown_config PISUGAR_I2C_ADDR)
  = (None, [Log CRITICAL (MsgBatteryShutdownLevel 4); Log ERROR MsgPercentageReadError]).
Proof.
  destruct (missing_shutdown_entry_loses_low_readings (steady 4) null_shutdown_config
              true 4) as (_ & Hlow).
  - vm_compute. reflexivity.
  - reflexivity.
  - apply Hlow. lia.
Defined.

End BatteryFacts.

(** ** hardware_abstraction.py *)

Module HardwareAbstraction.

Import Hardware.

Local Open Scope Z_scope.

(** [HardwareManager.button_mapping], in insertion order. *)
Definition button_mapping : list (string * string) :=
  [ ("up", "up"); ("down", "down"); ("left", "left"); ("right", "right");
    ("press", "press"); ("key1", "key1"); ("key2", "key2"); ("key3", "key3") ]%string.

(** The fields of [HardwareManager] the model follows; [display_present]
    is the truth value of [self.display]. *)
Record HardwareManager := mkHardwareManager {
  hw_initialized : bool;
  display_present : bool;
  button_states : gmap string bool
}.

Definition BUTTON_PRESS : string := "button_press".
Definition BUTTON_RELEASE : string := "button_release".

(** A call of [event_bus.publish_by_type]: the event type and the
    payload. *)
Definition publication : Type := string * gmap string value.

(** One pass of the loop over [button_mapping.items()] in [update]. The
    subscribers of the bus are taken not to touch the manager. *)
Definition convert (new_states : gmap string bool)
    (acc : gmap string bool * list publication) (item : string * string)
  : gmap string bool * list publication :=
  let '(states, published) := acc in
  let '(hw_name, app_name) := item in
  let new_state := default false (new_states !! hw_name) in
  let old_state := default false (states !! hw_name) in
  let published :=
    if new_state && negb old_state
    then published ++ [(BUTTON_PRESS, {[ "button"%string := VStr app_name ]})]
    else if negb new_state && old_state
    then published ++ [(BUTTON_RELEASE, {[ "button"%string := VStr app_name ]})]
    else published in
  (<[hw_name := new_state]> states, published).

Section Update.

Variable cb_raises : callback -> bool.

(** The button part of [HardwareManager.update] (the battery part comes
    after it in the same [try]): the manager afterwards, the events
    published, in order, and whether the [except] branch was taken. *)
Definition update (pins : Pins) (current_time : Z) (hm : HardwareManager) (m : machine)
  : HardwareManager * list publication * bool * machine :=
  if negb (hw_initialized hm) then (hm, [], false, m)
  else
    match update_button_states cb_raises pins current_time m with
    | (Ok new_states, m1) =>
        let '(states, published) :=
          foldl (convert new_states) (button_states hm, []) button_mapping in
        (mkHardwareManager (hw_initialized hm) (display_present hm) states,
         published, false, m1)
    | (Exc _, m1) => (hm, [], true, m1)
    end.

End Update.

Section Render.

Variable rotate : Z -> Image -> Image.


End Render.

(** The events of one button, from what was sampled and what the manager
    remembers. *)
Definition edge (new_states states : gmap string bool) (item : string * string)
  : list publication :=
  let new_state := default false (new_states !! fst item) in
  let old_state := default false (states !! fst item) in
  if new_state && negb old_state
  then [(BUTTON_PRESS, {[ "button"%string := VStr (snd item) ]})]
  else if negb new_state && old_state
  then [(BUTTON_RELEASE, {[ "button"%string := VStr (snd item) ]})]
  else [].

Definition remember (new_states : gmap string bool) (states : gmap string bool)
    (item : string * string) : gmap string bool :=
  <[fst item := default false (new_states !! fst item)]> states.

Lemma convert_edge new_states states published item :
  convert new_states (states, published) item
  = (remember new_states states item, published ++ edge new_states states item).
Proof.
  unfold convert, remember, edge. destruct item as [hw_name app_name]. cbn [fst snd].
  destruct (default false (new_states !! hw_name)),
           (default false (states !! hw_name)); cbn [andb negb];
    by rewrite ?app_nil_r.
Qed.

Lemma convert_fold new_states items : forall states published,
  NoDup items.*1 ->
  foldl (convert new_states) (states, published) items
  = (foldl (remember new_states) states items,
     published ++ flat_map (edge new_states states) items).
Proof.
  induction items as [|item rest IH]; intros states published Hnd.
  - cbn. by rewrite app_nil_r.
  - cbn [foldl flat_map]. rewrite convert_edge.
    rewrite fmap_cons in Hnd. apply list.NoDup_cons in Hnd as [Hnotin Hnd].
    rewrite IH by done. rewrite <- app_assoc. f_equal. f_equal. f_equal.
    apply flat_map_agree. intros other Hother. unfold edge, remember.
    rewrite lookup_insert_ne; [done|].
    intros Heq. apply Hnotin. rewrite Heq. apply list_elem_of_fmap. by exists other.
Qed.

Lemma remember_fold new_states items key : forall states,
  foldl (remember new_states) states items !! key
  = if decide (key ∈ items.*1) then Some (default false (new_states !! key))
    else states !! key.
Proof.
  induction items as [|item rest IH]; intros states.
  - cbn [foldl fmap list_fmap]. rewrite decide_False; [done|apply not_elem_of_nil].
  - cbn [foldl]. rewrite IH. rewrite fmap_cons.
    destruct (decide (key ∈ rest.*1)) as [Hin|Hnotin].
    + rewrite decide_True; [done|by right].
    + unfold remember. destruct (decide (key = fst item)) as [->|Hne].
      * rewrite lookup_insert_eq. rewrite decide_True; [done|left].
      * rewrite lookup_insert_ne by done. rewrite decide_False; [done|].
        intros [Heq|Hin]%elem_of_cons; done.
Qed.

Lemma button_mapping_keys : button_mapping.*1 = BUTTONS.
Proof. reflexivity. Qed.

(** The events of button [key] in one poll. *)
Definition transition (pins : Pins) (hm : HardwareManager) (key : string)
  : list publication :=
  edge (list_to_map (new_states pins)) (button_states hm) (key, key).

Lemma edges_of_mapping new_states states :
  flat_map (edge new_states states) button_mapping
  = flat_map (fun key => edge new_states states (key, key)) BUTTONS.
Proof. reflexivity. Qed.

Lemma update_run cb_raises pins now hm m :
  hw_initialized hm = true ->
  update cb_raises pins now hm m
  = match update_button_states cb_raises pins now m with
    | (Ok _, m1) =>
        (mkHardwareManager true (display_present hm)
           (foldl (remember (list_to_map (new_states pins))) (button_states hm)
                  button_mapping),
         flat_map (transition pins hm) BUTTONS, false, m1)
    | (Exc _, m1) => (hm, [], true, m1)
    end.
Proof.
  intros Hinit. unfold update. rewrite Hinit. cbn [negb].
  rewrite ButtonFacts.update_button_states_run.
  destruct (for_items (new_states pins) (check_press cb_raises now) m) as [[[]|e] m1];
    [|done].
  rewrite convert_fold by (rewrite button_mapping_keys; apply BUTTONS_NoDup).
  cbn [app]. by rewrite edges_of_mapping.
Qed.

Lemma press_of_key pins hm key :
  key ∈ BUTTONS ->
  ((BUTTON_PRESS, {[ "button"%string := VStr key ]}) ∈ flat_map (transition pins hm) BUTTONS
   <-> ButtonFacts.sampled pins key = Some true
       /\ default false (button_states hm !! key) = false).
Proof.
  intros Hkey. rewrite list_elem_of_In, in_flat_map. split.
  - intros (k & Hk & Hin). apply list_elem_of_In in Hin.
    unfold transition, edge in Hin. cbn [fst snd] in Hin.
    assert (Hsame : forall t : string,
              (BUTTON_PRESS, ({[ "button"%string := VStr key ]} : gmap string value))
              ∈ [(t, ({[ "button"%string := VStr k ]} : gmap string value))] ->
              t = BUTTON_PRESS /\ k = key).
    { intros t Ht%list_elem_of_singleton.
      pose proof (f_equal fst Ht) as Htype. pose proof (f_equal snd Ht) as Hmap.
      cbn [fst snd] in Htype, Hmap. split; [done|].
      apply (f_equal (fun mp : gmap string value => mp !! "button"%string)) in Hmap.
      rewrite !lookup_singleton_eq in Hmap. congruence. }
    unfold ButtonFacts.sampled.
    destruct (list_to_map (new_states pins) !! k) as [[|]|] eqn:Hs;
      cbn [from_option id andb negb] in Hin;
      destruct (default false (button_states hm !! k)) eqn:Ho;
      cbn [from_option id andb negb] in Hin;
      try (by apply elem_of_nil in Hin);
      apply Hsame in Hin as [Ht <-]; try discriminate Ht; done.
  - intros [Hs Ho]. exists key. split; [by apply list_elem_of_In|].
    apply list_elem_of_In. unfold transition, edge. cbn [fst snd].
    unfold ButtonFacts.sampled in Hs. rewrite Hs, Ho. cbn. left.
Qed.

(** X22. An initialised [HardwareManager] turns every poll the driver
    completes into events by comparing the sampled states with the states
    it remembers itself: in the order of the button mapping, a
    [button_press] for each button sampled as pressed and remembered as
    released, a [button_release] for the opposite, nothing otherwise; it
    then remembers the sampled states. The time of the poll and the
    debounce stamps of the driver play no part: a press the driver
    rejects as a bounce is still published. When a button callback of the
    driver raises, nothing is published and the manager remembers what it
    did before. *)
Theorem update_publishes_every_edge
    (cb_raises : callback -> bool) (pins : Pins) (now : Z)
    (hm : HardwareManager) (m : machine) :
  hw_initialized hm = true ->
  let r := update cb_raises pins now hm m in
  let hm' := fst (fst (fst r)) in
  let published := snd (fst (fst r)) in
  match fst (update_button_states cb_raises pins now m) with
  | Ok _ =>
      published = flat_map (transition pins hm) BUTTONS
      /\ (forall key, key ∈ BUTTONS ->
            ((BUTTON_PRESS, {[ "button"%string := VStr key ]}) ∈ published
             <-> ButtonFacts.sampled pins key = Some true
                 /\ default false (button_states hm !! key) = false))
      /\ (forall key, key ∈ BUTTONS ->
            button_states hm' !! key = ButtonFacts.sampled pins key)
      /\ (forall key, key ∉ BUTTONS -> button_states hm' !! key = button_states hm !! key)
      /\ snd (fst r) = false
  | Exc _ => published = [] /\ hm' = hm /\ snd (fst r) = true
  end.
Proof.
  intros Hinit r hm' published. unfold published, hm', r.
  rewrite update_run by done.
  destruct (update_button_states cb_raises pins now m) as [[states|e] m1]; cbn [fst snd];
    [|done].
  split; [done|]. split; [intros key Hkey; by apply press_of_key|].
  split; [|split; [|done]].
  - intros key Hkey. cbn [button_states]. rewrite remember_fold, button_mapping_keys.
    rewrite decide_True by done. unfold ButtonFacts.sampled.
    by destruct (sampled_is_Some pins key Hkey) as [state ->].
  - intros key Hkey. cbn [button_states]. rewrite remember_fold, button_mapping_keys.
    by rewrite decide_False.
Qed.

(** The manager as constructed: every button remembered as released. *)
Definition fresh_manager : HardwareManager :=
  mkHardwareManager true true (list_to_map ((fun name => (name, false)) <$> button_mapping.*1)).

(** ["up"] is pressed 50 ms after its last accepted press: the driver
    calls nothing, the manager publishes the press. *)
Lemma update_publishes_every_edge_witness :
  let r := update never_raises up_pressed 1050 fresh_manager sampler_machine in
  snd (fst (fst r)) = [(BUTTON_PRESS, {[ "button"%string := VStr "up" ]})]
  /\ trace (snd r) = [].
Proof.
  pose proof (update_publishes_every_edge never_raises up_pressed 1050 fresh_manager
                sampler_machine eq_refl) as H.
  cbv zeta in H.
  assert (Hrun : fst (update_button_states never_raises up_pressed 1050 sampler_machine)
                 = Ok (list_to_map (new_states up_pressed))) by (vm_compute; reflexivity).
  rewrite Hrun in H. destruct H as (Hpub & _).
  split; [rewrite Hpub; vm_compute; reflexivity|].
  vm_compute. reflexivity.
Defined.



End HardwareAbstraction.

(** ** state_manager.py and app.py: a change of screen *)

Module Navigation.

Import EventSystem.

(** The objects a change of screen runs through: the observable
    [AppState.current_screen], the event bus, and of
    [PeTTraCApplication] the key of [current_screen] and the calls of
    [load_screen] made so far, in order. *)
Record world := mkWorld {
  app_state_current_screen : StateManager.Observable string;
  event_bus : EventBus;
  current_screen : option value;
  loaded : list value
}.

Definition with_current_screen_state (w : world) (o : StateManager.Observable string)
  : world :=
  mkWorld o (event_bus w) (current_screen w) (loaded w).

Definition with_event_bus (w : world) (bus : EventBus) : world :=
  mkWorld (app_state_current_screen w) bus (current_screen w) (loaded w).

Definition SCREEN_CHANGE : string := "screen_change".

(** The truth value of what [dict.get] returned. *)
Definition truthy (v : option value) : bool :=
  match v with
  | None | Some VNone => false
  | Some (VBool b) => b
  | Some (VInt n) => bool_decide (n <> 0%Z)
  | Some (VFloat q) => bool_decide (q <> 0%Qc)
  | Some (VStr s) => bool_decide (s <> ""%string)
  end.

(** [v != s] for a string [s]. *)
Definition differs (v : option value) (s : string) : bool :=
  match v with
  | Some (VStr s') => bool_decide (s' <> s)
  | _ => true
  end.

(** [PeTTraCApplication.load_screen], as far as the application object
    goes; what the screen objects do is not followed. *)
Definition load_screen (screen_name : value) (w : world) : world :=
  mkWorld (app_state_current_screen w) (event_bus w)
          (Some screen_name) (loaded w ++ [screen_name]).

(** [PeTTraCApplication._on_screen_change] *)
Definition App_on_screen_change (event : Event) (w : world) : world :=
  let new_screen := data event !! "screen"%string in
  if truthy new_screen
     && differs new_screen (StateManager.value (app_state_current_screen w))
  then match new_screen with
       | Some name => load_screen name w
       | None => w
       end
  else w.

(** The two callables the program wires: the subscriber
    [PeTTraCApplication._on_screen_change] and the observer
    [AppState._on_screen_change]. *)
Definition APP_ON_SCREEN_CHANGE : callback := 0%nat.
Definition STATE_ON_SCREEN_CHANGE : callback := 0%nat.

Section Wiring.

(** What the other subscribers of the bus and the other observers of
    [current_screen] do when they are called. *)
Variable subscriber : callback -> Event -> world -> outcome * world * Event.
Variable observer : callback -> string -> world -> outcome * world.

Definition call_subscriber (cb : callback) (event : Event) (w : world)
  : outcome * world * Event :=
  if decide (cb = APP_ON_SCREEN_CHANGE)
  then (Returned, App_on_screen_change event w, event)
  else subscriber cb event w.

(** The loop of [EventBus.publish] over the copied list. *)
Fixpoint dispatch (snapshot : list callback) (event : Event) (w : world)
  : world * Event :=
  match snapshot with
  | [] => (w, event)
  | cb :: rest =>
      if handled event then dispatch rest event w
      else
        let '(res, w1, event1) := call_subscriber cb event w in
        let w2 := match res with
                  | Returned => with_event_bus w1 (count_processed (event_bus w1))
                  | Raised => w1
                  end in
        dispatch rest event1 w2
  end.

Definition publish (event : Event) (w : world) : world :=
  match listeners (event_bus w) !! event_type event with
  | Some ls => fst (dispatch ls event w)
  | None => w
  end.

Definition publish_by_type (event_type : string) (data : option (gmap string value))
    (w : world) : world :=
  publish (Event_init event_type data) w.

(** [AppState._on_screen_change] *)
Definition AppState_on_screen_change (new_screen : string) (w : world) : world :=
  publish_by_type SCREEN_CHANGE (Some {[ "screen"%string := VStr new_screen ]}) w.

Definition call_observer (cb : callback) (new_value : string) (w : world)
  : outcome * world :=
  if decide (cb = STATE_ON_SCREEN_CHANGE)
  then (Returned, AppState_on_screen_change new_value w)
  else observer cb new_value w.

(** [Observable._notify_observers] on [current_screen]: the loop reads
    the live list by position; [None] is fuel exhausted. *)
Fixpoint _notify_observers (fuel : nat) (i : nat) (new_value : string) (w : world)
  : option world :=
  match fuel with
  | O => None
  | S fuel' =>
      match StateManager._observers (app_state_current_screen w) !! i with
      | None => Some w
      | Some cb =>
          let '(_, w1) := call_observer cb new_value w in
          _notify_observers fuel' (S i) new_value w1
      end
  end.

(** [app_state.current_screen.value = new_value] *)
Definition set_current_screen (fuel : nat) (new_value : string) (w : world)
  : option world :=
  let o := app_state_current_screen w in
  if decide (new_value = StateManager._value o) then Some w
  else _notify_observers fuel 0 new_value
         (with_current_screen_state w
            (StateManager.mkObservable new_value (StateManager._observers o))).

(** Callables that leave the screen state and the application alone and
    do not edit the screen name in the event. *)
Definition bystanders : Prop :=
  (forall cb event w,
     let r := subscriber cb event w in
     app_state_current_screen (snd (fst r)) = app_state_current_screen w
     /\ current_screen (snd (fst r)) = current_screen w
     /\ loaded (snd (fst r)) = loaded w
     /\ data (snd r) !! "screen"%string = data event !! "screen"%string
     /\ event_type (snd r) = event_type event)
  /\ (forall cb new_value w,
        let r := observer cb new_value w in
        app_state_current_screen (snd r) = app_state_current_screen w
        /\ current_screen (snd r) = current_screen w
        /\ loaded (snd r) = loaded w).

(** Two worlds that differ in the bus only. *)
Definition same_screens (w w' : world) : Prop :=
  app_state_current_screen w' = app_state_current_screen w
  /\ current_screen w' = current_screen w
  /\ loaded w' = loaded w.

Lemma same_screens_refl w : same_screens w w.
Proof. by repeat split. Qed.

Lemma same_screens_trans w1 w2 w3 :
  same_screens w1 w2 -> same_screens w2 w3 -> same_screens w1 w3.
Proof. intros (? & ? & ?) (? & ? & ?). repeat split; congruence. Qed.

Lemma App_on_screen_change_same_name event w :
  data event !! "screen"%string
  = Some (VStr (StateManager.value (app_state_current_screen w))) ->
  App_on_screen_change event w = w.
Proof.
  intros Hname. unfold App_on_screen_change. rewrite Hname. cbn [differs].
  rewrite (bool_decide_false (_ <> _)) by (intros Hne; by apply Hne).
  by rewrite andb_false_r.
Qed.

Hypothesis Hby : bystanders.

Lemma call_subscriber_same cb event w :
  data event !! "screen"%string
  = Some (VStr (StateManager.value (app_state_current_screen w))) ->
  same_screens w (snd (fst (call_subscriber cb event w)))
  /\ data (snd (call_subscriber cb event w)) !! "screen"%string
     = data event !! "screen"%string.
Proof.
  intros Hname. unfold call_subscriber.
  destruct (decide (cb = APP_ON_SCREEN_CHANGE)); cbn [fst snd].
  - rewrite App_on_screen_change_same_name by done. split; [apply same_screens_refl|done].
  - destruct Hby as [Hsub _]. destruct (Hsub cb event w) as (Ho & Hc & Hl & Hd & _).
    split; [by repeat split|done].
Qed.

Lemma dispatch_same snapshot : forall event w,
  data event !! "screen"%string
  = Some (VStr (StateManager.value (app_state_current_screen w))) ->
  same_screens w (fst (dispatch snapshot event w)).
Proof.
  induction snapshot as [|cb rest IH]; intros event w Hname; cbn [dispatch].
  - apply same_screens_refl.
  - destruct (handled event); [by apply IH|].
    destruct (call_subscriber_same cb event w Hname) as [Hsame Hdata].
    destruct (call_subscriber cb event w) as [[res w1] event1]. cbn [fst snd] in *.
    set (w2 := match res with Returned => _ | Raised => _ end).
    assert (Hsame2 : same_screens w w2).
    { destruct Hsame as (Ho & Hc & Hl). unfold w2. by destruct res. }
    eapply same_screens_trans; [exact Hsame2|]. apply IH.
    destruct Hsame2 as (-> & _). by rewrite Hdata.
Qed.

Lemma AppState_on_screen_change_same w :
  same_screens w
    (AppState_on_screen_change (StateManager.value (app_state_current_screen w)) w).
Proof.
  unfold AppState_on_screen_change, publish_by_type, publish.
  destruct (listeners (event_bus w) !! _) as [ls|]; [|apply same_screens_refl].
  apply dispatch_same. unfold Event_init. cbn [data from_option id].
  apply lookup_singleton_eq.
Qed.

Lemma call_observer_same cb w :
  same_screens w
    (snd (call_observer cb (StateManager.value (app_state_current_screen w)) w)).
Proof.
  unfold call_observer. destruct (decide (cb = STATE_ON_SCREEN_CHANGE)); cbn [snd].
  - apply AppState_on_screen_change_same.
  - destruct Hby as [_ Hobs]. apply Hobs.
Qed.

Lemma notify_same new_value : forall fuel i w,
  StateManager.value (app_state_current_screen w) = new_value ->
  (length (StateManager._observers (app_state_current_screen w)) - i < fuel)%nat ->
  exists w', _notify_observers fuel i new_value w = Some w' /\ same_screens w w'.
Proof.
  induction fuel as [|fuel IH]; intros i w Hvalue Hfuel; [lia|].
  cbn [_notify_observers].
  destruct (StateManager._observers (app_state_current_screen w) !! i) as [cb|] eqn:Hcb.
  - pose proof (call_observer_same cb w) as Hsame. rewrite Hvalue in Hsame.
    destruct (call_observer cb new_value w) as [res w1]. cbn [snd] in Hsame.
    apply lookup_lt_Some in Hcb.
    destruct (IH (S i) w1) as (w' & Hrun & Hsame').
    + destruct Hsame as (-> & _). exact Hvalue.
    + destruct Hsame as (-> & _). lia.
    + exists w'. split; [exact Hrun|]. by eapply same_screens_trans.
  - exists w. split; [done|apply same_screens_refl].
Qed.

End Wiring.

(** Subscribers that act on the bus and the event only, as
    [EventSystem.publish] takes them. *)
Definition on_bus (run : callback -> EventBus -> Event -> outcome * EventBus * Event)
    (cb : callback) (event : Event) (w : world) : outcome * world * Event :=
  let '(res, bus1, event1) := run cb (event_bus w) event in
  (res, with_event_bus w bus1, event1).

(** On such subscribers the loop over the world is the loop of
    [EventSystem.dispatch] on the bus. *)
Lemma dispatch_on_bus run snapshot : forall event w,
  APP_ON_SCREEN_CHANGE ∉ snapshot ->
  let r := dispatch (on_bus run) snapshot event w in
  let r' := EventSystem.dispatch run snapshot (event_bus w) event in
  event_bus (fst r) = fst (fst r') /\ snd r = snd (fst r')
  /\ same_screens w (fst r).
Proof.
  induction snapshot as [|cb rest IH]; intros event w Hno; cbn [dispatch EventSystem.dispatch].
  - cbn. split; [done|]. split; [done|apply same_screens_refl].
  - assert (Hrest : APP_ON_SCREEN_CHANGE ∉ rest) by (intros Hin; apply Hno; by right).
    destruct (handled event); [by apply IH|].
    unfold call_subscriber. rewrite decide_False by (intros ->; apply Hno; left).
    destruct (run cb (event_bus w) event) as [[res bus1] event1] eqn:Hrun.
    assert (Hon : on_bus run cb event w = (res, with_event_bus w bus1, event1))
      by (unfold on_bus; by rewrite Hrun).
    rewrite Hon.
    set (w2 := match res with Returned => _ | Raised => _ end).
    set (bus2 := match res with Returned => _ | Raised => _ end).
    assert (Hbus : event_bus w2 = bus2) by (unfold w2, bus2; by destruct res).
    assert (Hsame : same_screens w w2).
    { unfold w2, same_screens, with_event_bus.
      destruct res; cbn [app_state_current_screen current_screen loaded]; done. }
    specialize (IH event1 w2 Hrest). cbv zeta in IH. rewrite Hbus in IH.
    destruct (EventSystem.dispatch run rest bus2 event1) as [[bus3 event3] tr].
    cbn [fst snd] in *. destruct IH as (Hb & He & Hs).
    split; [done|]. split; [done|]. by eapply same_screens_trans.
Qed.

(** X24. Assigning [app_state.current_screen.value] stores the name and
    publishes [screen_change], but the application does not load the
    screen: the observable holds the new name before its observers run,
    so when [PeTTraCApplication._on_screen_change] receives the event it
    finds the name equal to the current value and does nothing. This
    holds whatever the other subscribers and observers do, as long as
    they leave the screen state, the application and the name in the
    event alone. The screen the application shows is the one it showed
    before, while the state names another. *)
Theorem assigning_current_screen_loads_nothing
    (subscriber : callback -> Event -> world -> outcome * world * Event)
    (observer : callback -> string -> world -> outcome * world)
    (new_value : string) (w : world) :
  bystanders subscriber observer ->
  let observers := StateManager._observers (app_state_current_screen w) in
  exists w',
    set_current_screen subscriber observer (S (length observers)) new_value w = Some w'
    /\ StateManager.value (app_state_current_screen w') = new_value
    /\ StateManager._observers (app_state_current_screen w') = observers
    /\ loaded w' = loaded w
    /\ current_screen w' = current_screen w.
Proof.
  intros Hby observers. unfold set_current_screen.
  destruct (decide (new_value = StateManager._value (app_state_current_screen w)))
    as [->|Hne].
  - exists w. by repeat split.
  - set (w0 := with_current_screen_state w _).
    destruct (notify_same subscriber observer Hby new_value
                (S (length observers)) 0 w0) as (w' & Hrun & Ho & Hc & Hl).
    + reflexivity.
    + cbn. unfold observers. lia.
    + exists w'. split; [exact Hrun|]. rewrite Ho. by repeat split.
Qed.

(** The program as it wires itself: one observer of [current_screen], one
    subscriber of [screen_change], the desktop screen loaded at start. *)
Definition wired : world :=
  mkWorld
    (StateManager.observe (StateManager.Observable_init "desktop"%string)
                          STATE_ON_SCREEN_CHANGE)
    (subscribe EventBus_init SCREEN_CHANGE APP_ON_SCREEN_CHANGE)
    (Some (VStr "desktop")) [VStr "desktop"].

Definition no_subscriber (cb : callback) (event : Event) (w : world)
  : outcome * world * Event := (Returned, w, event).

Definition no_observer (cb : callback) (new_value : string) (w : world)
  : outcome * world := (Returned, w).

Lemma assigning_current_screen_loads_nothing_witness :
  exists w',
    set_current_screen no_subscriber no_observer 2 "menu" wired = Some w'
    /\ StateManager.value (app_state_current_screen w') = "menu"%string
    /\ processed_events (event_bus w') = 1%Z
    /\ loaded w' = [VStr "desktop"]
    /\ current_screen w' = Some (VStr "desktop").
Proof.
  destruct (assigning_current_screen_loads_nothing no_subscriber no_observer
              "menu" wired) as (w' & Hrun & Hvalue & _ & Hloaded & Hcurrent).
  - split; intros; cbn; by repeat split.
  - exists w'. split; [exact Hrun|]. split; [exact Hvalue|].
    split; [|split; [exact Hloaded|exact Hcurrent]].
    change (S (length (StateManager._observers (app_state_current_screen wired))))
      with 2%nat in Hrun.
    assert (Hw : set_current_screen no_subscriber no_observer 2 "menu" wired
                 = Some (mkWorld (StateManager.mkObservable "menu"%string [0%nat])
                           (mkEventBus {[ SCREEN_CHANGE := [0%nat] ]} 1 false)
                           (Some (VStr "desktop")) [VStr "desktop"]))
      by (vm_compute; reflexivity).
    rewrite Hw in Hrun. injection Hrun as <-. reflexivity.
Defined.

(** The event published by hand with another name does load the screen,
    and leaves the state naming the old one. *)
Example screen_change_event_loads :
  let w' := publish_by_type no_subscriber SCREEN_CHANGE
              (Some {[ "screen"%string := VStr "menu" ]}) wired in
  loaded w' = [VStr "desktop"; VStr "menu"]
  /\ current_screen w' = Some (VStr "menu")
  /\ StateManager.value (app_state_current_screen w') = "desktop"%string.
Proof. vm_compute. repeat split; reflexivity. Qed.

End Navigation.

(** ** config.py: loading the file *)

Module ConfigLoad.

Import Config.

Local Open Scope Z_scope.













End ConfigLoad.

(** ** screens.py: the settings screen and the theme key *)

Module Settings.

Import Hardware.

Local Open Scope Z_scope.

(** Python's [==] on the values: numbers compare by value across
    [bool], [int] and [float]; a string equals only the same string. *)
Definition numeric (v : value) : option Qc :=
  match v with
  | VBool b => Some (if b then 1%Qc else 0%Qc)
  | VInt n => Some (Qc_of_Z n)
  | VFloat q => Some q
  | VNone | VStr _ => None
  end.

Definition py_eq (a b : value) : bool :=
  match numeric a, numeric b with
  | Some x, Some y => bool_decide (x = y)
  | _, _ =>
      match a, b with
      | VNone, VNone => true
      | VStr s, VStr t => bool_decide (s = t)
      | _, _ => false
      end
  end.

(** [options.index(v)]; [None] when [v in options] is false. *)
Fixpoint index (v : value) (options : list value) : option nat :=
  match options with
  | [] => None
  | o :: rest => if py_eq o v then Some O else S <$> index v rest
  end.

(** An entry of [SettingsScreen.settings]: a number with [min], [max]
    and [step]; a choice among [options]; or an action. *)
Inductive setting :=
| Numeric (name : string) (current min max step : Z)
| Choice (name : string) (current : value) (options : list value)
| Action (name action : string).

(** The new entry computed by [_adjust_setting(direction)], before it is
    applied; [None] is the [ZeroDivisionError] of an empty option list. *)
Definition _adjust_setting (direction : Z) (s : setting) : option setting :=
  match s with
  | Action _ _ => Some s
  | Choice name v options =>
      let current_idx := default O (index v options) in
      if decide (options = []) then None
      else
        let new_idx := (Z.of_nat current_idx + direction) mod Z.of_nat (length options) in
        (fun v' => Choice name v' options) <$> options !! Z.to_nat new_idx
  | Numeric name v min max step =>
      let new_value := v + step * direction in
      Some (Numeric name (Z.max min (Z.min max new_value)) min max step)
  end.

(** The entries the screen is built with. *)
Definition brightness_setting (brightness : Z) : setting :=
  Numeric "Brightness" brightness 0 100 5.

Definition rotation_options : list value := [VInt 0; VInt 90; VInt 180; VInt 270].

Definition rotation_setting (rotation : value) : setting :=
  Choice "Rotation" rotation rotation_options.

Lemma index_lt v options i : index v options = Some i -> (i < length options)%nat.
Proof.
  revert i. induction options as [|o rest IH]; intros i; [done|].
  cbn [index length]. destruct (py_eq o v); [intros [= <-]; lia|].
  destruct (index v rest) as [j|]; [|done]. intros [= <-].
  specialize (IH j eq_refl). lia.
Qed.

Lemma adjust_choice name v options direction :
  options <> [] ->
  exists v',
    options !! Z.to_nat ((Z.of_nat (default O (index v options)) + direction)
                         mod Z.of_nat (length options)) = Some v'
    /\ _adjust_setting direction (Choice name v options) = Some (Choice name v' options)
    /\ v' ∈ options.
Proof.
  intros Hne. cbn [_adjust_setting]. rewrite decide_False by done.
  assert (Hlen : 0 < Z.of_nat (length options)).
  { destruct options; [done|]. cbn [length]. lia. }
  set (new_idx := (_ + direction) mod _).
  assert (Hrange : 0 <= new_idx < Z.of_nat (length options))
    by (by apply Z.mod_pos_bound).
  destruct (lookup_lt_is_Some_2 options (Z.to_nat new_idx)) as [v' Hv']; [lia|].
  exists v'. rewrite Hv'. split; [done|]. split; [done|].
  by eapply list_elem_of_lookup_2.
Qed.

(** X26. [_adjust_setting] never leaves the range of a setting: a
    numeric setting whose [min] is not above its [max] ends within
    [min..max] whatever it held and whatever the step, and stays at a
    bound it is pushed against; a choice over a non-empty option list ends
    on one of the options, the list itself untouched, stepping round the
    list in both directions; an action entry is left alone. A brightness
    chosen on the screen is therefore one the backlight takes as it is. *)
Theorem adjust_setting_stays_in_range (direction : Z) :
  (forall name v min max step,
     min <= max ->
     exists v',
       _adjust_setting direction (Numeric name v min max step)
       = Some (Numeric name v' min max step)
       /\ min <= v' <= max
       /\ (min <= v + step * direction <= max -> v' = v + step * direction)
       /\ (max <= v + step * direction -> v' = max)
       /\ (v + step * direction <= min -> v' = min))
  /\ (forall name v options,
        options <> [] ->
        exists v',
          _adjust_setting direction (Choice name v options) = Some (Choice name v' options)
          /\ v' ∈ options
          /\ options !! Z.to_nat ((Z.of_nat (default O (index v options)) + direction)
                                  mod Z.of_nat (length options)) = Some v')
  /\ (forall name action,
        _adjust_setting direction (Action name action) = Some (Action name action))
  /\ (forall brightness,
        exists v',
          _adjust_setting direction (brightness_setting brightness)
          = Some (brightness_setting v')
          /\ BacklightFacts.clamp_0_100 v' = v').
Proof.
  split; [|split; [|split]].
  - intros name v min max step Hle.
    exists (Z.max min (Z.min max (v + step * direction))).
    split; [done|]. repeat split; lia.
  - intros name v options Hne.
    destruct (adjust_choice name v options direction Hne) as (v' & Hv' & Hrun & Hin).
    by exists v'.
  - done.
  - intros brightness. exists (Z.max 0 (Z.min 100 (brightness + 5 * direction))).
    split; [done|]. unfold BacklightFacts.clamp_0_100. lia.
Qed.

Lemma adjust_setting_stays_in_range_witness :
  _adjust_setting 1 (brightness_setting 98) = Some (brightness_setting 100)
  /\ _adjust_setting (-1) (brightness_setting 3) = Some (brightness_setting 0).
Proof.
  destruct (adjust_setting_stays_in_range 1) as (Hup & _).
  destruct (adjust_setting_stays_in_range (-1)) as (Hdown & _).
  destruct (Hup "Brightness"%string 98 0 100 5) as (v1 & Hrun1 & _ & _ & Hmax & _); [lia|].
  destruct (Hdown "Brightness"%string 3 0 100 5) as (v2 & Hrun2 & _ & _ & _ & Hmin); [lia|].
  rewrite (Hmax ltac:(lia)) in Hrun1. rewrite (Hmin ltac:(lia)) in Hrun2.
  split; [exact Hrun1|exact Hrun2].
Defined.

Lemma rotation_option_values v :
  v ∈ rotation_options -> exists r, v = VInt r /\ r ∈ [0; 90; 180; 270].
Proof.
  unfold rotation_options. rewrite !elem_of_cons, elem_of_nil.
  intros [->|[->|[->|[->|[]]]]]; eexists; (split; [reflexivity|]);
    rewrite !elem_of_cons; auto.
Qed.

(** X27. Whatever the rotation entry held (a value of the configuration
    file that is none of the four counts as the first), one step on the
    settings screen gives one of 0, 90, 180, 270, a rotation
    [set_rotation] accepts; from one of the four, a step to the right
    adds a quarter turn and a step to the left takes one off, wrapping
    round. *)
Theorem rotation_setting_is_always_accepted
    (v : value) (direction : Z) (m : machine) :
  exists r,
    _adjust_setting direction (rotation_setting v) = Some (rotation_setting (VInt r))
    /\ r ∈ [0; 90; 180; 270]
    /\ fst (set_rotation r m) = Ok true
    /\ (forall r0, v = VInt r0 -> r0 ∈ [0; 90; 180; 270] ->
          (direction = 1 -> r = (r0 + 90) mod 360)
          /\ (direction = -1 -> r = (r0 - 90) mod 360))
    /\ (index v rotation_options = None ->
          (direction = 1 -> r = 90) /\ (direction = -1 -> r = 270)).
Proof.
  destruct (adjust_choice "Rotation" v rotation_options direction) as (v' & Hv' & Hrun & Hin);
    [done|].
  destruct (rotation_option_values v' Hin) as (r & -> & Hr).
  exists r. split; [exact Hrun|]. split; [exact Hr|]. split.
  - by rewrite DisplayFacts.set_rotation_run.
  - split.
    + intros r0 -> Hr0. rewrite !elem_of_cons, elem_of_nil in Hr0.
      split; intros ->;
        destruct Hr0 as [->|[->|[->|[->|[]]]]]; vm_compute in Hv';
        injection Hv' as <-; reflexivity.
    + intros Hnone. rewrite Hnone in Hv'.
      split; intros ->; vm_compute in Hv'; injection Hv' as <-; reflexivity.
Qed.

Lemma rotation_setting_is_always_accepted_witness :
  _adjust_setting 1 (rotation_setting (VInt 270)) = Some (rotation_setting (VInt 0))
  /\ _adjust_setting (-1) (rotation_setting (VInt 45)) = Some (rotation_setting (VInt 270)).
Proof.
  destruct (rotation_setting_is_always_accepted (VInt 270) 1 (tiny_machine 0))
    as (r1 & Hrun1 & _ & _ & Hwheel & _).
  destruct (rotation_setting_is_always_accepted (VInt 45) (-1) (tiny_machine 0))
    as (r2 & Hrun2 & _ & _ & _ & Hother).
  destruct (Hwheel 270 eq_refl) as [Hright _].
  { apply (bool_decide_unpack _). vm_compute. exact I. }
  destruct (Hother eq_refl) as [_ Hleft].
  rewrite (Hright eq_refl) in Hrun1. rewrite (Hleft eq_refl) in Hrun2.
  split; [exact Hrun1|exact Hrun2].
Defined.

End Settings.

(** ** ui_framework.py and screens.py: themes *)

Module Theme.

Import Config.

(** [ThemeManager.THEMES], in insertion order. *)
Definition THEMES : list (string * list (string * string)) :=
  [ ("default",
     [ ("background", "BLACK"); ("text", "WHITE"); ("title", "WHITE");
       ("highlight", "BLUE"); ("accent1", "CYAN"); ("accent2", "GREEN");
       ("warning", "YELLOW"); ("error", "RED"); ("menu_bg", "BLUE");
       ("menu_item", "WHITE"); ("menu_selected_bg", "GRAY");
       ("menu_selected_text", "WHITE") ]);
    ("dark",
     [ ("background", "BLACK"); ("text", "LIGHTGRAY"); ("title", "WHITE");
       ("highlight", "PURPLE"); ("accent1", "CYAN"); ("accent2", "GREEN");
       ("warning", "ORANGE"); ("error", "RED"); ("menu_bg", "DARKBLUE");
       ("menu_item", "LIGHTGRAY"); ("menu_selected_bg", "PURPLE");
       ("menu_selected_text", "WHITE") ]);
    ("light",
     [ ("background", "WHITE"); ("text", "BLACK"); ("title", "BLACK");
       ("highlight", "BLUE"); ("accent1", "DARKBLUE"); ("accent2", "DARKGREEN");
       ("warning", "ORANGE"); ("error", "RED"); ("menu_bg", "LIGHTGRAY");
       ("menu_item", "BLACK"); ("menu_selected_bg", "BLUE");
       ("menu_selected_text", "WHITE") ]);
    ("blue",
     [ ("background", "NAVY"); ("text", "WHITE"); ("title", "CYAN");
       ("highlight", "CYAN"); ("accent1", "LIGHTBLUE"); ("accent2", "GREEN");
       ("warning", "YELLOW"); ("error", "RED"); ("menu_bg", "DARKBLUE");
       ("menu_item", "WHITE"); ("menu_selected_bg", "CYAN");
       ("menu_selected_text", "BLACK") ]) ]%string.

(** [d.get(key)] on a dictionary given by its items. *)
Fixpoint dict_get {A} (d : list (string * A)) (key : string) : option A :=
  match d with
  | [] => None
  | (k, a) :: rest => if decide (k = key) then Some a else dict_get rest key
  end.

(** [current_theme] is whatever the configuration held: the constructor
    does not check it. *)
Record ThemeManager := mkThemeManager {
  current_theme : value
}.

(** [ThemeManager.__init__]: [config.get("display", "theme") or "default"]. *)
Definition ThemeManager_init (cfg : Configuration) : ThemeManager :=
  let v := get cfg "display" "theme" in
  mkThemeManager (if Navigation.truthy v then default VNone v else VStr "default").

(** [THEMES.get(current_theme, ...)]: only a string can be a key. *)
Definition theme_of (v : value) : option (list (string * string)) :=
  match v with
  | VStr name => dict_get THEMES name
  | _ => None
  end.

Definition get_color (tm : ThemeManager) (element : string) : string :=
  let theme := default (default [] (dict_get THEMES "default"))
                       (theme_of (current_theme tm)) in
  default "WHITE"%string (dict_get theme element).

Definition get_current_theme (tm : ThemeManager) : value := current_theme tm.

Definition get_available_themes : list string := THEMES.*1.

Definition set_theme (theme_name : string) (tm : ThemeManager) (cfg : Configuration)
  : bool * ThemeManager * Configuration :=
  if decide (theme_name ∈ THEMES.*1)
  then (true, mkThemeManager (VStr theme_name),
        snd (fst (set cfg "display" "theme" (VStr theme_name))))
  else (false, tm, cfg).

#[local] Instance value_eq_dec : EqDecision value.
Proof. solve_decision. Defined.

(** [themes.index(v)] for a list of strings; [None] is [ValueError]. *)
Fixpoint index (v : value) (themes : list string) : option nat :=
  match themes with
  | [] => None
  | t :: rest =>
      if decide (v = VStr t) then Some O else S <$> index v rest
  end.

(** The [key3] branch of [DesktopScreen._on_button_press], as far as the
    theme goes; [None] is the exception [themes.index] raises. *)
Definition cycle_theme (tm : ThemeManager) (cfg : Configuration)
  : option (ThemeManager * Configuration) :=
  let themes := get_available_themes in
  match index (get_current_theme tm) themes with
  | None => None
  | Some current_idx =>
      let next_idx := ((current_idx + 1) mod length themes)%nat in
      match themes !! next_idx with
      | None => None
      | Some next_theme =>
          let '(_, tm', cfg') := set_theme next_theme tm cfg in
          Some (tm', cfg')
      end
  end.

(** [n] presses of [key3]. *)
Fixpoint presses (n : nat) (tm : ThemeManager) (cfg : Configuration)
  : option (ThemeManager * Configuration) :=
  match n with
  | O => Some (tm, cfg)
  | S n' =>
      match cycle_theme tm cfg with
      | Some (tm', cfg') => presses n' tm' cfg'
      | None => None
      end
  end.

(** The theme after [name] in the ring. *)
Definition successor (name : string) : string :=
  if decide (name = "default"%string) then "dark"
  else if decide (name = "dark"%string) then "light"
  else if decide (name = "light"%string) then "blue"
  else "default".

Lemma known_names name :
  name ∈ get_available_themes ->
  name = "default"%string \/ name = "dark"%string
  \/ name = "light"%string \/ name = "blue"%string.
Proof.
  unfold get_available_themes. cbn. rewrite !elem_of_cons, elem_of_nil. tauto.
Qed.

Lemma cycle_theme_known name cfg tm :
  name ∈ get_available_themes -> current_theme tm = VStr name ->
  cycle_theme tm cfg
  = Some (mkThemeManager (VStr (successor name)),
          snd (fst (set cfg "display" "theme" (VStr (successor name))))).
Proof.
  intros Hin Hcur. destruct tm as [cur]. cbn [current_theme] in Hcur. subst cur.
  apply known_names in Hin as [-> | [-> | [-> | ->]]]; reflexivity.
Qed.

Lemma successor_known name :
  name ∈ get_available_themes ->
  successor name ∈ get_available_themes /\ successor name <> name
  /\ successor (successor (successor (successor name))) = name.
Proof.
  intros Hin. apply known_names in Hin as [-> | [-> | [-> | ->]]];
    (split; [apply (bool_decide_unpack _); vm_compute; exact I|]);
    (split; [discriminate|reflexivity]).
Qed.

Lemma index_unknown v themes :
  (forall name, name ∈ themes -> v <> VStr name) -> index v themes = None.
Proof.
  induction themes as [|t rest IH]; intros Hno; [done|].
  cbn [index]. rewrite decide_False by (apply Hno; left).
  rewrite IH; [done|]. intros name Hname. apply Hno. by right.
Qed.

Lemma dict_get_unknown {A} (d : list (string * A)) key :
  key ∉ d.*1 -> dict_get d key = None.
Proof.
  induction d as [|[k a] rest IH]; intros Hno; [done|].
  cbn [dict_get]. rewrite fmap_cons in Hno. cbn [fst] in Hno.
  rewrite decide_False by (intros ->; apply Hno; left).
  apply IH. intros Hin. apply Hno. by right.
Qed.

(** X28. The theme key of the desktop steps through the four themes in
    the order default, dark, light, blue and round again: every step is
    accepted by [set_theme] and written to the configuration, and four
    presses come back to the theme they started from. The constructor
    takes the theme of the configuration unchecked; when that is not one
    of the four, the key raises on every press and changes nothing, and
    every colour is the one of the default theme. *)
Theorem theme_key_cycles_known_themes (tm : ThemeManager) (cfg : Configuration) :
  (forall name,
     name ∈ get_available_themes -> current_theme tm = VStr name ->
     exists cfg',
       cycle_theme tm cfg = Some (mkThemeManager (VStr (successor name)), cfg')
       /\ successor name ∈ get_available_themes
       /\ successor name <> name
       /\ fst (fst (set_theme (successor name) tm cfg)) = true
       /\ get cfg' "display" "theme" = Some (VStr (successor name))
       /\ exists cfg'', presses 4 tm cfg = Some (mkThemeManager (VStr name), cfg''))
  /\ ((forall name, name ∈ get_available_themes -> current_theme tm <> VStr name) ->
      cycle_theme tm cfg = None
      /\ forall element,
           get_color tm element = get_color (mkThemeManager (VStr "default")) element).
Proof.
  split.
  - intros name Hin Hcur.
    destruct (successor_known name Hin) as (Hin1 & Hne & Hring).
    destruct (successor_known _ Hin1) as (Hin2 & _ & _).
    destruct (successor_known _ Hin2) as (Hin3 & _ & _).
    eexists. split; [by apply cycle_theme_known|].
    split; [exact Hin1|]. split; [exact Hne|]. split.
    + unfold set_theme. by rewrite decide_True.
    + split; [apply ConfigFacts.get_after_set|].
      cbn [presses]. rewrite (cycle_theme_known name) by done.
      rewrite (cycle_theme_known (successor name)) by done.
      rewrite (cycle_theme_known (successor (successor name))) by done.
      rewrite (cycle_theme_known (successor (successor (successor name)))) by done.
      rewrite Hring. by eexists.
  - intros Hunknown. split.
    + unfold cycle_theme, get_current_theme. by rewrite index_unknown.
    + intros element. unfold get_color.
      assert (Hnone : theme_of (current_theme tm) = None).
      { unfold theme_of. destruct (current_theme tm) as [| | | |name]; try done.
        apply dict_get_unknown. intros Hin. by apply (Hunknown name Hin). }
      by rewrite Hnone.
Qed.

(** A configuration whose file names a theme the program does not have. *)
Definition neon_config : Configuration :=
  snd (fst (set Battery.default_config "display" "theme" (VStr "neon"))).

Lemma theme_key_cycles_known_themes_witness :
  (exists cfg', cycle_theme (ThemeManager_init Battery.default_config)
                            Battery.default_config
                = Some (mkThemeManager (VStr "dark"), cfg'))
  /\ cycle_theme (ThemeManager_init neon_config) neon_config = None
  /\ get_color (ThemeManager_init neon_config) "text" = "WHITE"%string.
Proof.
  destruct (theme_key_cycles_known_themes (ThemeManager_init Battery.default_config)
              Battery.default_config) as [Hknown _].
  destruct (theme_key_cycles_known_themes (ThemeManager_init neon_config) neon_config)
    as [_ Hunknown].
  split.
  - destruct (Hknown "default"%string) as (cfg' & Hrun & _).
    + apply (bool_decide_unpack _). vm_compute. exact I.
    + vm_compute. reflexivity.
    + by exists cfg'.
  - destruct Hunknown as [Hnone Hcolor].
    + intros name Hin Hcur. apply known_names in Hin.
      vm_compute in Hcur. injection Hcur as Hcur.
      destruct Hin as [-> | [-> | [-> | ->]]]; discriminate Hcur.
    + split; [exact Hnone|]. rewrite Hcolor. reflexivity.
Defined.

End Theme.
